(** * pysplat: a verification development

    Shallow embedding of [pysplat/__init__.py]: the [Transmitter] and
    [Receiver] value objects, their projections [to_qthfields] and
    [to_lrpfields], the [.qth] / [.lrp] templates, and the report parser
    and pipeline of [splat_report_values].

    Python values are modelled as follows.
    - [str] is [string]; a character is one code point below 256, which is
      exact for the report text (decoded as iso_8859_1).
    - [decimal.Decimal] is the triple (sign, coefficient, exponent) of
      [_pydecimal.py], plus infinities and NaNs; the arithmetic follows
      [Decimal.__add__], [__sub__], [__mod__], [__truediv__] and [_fix]
      under the default context (prec 28, ROUND_HALF_EVEN, Emax 999999,
      Emin -999999, traps InvalidOperation, DivisionByZero, Overflow).
      The C implementation that CPython loads in its place gives the same
      results, and refuses besides a string whose exponent lies beyond
      its own limits (10**18, give or take the digits); these limits are
      not modelled, and the strings of floats stay far below them.
    - a [float] is known through [str(val)], which is all the module asks
      of one.
    - a raised exception is the [Raise] branch of [result].
    - the files live on Linux, in a UTF-8 locale: a path takes up to 4095
      bytes and each of its components up to 255, text is written in
      UTF-8, and the external program is an oracle on the files. *)

From Stdlib Require Import ZArith NArith QArith Qround Qpower Qabs List String Ascii Bool Lia.
Import ListNotations.

Local Open Scope string_scope.
Local Open Scope Z_scope.

Ltac Zify.zify_post_hook ::= Z.to_euclidean_division_equations.

(** ** Exceptions and the result monad *)

Inductive exn : Type :=
| InvalidOperation            (* decimal.InvalidOperation and its sub-conditions *)
| DivisionByZero              (* decimal.DivisionByZero *)
| Overflow                    (* decimal.Overflow *)
| TypeError
| ValueError                  (* also "embedded null byte" *)
| UnicodeDecodeError          (* a ValueError: bytes that are no text *)
| KeyError (key : string)
| OSError (path : string)     (* FileNotFoundError and friends *)
| TimeoutExpired              (* subprocess.TimeoutExpired *)
| CalledProcessError (returncode : Z)
| SplatReportException (report_text : string).

Inductive result (A : Type) : Type :=
| Ok (a : A)
| Raise (e : exn).

Arguments Ok {A} a.
Arguments Raise {A} e.

Definition bind {A B : Type} (c : result A) (k : A -> result B) : result B :=
  match c with
  | Ok a => k a
  | Raise e => Raise e
  end.

Notation "x <- c ;; k" := (bind c (fun x => k))
  (at level 61, c at next level, right associativity).

(** ** Characters and strings *)

Module Str.

Definition is_digit (c : ascii) : bool :=
  let n := N_of_ascii c in ((48 <=? n) && (n <=? 57))%N.

Definition digit_val (c : ascii) : N := (N_of_ascii c - 48)%N.

Definition digit_chr (d : N) : ascii := ascii_of_N (48 + d).

(** [str.isspace] on code points below 256. *)
Definition is_space (c : ascii) : bool :=
  let n := N_of_ascii c in
  (((9 <=? n) && (n <=? 13)) || ((28 <=? n) && (n <=? 32))
   || (n =? 133) || (n =? 160))%N.

Definition lower (c : ascii) : ascii :=
  let n := N_of_ascii c in
  if ((65 <=? n) && (n <=? 90))%N then ascii_of_N (n + 32) else c.

Fixpoint map (f : ascii -> ascii) (s : string) : string :=
  match s with
  | EmptyString => EmptyString
  | String c s' => String (f c) (map f s')
  end.

Fixpoint forallb (p : ascii -> bool) (s : string) : bool :=
  match s with
  | EmptyString => true
  | String c s' => p c && forallb p s'
  end.

Fixpoint existsb (p : ascii -> bool) (s : string) : bool :=
  match s with
  | EmptyString => false
  | String c s' => p c || existsb p s'
  end.

Fixpoint filter (p : ascii -> bool) (s : string) : string :=
  match s with
  | EmptyString => EmptyString
  | String c s' => if p c then String c (filter p s') else filter p s'
  end.

Fixpoint rev_onto (s acc : string) : string :=
  match s with
  | EmptyString => acc
  | String c s' => rev_onto s' (String c acc)
  end.

Definition rev (s : string) : string := rev_onto s EmptyString.

Fixpoint lstrip (s : string) : string :=
  match s with
  | String c s' => if is_space c then lstrip s' else s
  | EmptyString => EmptyString
  end.

(** [s.strip()] *)
Definition strip (s : string) : string := rev (lstrip (rev (lstrip s))).

(** [s.replace('_', '')] *)
Definition drop_underscores (s : string) : string :=
  filter (fun c => negb (Ascii.eqb c "_")) s.

(** The longest prefix of digits, and what follows it. *)
Fixpoint span_digits (s : string) : string * string :=
  match s with
  | String c s' =>
      if is_digit c
      then let (d, r) := span_digits s' in (String c d, r)
      else (EmptyString, s)
  | EmptyString => (EmptyString, EmptyString)
  end.

(** [int(s)] for a string of digits; the empty string, which [int] rejects,
    stands for 0 here: the callers pass [s or '0']. *)
Fixpoint int_onto (s : string) (acc : N) : N :=
  match s with
  | EmptyString => acc
  | String c s' => int_onto s' (10 * acc + digit_val c)%N
  end.

Definition int_of_digits (s : string) : N := int_onto s 0%N.

(** [str(n)] for a natural number: its decimal digits, most significant
    first. *)
Fixpoint digits_onto (fuel : nat) (n : N) (acc : string) : string :=
  let acc' := String (digit_chr (n mod 10)) acc in
  match fuel with
  | O => acc'
  | S fuel' => if (n <? 10)%N then acc' else digits_onto fuel' (n / 10) acc'
  end.

Definition of_N (n : N) : string := digits_onto (N.to_nat (N.log2 n)) n EmptyString.

(** [str(z)] for an int. *)
Definition of_Z (z : Z) : string :=
  if z <? 0 then String "-" (of_N (Z.abs_N z)) else of_N (Z.abs_N z).

(** ["%+d" % z] *)
Definition of_Z_signed (z : Z) : string :=
  if z <? 0 then String "-" (of_N (Z.abs_N z)) else String "+" (of_N (Z.abs_N z)).

Fixpoint repeat (c : ascii) (n : nat) : string :=
  match n with
  | O => EmptyString
  | S n' => String c (repeat c n')
  end.

(** [s[:n]] and [s[n:]] for [0 <= n]. *)
Fixpoint take (n : nat) (s : string) : string :=
  match n, s with
  | S n', String c s' => String c (take n' s')
  | _, _ => EmptyString
  end.

Fixpoint drop (n : nat) (s : string) : string :=
  match n, s with
  | S n', String _ s' => drop n' s'
  | _, _ => s
  end.

(** ["sep".join(parts)] *)
Fixpoint join (sep : string) (parts : list string) : string :=
  match parts with
  | [] => EmptyString
  | [p] => p
  | p :: rest => p ++ sep ++ join sep rest
  end.

(** [s.split("\n")] *)
Fixpoint split_on (sep : ascii) (s : string) : list string :=
  match s with
  | EmptyString => [EmptyString]
  | String c s' =>
      if Ascii.eqb c sep then EmptyString :: split_on sep s'
      else match split_on sep s' with
           | l :: ls => String c l :: ls
           | [] => [String c EmptyString]
           end
  end.

(** Neither white space nor an underscore: what [strip] and the removal
    of underscores leave alone. *)
Definition not_blank (c : ascii) : bool :=
  negb (is_space c) && negb (Ascii.eqb c "_").

Definition nl : ascii := ascii_of_N 10.
Definition tab : ascii := ascii_of_N 9.

End Str.

(** ** re: the fragment of regular expressions the module uses *)

Module Re.

(** A single-character class: a literal, [\d] or [.] (under re.DOTALL, so
    any character; on text decoded as iso_8859_1 the Unicode decimal digits
    of [\d] are the ASCII ones). *)
Inductive cset : Type :=
| CLit (c : ascii)
| CDigit
| CAny.

Definition cmatch (cs : cset) (c : ascii) : bool :=
  match cs with
  | CLit d => Ascii.eqb c d
  | CDigit => Str.is_digit c
  | CAny => true
  end.

(** Compiled code, as sre compiles it: one character, a greedy [x*], a lazy
    [x*?], and the marks that open and close a capturing group. *)
Inductive instr : Type :=
| Chr (cs : cset)
| Star (cs : cset)
| LazyStar (cs : cset)
| Open
| Close.

(** *** [re.compile] *)

Inductive pstate : Type :=
| PNone                 (* nothing pending *)
| PEsc                  (* after a backslash *)
| PAtom (cs : cset)     (* an atom that a [*] may follow *)
| PStar (cs : cset).    (* an atom and its [*], that a [?] may follow *)

Inductive pstep : Type :=
| Emit (i : instr)
| Goto (st : pstate)
| Bad.

Definition is_meta (c : ascii) : bool :=
  Str.existsb (Ascii.eqb c) "*+?[]{}|^$".

Definition start (c : ascii) : pstep :=
  if Ascii.eqb c "\" then Goto PEsc
  else if Ascii.eqb c "(" then Emit Open
  else if Ascii.eqb c ")" then Emit Close
  else if Ascii.eqb c "." then Goto (PAtom CAny)
  else if is_meta c then Bad
  else Goto (PAtom (CLit c)).

Definition escaped (c : ascii) : option cset :=
  if Ascii.eqb c "d" then Some CDigit
  else if Str.existsb (Ascii.eqb c) ".\()*+?[]{}|^$" then Some (CLit c)
  else None.

Definition cons_opt (i : instr) (r : option (list instr)) : option (list instr) :=
  match r with
  | Some p => Some (i :: p)
  | None => None
  end.

Fixpoint compile_from (s : string) (st : pstate) : option (list instr) :=
  match s with
  | EmptyString =>
      match st with
      | PNone => Some []
      | PEsc => None
      | PAtom cs => Some [Chr cs]
      | PStar cs => Some [Star cs]
      end
  | String c r =>
      let continue (flush : option instr) :=
        let rest :=
          match start c with
          | Emit i => cons_opt i (compile_from r PNone)
          | Goto st' => compile_from r st'
          | Bad => None
          end in
        match flush with
        | Some i => cons_opt i rest
        | None => rest
        end in
      match st with
      | PNone => continue None
      | PEsc =>
          match escaped c with
          | Some cs => compile_from r (PAtom cs)
          | None => None
          end
      | PAtom cs =>
          if Ascii.eqb c "*" then compile_from r (PStar cs)
          else continue (Some (Chr cs))
      | PStar cs =>
          if Ascii.eqb c "?" then cons_opt (LazyStar cs) (compile_from r PNone)
          else continue (Some (Star cs))
      end
  end.

Definition compile (pattern : string) : option (list instr) :=
  compile_from pattern PNone.

(** *** Matching, by backtracking *)

(** The groups closed so far, last first, and the text of the group that is
    open, last character first. *)
Record mstate : Type := mkState {
  closed : list string;
  opened : option string
}.

Definition init : mstate := {| closed := []; opened := None |}.

Definition push (c : ascii) (st : mstate) : mstate :=
  match opened st with
  | Some g => {| closed := closed st; opened := Some (String c g) |}
  | None => st
  end.

Definition open_group (st : mstate) : mstate :=
  {| closed := closed st; opened := Some EmptyString |}.

Definition close_group (st : mstate) : mstate :=
  match opened st with
  | Some g => {| closed := Str.rev g :: closed st; opened := None |}
  | None => st
  end.

(** [match_at prog s st]: the first way, in the order a backtracking matcher
    tries them, to match [prog] at the start of [s]. *)
Fixpoint match_at (prog : list instr) (s : string) (st : mstate)
    {struct prog} : option mstate :=
  match prog with
  | [] => Some st
  | Open :: p => match_at p s (open_group st)
  | Close :: p => match_at p s (close_group st)
  | Chr cs :: p =>
      match s with
      | String c s' => if cmatch cs c then match_at p s' (push c st) else None
      | EmptyString => None
      end
  | Star cs :: p =>
      (fix greedy (s : string) (st : mstate) {struct s} : option mstate :=
         match s with
         | String c s' =>
             if cmatch cs c then
               match greedy s' (push c st) with
               | Some r => Some r
               | None => match_at p s st
               end
             else match_at p s st
         | EmptyString => match_at p s st
         end) s st
  | LazyStar cs :: p =>
      (fix lazy (s : string) (st : mstate) {struct s} : option mstate :=
         match match_at p s st with
         | Some r => Some r
         | None =>
             match s with
             | String c s' => if cmatch cs c then lazy s' (push c st) else None
             | EmptyString => None
             end
         end) s st
  end.

(** [re.search]: the match at the leftmost position that has one; the
    result is [m.groups()]. *)
Fixpoint search (prog : list instr) (s : string) : option (list string) :=
  match match_at prog s init with
  | Some st => Some (List.rev (closed st))
  | None =>
      match s with
      | String _ s' => search prog s'
      | EmptyString => None
      end
  end.

(** *** What a match is *)

Fixpoint push_all (w : string) (st : mstate) : mstate :=
  match w with
  | EmptyString => st
  | String c w' => push_all w' (push c st)
  end.

(** The code of a literal text. *)
Fixpoint lits (text : string) : list instr :=
  match text with
  | EmptyString => []
  | String c text' => Chr (CLit c) :: lits text'
  end.

(** [run prog w st st']: the code [prog] matches exactly the text [w],
    taking the groups from [st] to [st']. *)
Inductive run : list instr -> string -> mstate -> mstate -> Prop :=
| run_nil st :
    run [] EmptyString st st
| run_open p w st st' :
    run p w (open_group st) st' -> run (Open :: p) w st st'
| run_close p w st st' :
    run p w (close_group st) st' -> run (Close :: p) w st st'
| run_chr cs c p w st st' :
    cmatch cs c = true -> run p w (push c st) st' ->
    run (Chr cs :: p) (String c w) st st'
| run_star_done cs p w st st' :
    run p w st st' -> run (Star cs :: p) w st st'
| run_star_more cs c p w st st' :
    cmatch cs c = true -> run (Star cs :: p) w (push c st) st' ->
    run (Star cs :: p) (String c w) st st'
| run_lazy_done cs p w st st' :
    run p w st st' -> run (LazyStar cs :: p) w st st'
| run_lazy_more cs c p w st st' :
    cmatch cs c = true -> run (LazyStar cs :: p) w (push c st) st' ->
    run (LazyStar cs :: p) (String c w) st st'.

End Re.

(** ** decimal.Decimal *)

Module Dec.

(** [_sign], [_int], [_exp]; [_exp] is ['F'] for an infinity and ['n'] or
    ['N'] for a quiet or signaling NaN, whose [_int] is the payload (the
    empty payload is 0). *)
Inductive Decimal : Type :=
| Fin (sign : bool) (int : N) (exp : Z)
| Inf (sign : bool)
| NaN (sign : bool) (signaling : bool) (payload : N).

Record Context : Type := mkContext {
  prec : Z;
  Emax : Z;
  Emin : Z
}.

(** [decimal.DefaultContext]: rounding is ROUND_HALF_EVEN, clamp is 0,
    capitals is 1, and the traps are InvalidOperation, DivisionByZero and
    Overflow. *)
Definition DefaultContext : Context :=
  {| prec := 28; Emax := 999999; Emin := -999999 |}.

Definition Etiny (ctx : Context) : Z := Emin ctx - prec ctx + 1.
Definition Etop (ctx : Context) : Z := Emax ctx - prec ctx + 1.

(** [len(self._int)] *)
Definition len_int (c : N) : Z := Z.of_nat (String.length (Str.of_N c)).

Definition pow10 (k : Z) : N := Z.to_N (10 ^ k).

(** *** Construction from a string: [Decimal(value)] for a [str] *)

Definition starts_number (s : string) : bool :=
  match s with
  | String c (String d _) =>
      Str.is_digit c || (Ascii.eqb c "." && Str.is_digit d)
  | String c EmptyString => Str.is_digit c
  | EmptyString => false
  end.

(** [(E(?P<exp>[-+]?\d+))?\Z] *)
Definition parse_exp (s : string) : option Z :=
  match s with
  | EmptyString => Some 0
  | String e r =>
      if Ascii.eqb (Str.lower e) "e" then
        let '(neg, r') :=
          match r with
          | String "-" r' => (true, r')
          | String "+" r' => (false, r')
          | _ => (false, r)
          end in
        let (ds, rest) := Str.span_digits r' in
        match ds, rest with
        | String _ _, EmptyString =>
            let v := Z.of_N (Str.int_of_digits ds) in
            Some (if neg then - v else v)
        | _, _ => None
        end
      else None
  end.

Definition parse_number (sign : bool) (s : string) : option Decimal :=
  let (intpart, r1) := Str.span_digits s in
  let (fracpart, r2) :=
    match r1 with
    | String "." r => Str.span_digits r
    | _ => (EmptyString, r1)
    end in
  match parse_exp r2 with
  | Some e =>
      Some (Fin sign (Str.int_of_digits (intpart ++ fracpart))
                (e - Z.of_nat (String.length fracpart)))
  | None => None
  end.

Definition parse_special (sign : bool) (s : string) : option Decimal :=
  let l := Str.map Str.lower s in
  if String.eqb l "inf" || String.eqb l "infinity" then Some (Inf sign)
  else
    let (signal, r) :=
      match l with
      | String "s" r => (true, r)
      | _ => (false, l)
      end in
    match r with
    | String "n" (String "a" (String "n" diag)) =>
        if Str.forallb Str.is_digit diag
        then Some (NaN sign signal (Str.int_of_digits diag))
        else None
    | _ => None
    end.

(** [_parser(value.strip().replace('_', ''))] and the fields set from the
    match. *)
Definition of_string (value : string) : result Decimal :=
  let s := Str.drop_underscores (Str.strip value) in
  let (sign, body) :=
    match s with
    | String "-" r => (true, r)
    | String "+" r => (false, r)
    | _ => (false, s)
    end in
  let m := if starts_number body then parse_number sign body
           else parse_special sign body in
  match m with
  | Some d => Ok d
  | None => Raise InvalidOperation
  end.

(** [Decimal(value)] for an [int]. *)
Definition of_int (value : Z) : Decimal := Fin (value <? 0) (Z.abs_N value) 0.

(** *** [Decimal.__str__] *)

Definition sign_str (sign : bool) : string := if sign then "-" else EmptyString.

Definition to_string (d : Decimal) : string :=
  match d with
  | Inf sign => sign_str sign ++ "Infinity"
  | NaN sign signaling payload =>
      sign_str sign ++ (if signaling then "sNaN" else "NaN")
      ++ (if (payload =? 0)%N then EmptyString else Str.of_N payload)
  | Fin sign c exp =>
      let int := Str.of_N c in
      let leftdigits := exp + len_int c in
      let dotplace :=
        if (exp <=? 0) && (-6 <? leftdigits) then leftdigits else 1 in
      let '(intpart, fracpart) :=
        if dotplace <=? 0 then
          ("0", "." ++ Str.repeat "0" (Z.to_nat (- dotplace)) ++ int)
        else if len_int c <=? dotplace then
          (int ++ Str.repeat "0" (Z.to_nat (dotplace - len_int c)), EmptyString)
        else
          (Str.take (Z.to_nat dotplace) int,
           "." ++ Str.drop (Z.to_nat dotplace) int) in
      let e :=
        if leftdigits =? dotplace then EmptyString
        else "E" ++ Str.of_Z_signed (leftdigits - dotplace) in
      sign_str sign ++ intpart ++ fracpart ++ e
  end.

(** *** Rounding: [_round_half_even], [_rescale], [_fix] *)

Definition is_zero (d : Decimal) : bool :=
  match d with
  | Fin _ 0%N _ => true
  | _ => false
  end.

(** [rounding_method(self, digits)] for ROUND_HALF_EVEN, on the digits kept
    and the [k] digits dropped: 1 rounds away from zero, 0 is exact, -1
    truncates. *)
Definition round_half_even (kept dropped : N) (k : Z) : Z :=
  let half := (5 * pow10 (k - 1))%N in
  if (dropped =? half)%N && N.even kept then -1
  else if (half <=? dropped)%N then 1
  else if (dropped =? 0)%N then 0
  else -1.

(** The common part of [_rescale] and [_fix]: keep [digits] digits of the
    coefficient, [self] being replaced by 10**(exp-1) when [digits < 0];
    returns the truncated coefficient and [changed]. *)
Definition round_to (c : N) (digits : Z) : N * Z :=
  let '(c, digits) := if digits <? 0 then (1%N, 0) else (c, digits) in
  let k := len_int c - digits in
  let kept := (c / pow10 k)%N in
  let dropped := (c mod pow10 k)%N in
  (kept, round_half_even kept dropped k).

Definition _rescale (d : Decimal) (exp : Z) : Decimal :=
  match d with
  | Fin sign 0%N _ => Fin sign 0 exp
  | Fin sign c e =>
      if exp <=? e then Fin sign (c * pow10 (e - exp)) exp
      else
        let '(coeff, changed) := round_to c (len_int c + e - exp) in
        Fin sign (if changed =? 1 then coeff + 1 else coeff) exp
  | _ => d
  end.

Definition _fix_nan (ctx : Context) (d : Decimal) : Decimal :=
  match d with
  | NaN sign signaling payload =>
      if (payload =? 0)%N then d
      else if prec ctx <? len_int payload
      then NaN sign signaling (payload mod pow10 (prec ctx))
      else d
  | _ => d
  end.

Definition _fix (ctx : Context) (d : Decimal) : result Decimal :=
  match d with
  | NaN _ _ _ => Ok (_fix_nan ctx d)
  | Inf _ => Ok d
  | Fin sign 0%N e =>
      Ok (Fin sign 0 (Z.min (Z.max e (Etiny ctx)) (Emax ctx)))
  | Fin sign c e =>
      let exp_min := len_int c + e - prec ctx in
      if Etop ctx <? exp_min then Raise Overflow
      else
        let exp_min := if exp_min <? Etiny ctx then Etiny ctx else exp_min in
        if e <? exp_min then
          let '(coeff, changed) := round_to c (len_int c + e - exp_min) in
          let '(coeff, exp_min) :=
            if 0 <? changed then
              let coeff := (coeff + 1)%N in
              if prec ctx <? len_int coeff then ((coeff / 10)%N, exp_min + 1)
              else (coeff, exp_min)
            else (coeff, exp_min) in
          if Etop ctx <? exp_min then Raise Overflow
          else Ok (Fin sign coeff exp_min)
        else Ok d
  end.

(** [self._check_nans(other, context)]: [Some] is the answer (or the
    InvalidOperation raised for a signaling NaN), [None] is the 0 returned
    when neither operand is a NaN. *)
Definition _check_nans (ctx : Context) (a b : Decimal) : option (result Decimal) :=
  match a, b with
  | NaN _ true _, _ => Some (Raise InvalidOperation)
  | _, NaN _ true _ => Some (Raise InvalidOperation)
  | NaN _ false _, _ => Some (Ok (_fix_nan ctx a))
  | _, NaN _ false _ => Some (Ok (_fix_nan ctx b))
  | _, _ => None
  end.

Definition copy_negate (d : Decimal) : Decimal :=
  match d with
  | Fin sign c e => Fin (negb sign) c e
  | Inf sign => Inf (negb sign)
  | NaN sign signaling payload => NaN (negb sign) signaling payload
  end.

(** *** [Decimal.__add__] and [Decimal.__sub__] *)

(** [_normalize(op1, op2, prec)] on the working representations
    (int, exp): both get the exponent of the smaller one, which is first
    replaced by 10**exp when it is too small to matter. *)
Definition _normalize (prec : Z) (op1 op2 : N * Z) : (N * Z) * (N * Z) :=
  let swap := snd op1 <? snd op2 in
  let '(tmp, other) := if swap then (op2, op1) else (op1, op2) in
  let exp := snd tmp + Z.min (-1) (len_int (fst tmp) - prec - 2) in
  let other :=
    if len_int (fst other) + snd other - 1 <? exp then (1%N, exp) else other in
  let tmp := ((fst tmp * pow10 (snd tmp - snd other))%N, snd other) in
  if swap then (other, tmp) else (tmp, other).

Definition add (ctx : Context) (a b : Decimal) : result Decimal :=
  match _check_nans ctx a b with
  | Some ans => ans
  | None =>
      match a, b with
      | Inf sa, Inf sb =>
          if Bool.eqb sa sb then Ok a else Raise InvalidOperation
      | Inf _, _ => Ok a
      | _, Inf _ => Ok b
      | Fin sa ca ea, Fin sb cb eb =>
          let exp := Z.min ea eb in
          if (ca =? 0)%N && (cb =? 0)%N then
            _fix ctx (Fin (sa && sb) 0 exp)
          else if (ca =? 0)%N then
            _fix ctx (_rescale b (Z.max exp (eb - prec ctx - 1)))
          else if (cb =? 0)%N then
            _fix ctx (_rescale a (Z.max exp (ea - prec ctx - 1)))
          else
            let '((i1, e1), (i2, _)) := _normalize (prec ctx) (ca, ea) (cb, eb) in
            if negb (Bool.eqb sa sb) then
              if (i1 =? i2)%N then _fix ctx (Fin false 0 exp)
              else
                let '(s1, i1, i2) :=
                  if (i1 <? i2)%N then (sb, i2, i1) else (sa, i1, i2) in
                _fix ctx (Fin s1 (i1 - i2) e1)
            else _fix ctx (Fin sa (i1 + i2) e1)
      | _, _ => Raise InvalidOperation
      end
  end.

Definition sub (ctx : Context) (a b : Decimal) : result Decimal :=
  match _check_nans ctx a b with
  | Some ans => ans
  | None => add ctx a (copy_negate b)
  end.

(** *** [Decimal.__mod__] *)

Definition adjusted (c : N) (e : Z) : Z := e + len_int c - 1.

(** The remainder of [self._divide(other, context)] for finite operands,
    [other] nonzero. *)
Definition _divide_rem (ctx : Context) (a b : Decimal) : result Decimal :=
  match a, b with
  | Fin sa ca ea, Fin sb cb eb =>
      let ideal_exp := Z.min ea eb in
      let expdiff := adjusted ca ea - adjusted cb eb in
      if (ca =? 0)%N || (expdiff <=? -2) then Ok (_rescale a ideal_exp)
      else if expdiff <=? prec ctx then
        let '(i1, i2) :=
          if eb <=? ea then ((ca * pow10 (ea - eb))%N, cb)
          else (ca, (cb * pow10 (eb - ea))%N) in
        if (i1 / i2 <? pow10 (prec ctx))%N
        then Ok (Fin sa (i1 mod i2) ideal_exp)
        else Raise InvalidOperation
      else Raise InvalidOperation
  | _, _ => Raise InvalidOperation
  end.

Definition rem (ctx : Context) (a b : Decimal) : result Decimal :=
  match _check_nans ctx a b with
  | Some ans => ans
  | None =>
      match a, b with
      | Inf _, _ => Raise InvalidOperation
      | _, Fin _ 0%N _ => Raise InvalidOperation
      | Fin sa ca ea, Inf _ =>
          _fix ctx (_rescale a ea)
      | _, _ => r <- _divide_rem ctx a b ;; _fix ctx r
      end
  end.

(** *** [Decimal.__truediv__] *)

(** [while exp < ideal_exp and coeff % 10 == 0: coeff //= 10; exp += 1] *)
Fixpoint strip_exact (fuel : nat) (coeff : N) (exp ideal_exp : Z) : N * Z :=
  match fuel with
  | O => (coeff, exp)
  | S fuel' =>
      if (exp <? ideal_exp) && (coeff mod 10 =? 0)%N
      then strip_exact fuel' (coeff / 10) (exp + 1) ideal_exp
      else (coeff, exp)
  end.

Definition div (ctx : Context) (a b : Decimal) : result Decimal :=
  match _check_nans ctx a b with
  | Some ans => ans
  | None =>
      match a, b with
      | Inf _, Inf _ => Raise InvalidOperation
      | Inf sa, Fin sb _ _ => Ok (Inf (xorb sa sb))
      | Fin sa _ _, Inf sb => Ok (Fin (xorb sa sb) 0 (Etiny ctx))
      | Fin sa ca ea, Fin sb cb eb =>
          let sign := xorb sa sb in
          if (cb =? 0)%N then
            if (ca =? 0)%N then Raise InvalidOperation else Raise DivisionByZero
          else if (ca =? 0)%N then _fix ctx (Fin sign 0 (ea - eb))
          else
            let shift := len_int cb - len_int ca + prec ctx + 1 in
            let exp := ea - eb - shift in
            let '(coeff, remainder) :=
              if 0 <=? shift then N.div_eucl (ca * pow10 shift) cb
              else N.div_eucl ca (cb * pow10 (- shift)) in
            let '(coeff, exp) :=
              if (remainder =? 0)%N
              then strip_exact (Z.to_nat (ea - eb - exp)) coeff exp (ea - eb)
              else ((if (coeff mod 5 =? 0)%N then coeff + 1 else coeff)%N, exp) in
            _fix ctx (Fin sign coeff exp)
      | _, _ => Raise InvalidOperation
      end
  end.

End Dec.

(** ** str.format with keyword arguments *)

Module Fmt.

(** The values the templates are filled with. *)
Inductive pyval : Type :=
| VStr (s : string)
| VDecimal (d : Dec.Decimal)
| VInt (z : Z).

(** [format(v, spec)] for the empty [spec] *)
Definition render (v : pyval) : string :=
  match v with
  | VStr s => s
  | VDecimal d => Dec.to_string d
  | VInt z => Str.of_Z z
  end.

Fixpoint lookup (kwargs : list (string * pyval)) (key : string) : result pyval :=
  match kwargs with
  | [] => Raise (KeyError key)
  | (k, v) :: rest => if String.eqb k key then Ok v else lookup rest key
  end.

(** [template.format] on keyword arguments, for replacement fields that
    are plain names: [field] is the field being read (last character first), [None]
    outside the braces; braces are doubled to stand for themselves. *)
Fixpoint format_from (kwargs : list (string * pyval)) (template : string)
    (field : option string) : result string :=
  match template, field with
  | EmptyString, None => Ok EmptyString
  | EmptyString, Some _ => Raise ValueError
  | String c t, None =>
      if Ascii.eqb c "{" then
        match t with
        | String "{" t' => r <- format_from kwargs t' None ;; Ok (String "{" r)
        | _ => format_from kwargs t (Some EmptyString)
        end
      else if Ascii.eqb c "}" then
        match t with
        | String "}" t' => r <- format_from kwargs t' None ;; Ok (String "}" r)
        | _ => Raise ValueError
        end
      else r <- format_from kwargs t None ;; Ok (String c r)
  | String c t, Some name =>
      if Ascii.eqb c "}" then
        v <- lookup kwargs (Str.rev name) ;;
        r <- format_from kwargs t None ;;
        Ok (render v ++ r)
      else if Str.existsb (Ascii.eqb c) "{.[!:" then Raise ValueError
      else format_from kwargs t (Some (String c name))
  end.

Definition format (template : string) (kwargs : list (string * pyval))
    : result string :=
  format_from kwargs template None.

End Fmt.

(** ** The world outside: files, temporary directories, the child process *)

Module OS.

Inductive node : Type :=
| Dir
| File (content : string).    (* the bytes of the file *)

(** The file system, by path. *)
Definition filesystem : Type := string -> option node.

Definition update (fs : filesystem) (path : string) (n : node) : filesystem :=
  fun p => if String.eqb p path then Some n else fs p.

(** [path] is [dir] or lies below it. *)
Definition under (dir path : string) : bool :=
  String.eqb path dir || String.prefix (dir ++ "/") path.

(** [pathlib]'s [dir / name] and [str] of it, for a [name] that [pathlib]
    leaves as it is written: it does not begin with a slash, and none of
    its components is empty or a dot. *)
Definition joinpath (dir name : string) : string := dir ++ "/" ++ name.

(** Stateful, fallible computations: a raised exception keeps the state
    reached so far. *)
Definition M (A : Type) : Type := filesystem -> result A * filesystem.

Definition ret {A : Type} (a : A) : M A := fun fs => (Ok a, fs).

Definition raise {A : Type} (e : exn) : M A := fun fs => (Raise e, fs).

Definition bindM {A B : Type} (c : M A) (k : A -> M B) : M B :=
  fun fs =>
    match c fs with
    | (Ok a, fs') => k a fs'
    | (Raise e, fs') => (Raise e, fs')
    end.

(** A pure computation that may raise. *)
Definition lift {A : Type} (r : result A) : M A := fun fs => (r, fs).

(** [tempfile.mkdtemp]: the first of the candidate names that does not
    exist yet is created; FileExistsError when there is none. *)
Fixpoint mkdtemp (candidates : list string) : M string :=
  match candidates with
  | [] => raise (OSError "No usable temporary directory name found")
  | d :: rest =>
      fun fs =>
        match fs d with
        | None => (Ok d, update fs d Dir)
        | Some _ => mkdtemp rest fs
        end
  end.

(** [shutil.rmtree(dir)] *)
Definition rmtree (dir : string) (fs : filesystem) : filesystem :=
  fun p => if under dir p then None else fs p.

(** [with tempfile.TemporaryDirectory() as tmpdirname: body]: the directory
    is removed when the block is left, whether by its end, by a [return] or
    by an exception. *)
Definition TemporaryDirectory {A : Type} (candidates : list string)
    (body : string -> M A) : M A :=
  fun fs =>
    match mkdtemp candidates fs with
    | (Ok dir, fs1) =>
        let (r, fs2) := body dir fs1 in (r, rmtree dir fs2)
    | (Raise e, fs1) => (Raise e, fs1)
    end.

(** The process runs on Linux in a UTF-8 locale: [os.fsencode] and the
    text files opened without an [encoding] write a character below 128 as
    one byte and any other as two; a path is looked up by its text, and
    measured by its bytes. *)
Definition encode_char (c : ascii) : string :=
  let n := N_of_ascii c in
  if (n <? 128)%N then String c EmptyString
  else String (ascii_of_N (192 + n / 64))
         (String (ascii_of_N (128 + n mod 64)) EmptyString).

Fixpoint encode (text : string) : string :=
  match text with
  | EmptyString => EmptyString
  | String c text' => encode_char c ++ encode text'
  end.

(** The limits of Linux on a path: PATH_MAX bytes with the NUL that ends
    it, NAME_MAX bytes for each component. *)
Definition PATH_MAX : nat := 4096.
Definition NAME_MAX : nat := 255.

(** ENAMETOOLONG *)
Definition too_long (path : string) : bool :=
  let bytes := encode path in
  (PATH_MAX <=? String.length bytes)%nat
  || List.existsb (fun name => (NAME_MAX <? String.length name)%nat)
       (Str.split_on "/" bytes).

(** "embedded null byte": Python refuses the string before the system is
    asked. *)
Definition has_nul (s : string) : bool :=
  Str.existsb (fun c => Ascii.eqb c Ascii.zero) s.

(** [(dir / name).open('w')]: the file is created or truncated; the
    directory must exist and [name] must be a single path component. *)
Definition open_w (dir name : string) : M string :=
  fun fs =>
    let path := joinpath dir name in
    if has_nul path then (Raise ValueError, fs)
    else if too_long path then (Raise (OSError path), fs)
    else
      match fs dir, fs path with
      | Some Dir, Some Dir => (Raise (OSError path), fs)
      | Some Dir, _ =>
          if Str.existsb (fun c => Ascii.eqb c "/") name
          then (Raise (OSError path), fs)
          else (Ok path, update fs path (File EmptyString))
      | _, _ => (Raise (OSError path), fs)
      end.

(** [file.write(text)], seen when the file is closed: the bytes of the
    text. *)
Definition write (path text : string) : M unit :=
  fun fs => (Ok tt, update fs path (File (encode text))).

(** What a text file read with [newline=None] makes of the line ends: a
    carriage return, with the line feed that follows it if there is one,
    becomes a line feed. *)
Fixpoint universal_newlines (s : string) : string :=
  match s with
  | EmptyString => EmptyString
  | String c s' =>
      if Ascii.eqb c (ascii_of_N 13) then
        match s' with
        | String d s'' =>
            if Ascii.eqb d Str.nl then String Str.nl (universal_newlines s'')
            else String Str.nl (universal_newlines s')
        | EmptyString => String Str.nl EmptyString
        end
      else String c (universal_newlines s')
  end.

(** [open(path, encoding='iso_8859_1').read()]: every byte is a
    character, and the line ends are translated. *)
Definition read (path : string) : M string :=
  fun fs =>
    if has_nul path then (Raise ValueError, fs)
    else if too_long path then (Raise (OSError path), fs)
    else
      match fs path with
      | Some (File content) => (Ok (universal_newlines content), fs)
      | _ => (Raise (OSError path), fs)
      end.

(** How the child process ends. [Undecodable]: it has ended, and what it
    printed is not text in the encoding of the locale. *)
Inductive completion : Type :=
| Exited (returncode : Z)
| TimedOut
| NotStarted
| Undecodable.

(** The external program: from its arguments, working directory, the
    timeout and the files it finds, how it ends and the files it leaves. *)
Definition program : Type :=
  list string -> string -> Z -> filesystem -> completion * filesystem.

(** [subprocess.run(args, cwd=cwd, capture_output=True,
    universal_newlines=True, check=True, timeout=timeout)] *)
Definition subprocess_run (prog : program) (args : list string) (cwd : string)
    (timeout : Z) : M unit :=
  fun fs =>
    if List.existsb has_nul (cwd :: args) then (Raise ValueError, fs)
    else
      let (c, fs') := prog args cwd timeout fs in
      match c with
      | Exited 0 => (Ok tt, fs')
      | Exited rc => (Raise (CalledProcessError rc), fs')
      | TimedOut => (Raise TimeoutExpired, fs')
      | NotStarted => (Raise (OSError "splat"), fs')
      | Undecodable => (Raise UnicodeDecodeError, fs')
      end.

End OS.

Notation "x <-- c ;;; k" := (OS.bindM c (fun x => k))
  (at level 61, c at next level, right associativity).

(** ** pysplat/__init__.py: the domain model *)

Module PySplat.

Import Dec.

(** The ambient [decimal.getcontext()]: the module never changes it. *)
Definition getcontext : Context := DefaultContext.

(** A [Decimal("...")] literal of the source, evaluated. *)
Definition literal (s : string) : Decimal :=
  match of_string s with
  | Ok d => d
  | Raise _ => NaN false false 0
  end.

(** [PolarizationType = Union[Literal[0], Literal[1]]] *)
Inductive PolarizationType : Type := Polarization0 | Polarization1.

(** [RadioClimateType = Union[Literal[1], ..., Literal[9]]] *)
Inductive RadioClimateType : Type :=
| Climate1 | Climate2 | Climate3 | Climate4 | Climate5
| Climate6 | Climate7 | Climate8 | Climate9.

Definition int_of_polarization (p : PolarizationType) : Z :=
  match p with Polarization0 => 0 | Polarization1 => 1 end.

Definition int_of_radio_climate (c : RadioClimateType) : Z :=
  match c with
  | Climate1 => 1 | Climate2 => 2 | Climate3 => 3
  | Climate4 => 4 | Climate5 => 5 | Climate6 => 6
  | Climate7 => 7 | Climate8 => 8 | Climate9 => 9
  end.

Module LRP.
Record LRPFields : Type := mk {
  erp_W : Decimal;
  frequency_MHz : Decimal;
  polarization : PolarizationType;
  radio_climate : RadioClimateType;
  earth_dielectric_constant : Decimal;
  earth_conductivity : Decimal;
  atmospheric_bending_constant : Decimal;
  fraction_situations : Decimal;
  fraction_time : Decimal
}.
End LRP.
Import LRP.

(** [LRPFields(erp_W=..., frequency_MHz=..., polarization=...,
    radio_climate=...)]: the other five fields take the class defaults. *)
Definition LRPFields_new (erp_W frequency_MHz : Decimal)
    (polarization : PolarizationType) (radio_climate : RadioClimateType)
    : LRPFields :=
  {| erp_W := erp_W;
     frequency_MHz := frequency_MHz;
     polarization := polarization;
     radio_climate := radio_climate;
     earth_dielectric_constant := literal "15.000";
     earth_conductivity := literal "0.005";
     atmospheric_bending_constant := literal "301.000";
     fraction_situations := literal "0.50";
     fraction_time := literal "0.50" |}.

Module QTH.
Record QTHFields : Type := mk {
  name : string;
  latitude : Decimal;
  longitude_EtoW : Decimal;
  height_m : Decimal
}.
End QTH.
Import QTH.

(** [(Decimal("360") - self.longitude_WtoE) % 360] *)
Definition east_to_west (longitude_WtoE : Decimal) : result Decimal :=
  d360 <- of_string "360" ;;
  diff <- sub getcontext d360 longitude_WtoE ;;
  rem getcontext diff (of_int 360).

Module Transmitter.

Record Transmitter : Type := mk {
  name : string;
  latitude : Decimal;
  longitude_WtoE : Decimal;
  height_m : Decimal;
  eirp_W : Decimal;
  frequency_MHz : Decimal;
  polarization : PolarizationType;
  radio_climate : RadioClimateType
}.

Definition to_qthfields (self : Transmitter) : result QTHFields :=
  lon <- east_to_west (longitude_WtoE self) ;;
  Ok {| QTH.name := name self;
        QTH.latitude := latitude self;
        QTH.longitude_EtoW := lon;
        QTH.height_m := height_m self |}.

Definition to_lrpfields (self : Transmitter) : result LRPFields :=
  d164 <- of_string "1.64" ;;
  erp <- div getcontext (eirp_W self) d164 ;;
  Ok (LRPFields_new erp (frequency_MHz self) (polarization self)
        (radio_climate self)).

End Transmitter.

Module Receiver.

Record Receiver : Type := mk {
  name : string;
  latitude : Decimal;
  longitude_WtoE : Decimal;
  height_m : Decimal
}.

Definition to_qthfields (self : Receiver) : result QTHFields :=
  lon <- east_to_west (longitude_WtoE self) ;;
  Ok {| QTH.name := name self;
        QTH.latitude := latitude self;
        QTH.longitude_EtoW := lon;
        QTH.height_m := height_m self |}.

End Receiver.

(** ** Construction: [__post_init__] *)

(** What a caller may pass for a field annotated [Decimal]. A float is
    known through [str(val)] only, which is all that [_convert_to_decimal]
    asks of it; [PyOther] is any object that [Decimal()] rejects with
    TypeError ([None], bytes, ...). *)
Inductive pyobj : Type :=
| PyDecimal (d : Decimal)
| PyFloat (str_val : string)
| PyInt (z : Z)
| PyStr (s : string)
| PyOther.

(** [isinstance(val, Decimal)] gives [val]; [isinstance(val, float)] gives
    [Decimal(str(val))]; anything else gives [Decimal(val)]. *)
Definition _convert_to_decimal (val : pyobj) : result Decimal :=
  match val with
  | PyDecimal d => Ok d
  | PyFloat str_val => of_string str_val
  | PyStr s => of_string s
  | PyInt z => Ok (of_int z)
  | PyOther => Raise TypeError
  end.

Module TransmitterArgs.
Record TransmitterArgs : Type := mk {
  name : string;
  latitude : pyobj;
  longitude_WtoE : pyobj;
  height_m : pyobj;
  eirp_W : pyobj;
  frequency_MHz : pyobj;
  polarization : PolarizationType;
  radio_climate : RadioClimateType
}.
End TransmitterArgs.

(** [Transmitter(...)]: the generated [__init__] stores the arguments and
    [__post_init__] converts, in the order of the fields, those annotated
    [Decimal]. *)
Definition Transmitter_new (args : TransmitterArgs.TransmitterArgs)
    : result Transmitter.Transmitter :=
  latitude <- _convert_to_decimal (TransmitterArgs.latitude args) ;;
  longitude_WtoE <- _convert_to_decimal (TransmitterArgs.longitude_WtoE args) ;;
  height_m <- _convert_to_decimal (TransmitterArgs.height_m args) ;;
  eirp_W <- _convert_to_decimal (TransmitterArgs.eirp_W args) ;;
  frequency_MHz <- _convert_to_decimal (TransmitterArgs.frequency_MHz args) ;;
  Ok {| Transmitter.name := TransmitterArgs.name args;
        Transmitter.latitude := latitude;
        Transmitter.longitude_WtoE := longitude_WtoE;
        Transmitter.height_m := height_m;
        Transmitter.eirp_W := eirp_W;
        Transmitter.frequency_MHz := frequency_MHz;
        Transmitter.polarization := TransmitterArgs.polarization args;
        Transmitter.radio_climate := TransmitterArgs.radio_climate args |}.

Module ReceiverArgs.
Record ReceiverArgs : Type := mk {
  name : string;
  latitude : pyobj;
  longitude_WtoE : pyobj;
  height_m : pyobj
}.
End ReceiverArgs.

Definition Receiver_new (args : ReceiverArgs.ReceiverArgs)
    : result Receiver.Receiver :=
  latitude <- _convert_to_decimal (ReceiverArgs.latitude args) ;;
  longitude_WtoE <- _convert_to_decimal (ReceiverArgs.longitude_WtoE args) ;;
  height_m <- _convert_to_decimal (ReceiverArgs.height_m args) ;;
  Ok {| Receiver.name := ReceiverArgs.name args;
        Receiver.latitude := latitude;
        Receiver.longitude_WtoE := longitude_WtoE;
        Receiver.height_m := height_m |}.

(** The objects of [test1]. *)
Definition test1_transmitter : result Transmitter.Transmitter :=
  Transmitter_new
    {| TransmitterArgs.name := "Menesble";
       TransmitterArgs.latitude := PyDecimal (literal "47.78194");
       TransmitterArgs.longitude_WtoE := PyDecimal (literal "4.90917");
       TransmitterArgs.height_m := PyDecimal (literal "41.0");
       TransmitterArgs.eirp_W := PyDecimal (literal "80.0");
       TransmitterArgs.frequency_MHz := PyDecimal (literal "800.00");
       TransmitterArgs.polarization := Polarization1;
       TransmitterArgs.radio_climate := Climate5 |}.

Definition test1_receiver : result Receiver.Receiver :=
  Receiver_new
    {| ReceiverArgs.name := "Bure";
       ReceiverArgs.latitude := PyDecimal (literal "47.738787");
       ReceiverArgs.longitude_WtoE := PyDecimal (literal "4.8892801");
       ReceiverArgs.height_m := PyDecimal (literal "2.0") |}.

(** ** The input files *)

Definition QTHFields_asdict (q : QTHFields) : list (string * Fmt.pyval) :=
  [("name", Fmt.VStr (QTH.name q));
   ("latitude", Fmt.VDecimal (QTH.latitude q));
   ("longitude_EtoW", Fmt.VDecimal (QTH.longitude_EtoW q));
   ("height_m", Fmt.VDecimal (QTH.height_m q))].

Definition LRPFields_asdict (l : LRPFields) : list (string * Fmt.pyval) :=
  [("erp_W", Fmt.VDecimal (LRP.erp_W l));
   ("frequency_MHz", Fmt.VDecimal (LRP.frequency_MHz l));
   ("polarization", Fmt.VInt (int_of_polarization (LRP.polarization l)));
   ("radio_climate", Fmt.VInt (int_of_radio_climate (LRP.radio_climate l)));
   ("earth_dielectric_constant", Fmt.VDecimal (LRP.earth_dielectric_constant l));
   ("earth_conductivity", Fmt.VDecimal (LRP.earth_conductivity l));
   ("atmospheric_bending_constant",
     Fmt.VDecimal (LRP.atmospheric_bending_constant l));
   ("fraction_situations", Fmt.VDecimal (LRP.fraction_situations l));
   ("fraction_time", Fmt.VDecimal (LRP.fraction_time l))].

Definition newline : string := String Str.nl EmptyString.
Definition TAB : string := String Str.tab EmptyString.

Definition QTH_TEMPLATE : string :=
  Str.join newline
    ["{name}"; "{latitude}"; "{longitude_EtoW}"; "{height_m} meters"].

Definition LRP_TEMPLATE : string :=
  Str.join newline
    ["{earth_dielectric_constant}" ++ TAB
       ++ "; Earth Dielectric Constant (Relative permittivity)";
     "{earth_conductivity}; Earth Conductivity (Siemens per meter)";
     "{atmospheric_bending_constant}" ++ TAB
       ++ "; Atmospheric Bending Constant (N-Units)";
     "{frequency_MHz}" ++ TAB ++ "; Frequency in MHz (20 MHz to 20 GHz)";
     "{radio_climate}" ++ TAB ++ "; Radio Climate";
     "{polarization}" ++ TAB ++ "; Polarization (0 = Horizontal, 1 = Vertical)";
     "{fraction_situations}" ++ TAB ++ "; Fraction of Situations";
     "{fraction_time}" ++ TAB ++ "; Fraction of Time";
     "{erp_W} ; ERP"].

(** [QTH_TEMPLATE.format] on the keywords [fields._asdict()] *)
Definition qth_text (q : QTHFields) : result string :=
  Fmt.format QTH_TEMPLATE (QTHFields_asdict q).

(** [LRP_TEMPLATE.format] on the keywords [fields._asdict()] *)
Definition lrp_text (l : LRPFields) : result string :=
  Fmt.format LRP_TEMPLATE (LRPFields_asdict l).

(** ** The report *)

Definition REPORT_PATTERN : string :=
  "Free space path loss: (\d*\.\d*) dB"
  ++ ".*?"
  ++ "ITWOM Version 3.0 path loss: (\d*\.\d*) dB"
  ++ ".*?"
  ++ "(\d*\.\d*) dBuV/meter".

(** The end of [splat_report_values], from [report_text] on: the search,
    the three conversions, or the exception that carries the text. *)
Definition report_values (report_text : string)
    : result (Decimal * Decimal * Decimal) :=
  match Re.compile REPORT_PATTERN with
  | None => Raise ValueError
  | Some prog =>
      match Re.search prog report_text with
      | Some [g1; g2; g3] =>
          d1 <- of_string g1 ;;
          d2 <- of_string g2 ;;
          d3 <- of_string g3 ;;
          Ok (d1, d2, d3)
      | _ => Raise (SplatReportException report_text)
      end
  end.

(** ** [splat_report_values] *)

(** [REPORT_FILENAME_TEMPLATE.format(transmitter=..., receiver=...)], the
    template being ["{transmitter.name}-to-{receiver.name}.txt"]. *)
Definition report_filename (transmitter : Transmitter.Transmitter)
    (receiver : Receiver.Receiver) : string :=
  Transmitter.name transmitter ++ "-to-" ++ Receiver.name receiver ++ ".txt".

(** The environment is the external program [splat] and the names
    [tmp_names] that [tempfile] draws; [timeout] is [None] when the caller
    leaves it to its default. *)
Definition splat_report_values (splat : OS.program) (tmp_names : list string)
    (terrain_folder cities_filepath : string)
    (transmitter : Transmitter.Transmitter) (receiver : Receiver.Receiver)
    (timeout : option Z) : OS.M (Decimal * Decimal * Decimal) :=
  let timeout := match timeout with Some t => t | None => 2 end in
  OS.TemporaryDirectory tmp_names (fun tmpdirname =>
    transmitter_qth_path <-- OS.open_w tmpdirname
        ("transmitter-" ++ Transmitter.name transmitter ++ ".qth") ;;;
    transmitter_lrp_path <-- OS.open_w tmpdirname
        ("transmitter-" ++ Transmitter.name transmitter ++ ".lrp") ;;;
    receiver_qth_path <-- OS.open_w tmpdirname
        ("receiver-" ++ Receiver.name receiver ++ ".qth") ;;;
    text1 <-- OS.lift (q <- Transmitter.to_qthfields transmitter ;; qth_text q) ;;;
    _ <-- OS.write transmitter_qth_path text1 ;;;
    text2 <-- OS.lift (l <- Transmitter.to_lrpfields transmitter ;; lrp_text l) ;;;
    _ <-- OS.write transmitter_lrp_path text2 ;;;
    text3 <-- OS.lift (q <- Receiver.to_qthfields receiver ;; qth_text q) ;;;
    _ <-- OS.write receiver_qth_path text3 ;;;
    let args :=
      ["splat"; "-metric"; "-s"; cities_filepath; "-d"; terrain_folder;
       "-t"; transmitter_qth_path; "-r"; receiver_qth_path] in
    _ <-- OS.subprocess_run splat args tmpdirname timeout ;;;
    let output_path :=
      OS.joinpath tmpdirname (report_filename transmitter receiver) in
    report_text <-- OS.read output_path ;;;
    OS.lift (report_values report_text)).

End PySplat.

(** ** The numbers the specification speaks of *)

Module Num.

Import Dec.

Definition signed (sign : bool) (c : N) : Z :=
  if sign then - Z.of_N c else Z.of_N c.

(** The rational a finite decimal stands for. *)
Definition value (d : Decimal) : option Q :=
  match d with
  | Fin sign c e => Some (inject_Z (signed sign c) * 10 ^ e)%Q
  | _ => None
  end.

(** [x mod y] on the rationals, with the sign of [y] (floored). *)
Definition qmod (x y : Q) : Q := (x - y * inject_Z (Qfloor (x / y)))%Q.

(** What the specification says of [longitude_EtoW]: the projection
    returns, and the longitude it returns is (360 - longitude_WtoE) mod 360,
    in [0, 360). *)
Definition east_to_west_spec (longitude_WtoE : Decimal)
    (out : result PySplat.QTH.QTHFields) : Prop :=
  exists q vl vr,
    out = Ok q /\
    value longitude_WtoE = Some vl /\
    value (PySplat.QTH.longitude_EtoW q) = Some vr /\
    (vr == qmod (360 - vl) 360)%Q /\ (0 <= vr)%Q /\ (vr < 360)%Q.

(** 360 - longitude_WtoE, written at the smaller of the two exponents, as an
    integer number of units 10**min(0, exp). *)
Definition diff360 (sign : bool) (c : N) (e : Z) : Z :=
  360 * 10 ^ (- Z.min 0 e) - signed sign c * 10 ^ (e - Z.min 0 e).

(** The longitudes on which the subtraction is exact in the 28 digits of
    the context and its result is not negative. *)
Definition exact_longitude (longitude_WtoE : Decimal) : Prop :=
  match longitude_WtoE with
  | Fin sign c e =>
      0 <= diff360 sign c e < 10 ^ 28 /\ Etiny DefaultContext <= e
  | _ => False
  end.

(** The outcome of rounding a coefficient [c] to [c / 10^k], as [_fix]
    does for ROUND_HALF_EVEN. *)
Definition rounded (c : Z) (k : Z) : Z :=
  let kept := c / 10 ^ k in
  let dropped := c mod 10 ^ k in
  let half := 5 * 10 ^ (k - 1) in
  if (dropped =? half) && Z.even kept then kept
  else if half <=? dropped then kept + 1
  else kept.


(** [d] is [x] rounded to 28 significant digits, half to even: with 10**E
    the unit of the 28th digit of [x], [d] is a multiple of 10**E within
    half a unit of [x], the even one where two are as near; its coefficient
    has at most 28 digits, and all 28 when [d] is not [x] itself. *)
Definition nearest_28 (x : Q) (d : Decimal) : Prop :=
  match d with
  | Fin s c e =>
      exists E,
        (10 ^ 27 * 10 ^ E <= Qabs x)%Q /\ (Qabs x < 10 ^ 28 * 10 ^ E)%Q /\
        E <= e /\ Z.of_N c < 10 ^ 28 /\
        (Qabs (inject_Z (signed s c) * 10 ^ e - x) <= (1 # 2) * 10 ^ E)%Q /\
        ((Qabs (inject_Z (signed s c) * 10 ^ e - x) == (1 # 2) * 10 ^ E)%Q ->
         Z.even (Z.of_N c * 10 ^ (e - E)) = true) /\
        (~ (inject_Z (signed s c) * 10 ^ e == x)%Q -> 10 ^ 27 <= Z.of_N c)
  | _ => False
  end.

End Num.

(** ** The lines of the input files *)

Module Lines.

Import Dec PySplat.

(** The characters of [str(d)]. *)
Definition decimal_char (c : ascii) : bool :=
  Str.is_digit c || Str.existsb (Ascii.eqb c) "-+.EInfityNas".

Definition is_nl (c : ascii) : bool := Ascii.eqb c Str.nl.
Definition single_line (s : string) : Prop := Str.existsb is_nl s = false.
Definition lines (text : string) : list string := Str.split_on Str.nl text.

Definition qth_lines (q : QTH.QTHFields) : list string :=
  [QTH.name q;
   to_string (QTH.latitude q);
   to_string (QTH.longitude_EtoW q);
   to_string (QTH.height_m q) ++ " meters"].

Definition lrp_values (l : LRP.LRPFields) : list string :=
  [to_string (LRP.earth_dielectric_constant l);
   to_string (LRP.earth_conductivity l);
   to_string (LRP.atmospheric_bending_constant l);
   to_string (LRP.frequency_MHz l);
   Str.of_Z (int_of_radio_climate (LRP.radio_climate l));
   Str.of_Z (int_of_polarization (LRP.polarization l));
   to_string (LRP.fraction_situations l);
   to_string (LRP.fraction_time l);
   to_string (LRP.erp_W l)].

Definition lrp_comments : list string :=
  [TAB ++ "; Earth Dielectric Constant (Relative permittivity)";
   "; Earth Conductivity (Siemens per meter)";
   TAB ++ "; Atmospheric Bending Constant (N-Units)";
   TAB ++ "; Frequency in MHz (20 MHz to 20 GHz)";
   TAB ++ "; Radio Climate";
   TAB ++ "; Polarization (0 = Horizontal, 1 = Vertical)";
   TAB ++ "; Fraction of Situations";
   TAB ++ "; Fraction of Time";
   " ; ERP"].

Fixpoint zip_append (xs ys : list string) : list string :=
  match xs, ys with
  | x :: xs', y :: ys' => (x ++ y) :: zip_append xs' ys'
  | _, _ => []
  end.

Definition lrp_lines (l : LRP.LRPFields) : list string :=
  zip_append (lrp_values l) lrp_comments.

(** A value of a [.lrp] line: it holds neither a line break nor the [;]
    that opens the comment. *)
Definition plain_value (s : string) : Prop :=
  Str.existsb (fun c => is_nl c || Ascii.eqb c ";") s = false.


(** What the specification says of the [.qth] block: it is rendered, and
    its lines are the four of [qth_lines]. *)
Definition qth_block_spec (q : QTH.QTHFields) : Prop :=
  exists text, qth_text q = Ok text /\ lines text = qth_lines q.

(** A comment of the [.lrp] template: blanks, then the [;] that opens it. *)
Definition comment_ok (c : string) : bool :=
  match Str.lstrip c with
  | String ";" _ => true
  | _ => false
  end.

End Lines.

(** ** What construction is asked to do *)

Module Validation.

Import Dec PySplat.

(** The scalars supplied for the fields annotated [Decimal], in the order
    of the fields. *)
Definition transmitter_scalars (args : TransmitterArgs.TransmitterArgs)
    : list pyobj :=
  [TransmitterArgs.latitude args; TransmitterArgs.longitude_WtoE args;
   TransmitterArgs.height_m args; TransmitterArgs.eirp_W args;
   TransmitterArgs.frequency_MHz args].

Definition receiver_scalars (args : ReceiverArgs.ReceiverArgs) : list pyobj :=
  [ReceiverArgs.latitude args; ReceiverArgs.longitude_WtoE args;
   ReceiverArgs.height_m args].

(** Digits only; possibly none. *)
Definition digits (s : string) : Prop := Str.forallb Str.is_digit s = true.

(** One of the three signs a number may be written with. *)
Definition sign_text (s : string) : Prop := s = "" \/ s = "+" \/ s = "-".

(** The exponent of a numeral and the integer it stands for: nothing, or
    [E] or [e], a sign or none, and at least one digit. *)
Inductive exponent_part : string -> Z -> Prop :=
| exponent_none : exponent_part EmptyString 0
| exponent_some (e : ascii) (sign ds : string) :
    e = "E"%char \/ e = "e"%char -> sign_text sign ->
    digits ds -> ds <> EmptyString ->
    exponent_part (String e (sign ++ ds))
      (if String.eqb sign "-" then - Z.of_N (Str.int_of_digits ds)
       else Z.of_N (Str.int_of_digits ds)).

(** [spelled sign body d]: what follows the sign is a numeral, an infinity
    or a NaN, and [d] is the decimal it spells: digits with at most one
    point among them and at least one digit, then the exponent; [inf] or
    [infinity]; [nan] or [snan] and the digits of the payload; the letters
    in either case. *)
Inductive spelled (sign : bool) : string -> Decimal -> Prop :=
| spelled_integer (ip ex : string) (z : Z) :
    digits ip -> ip <> EmptyString -> exponent_part ex z ->
    spelled sign (ip ++ ex) (Fin sign (Str.int_of_digits ip) z)
| spelled_fraction (ip fp ex : string) (z : Z) :
    digits ip -> digits fp -> ip ++ fp <> EmptyString -> exponent_part ex z ->
    spelled sign (ip ++ "." ++ fp ++ ex)
      (Fin sign (Str.int_of_digits (ip ++ fp)) (z - Z.of_nat (String.length fp)))
| spelled_inf (w : string) :
    Str.map Str.lower w = "inf" \/ Str.map Str.lower w = "infinity" ->
    spelled sign w (Inf sign)
| spelled_nan (w diag : string) (signaling : bool) :
    Str.map Str.lower w = (if signaling then "snan" else "nan") ->
    digits diag ->
    spelled sign (w ++ diag) (NaN sign signaling (Str.int_of_digits diag)).

(** [reads s d]: the string [s] is a number as [Decimal] writes them, and
    [d] is that number: white space around it and underscores anywhere do
    not count, then a sign or none, then what [spelled] says. *)
Definition reads (s : string) (d : Decimal) : Prop :=
  exists sign body,
    Str.drop_underscores (Str.strip s) = sign ++ body /\ sign_text sign /\
    spelled (String.eqb sign "-") body d.

(** What a scalar stands for, when it stands for a number: a [Decimal] for
    itself, an int for its value, a string (and a float, through its
    string) for the number written in it. *)
Inductive denotes : pyobj -> Decimal -> Prop :=
| denotes_decimal (d : Decimal) : denotes (PyDecimal d) d
| denotes_int (z : Z) : denotes (PyInt z) (Fin (z <? 0) (Z.abs_N z) 0)
| denotes_str (s : string) (d : Decimal) : reads s d -> denotes (PyStr s) d
| denotes_float (s : string) (d : Decimal) : reads s d -> denotes (PyFloat s) d.

(** The scalar cannot be coerced to a decimal: it is an object of a type
    that [Decimal] does not take, or a string in which no number is
    written. *)
Inductive not_coercible : pyobj -> Prop :=
| refused_other : not_coercible PyOther
| refused_str (s : string) :
    (forall d, ~ reads s d) -> not_coercible (PyStr s).

(** The exception by which [Decimal] refuses it. *)
Definition refusal (val : pyobj) : exn :=
  match val with
  | PyOther => TypeError
  | _ => InvalidOperation
  end.

(** The exceptions by which a coercion fails. *)
Definition validation_error (e : exn) : Prop :=
  e = InvalidOperation \/ e = TypeError.

(** The decimals read back from the fields, in the same order. *)
Definition transmitter_decimals (t : Transmitter.Transmitter) : list Decimal :=
  [Transmitter.latitude t; Transmitter.longitude_WtoE t;
   Transmitter.height_m t; Transmitter.eirp_W t;
   Transmitter.frequency_MHz t].

Definition receiver_decimals (r : Receiver.Receiver) : list Decimal :=
  [Receiver.latitude r; Receiver.longitude_WtoE r; Receiver.height_m r].

(** Every decimal-typed field of the object holds the number that the
    scalar supplied for it stands for, none replaced by a default; the
    other fields are as supplied. *)
Definition transmitter_stores (args : TransmitterArgs.TransmitterArgs)
    (t : Transmitter.Transmitter) : Prop :=
  Forall2 denotes (transmitter_scalars args) (transmitter_decimals t) /\
  Transmitter.name t = TransmitterArgs.name args /\
  Transmitter.polarization t = TransmitterArgs.polarization args /\
  Transmitter.radio_climate t = TransmitterArgs.radio_climate args.

Definition receiver_stores (args : ReceiverArgs.ReceiverArgs)
    (r : Receiver.Receiver) : Prop :=
  Forall2 denotes (receiver_scalars args) (receiver_decimals r) /\
  Receiver.name r = ReceiverArgs.name args.

End Validation.

(** ** The string of a float *)

Module Repr.

Import Dec PySplat.

(** [str(val)] of a float is [inf], [-inf], [nan], or a sign and the
    shortest digits that name the float: written with a point and no
    exponent for zero and for magnitudes from 0.0001 to below 1e16, with
    an exponent elsewhere. The definitions below say which strings these are and which
    decimal each one spells. *)

(** The zeros that [s] starts with. *)
Fixpoint leading_zeros (s : string) : nat :=
  match s with
  | String "0" s' => S (leading_zeros s')
  | _ => O
  end.

(** The whole part: a single zero, or digits of which the first is not a
    zero. *)
Definition whole (s : string) : bool :=
  Str.forallb Str.is_digit s &&
  match s with
  | String "0" EmptyString => true
  | String "0" _ => false
  | String _ _ => true
  | EmptyString => false
  end.

(** At least one digit, and digits only. *)
Definition digits1 (s : string) : bool :=
  Str.forallb Str.is_digit s && negb (String.eqb s EmptyString).

(** Without an exponent: the whole part, a point and at least one digit;
    below one, fewer than six zeros follow the point. *)
Definition positional (ip fp : string) : bool :=
  whole ip && Str.forallb Str.is_digit fp &&
  negb (String.eqb fp EmptyString) &&
  (negb (String.eqb ip "0") || (leading_zeros fp <=? 5)%nat).

Definition spell (sign : bool) (ip fp : string) : string :=
  sign_str sign ++ ip ++ "." ++ fp.

(** With an exponent: digits, a point and digits or neither, [e], the sign
    of the exponent and its digits, of which a float has two or three. *)
Definition mantissa (ip fp : string) : string :=
  match fp with
  | EmptyString => ip
  | _ => ip ++ "." ++ fp
  end.

Definition spell_exp (sign : bool) (ip fp : string) (eneg : bool) (ex : string)
    : string :=
  sign_str sign ++ mantissa ip fp ++ "e" ++ (if eneg then "-" else "+") ++ ex.

Definition exponent (eneg : bool) (ex : string) : Z :=
  if eneg then - Z.of_N (Str.int_of_digits ex) else Z.of_N (Str.int_of_digits ex).

(** [spells s d]: [s] is the string of a float, and [d] is the decimal
    with the digits and the exponent that [s] shows. *)
Inductive spells : string -> Decimal -> Prop :=
| spells_positional (sign : bool) (ip fp : string) :
    positional ip fp = true ->
    spells (spell sign ip fp)
      (Fin sign (Str.int_of_digits (ip ++ fp)) (- Z.of_nat (String.length fp)))
| spells_exponent (sign : bool) (ip fp : string) (eneg : bool) (ex : string) :
    digits1 ip = true -> Str.forallb Str.is_digit fp = true ->
    digits1 ex = true -> (String.length ex <=? 3)%nat = true ->
    spells (spell_exp sign ip fp eneg ex)
      (Fin sign (Str.int_of_digits (ip ++ fp))
         (exponent eneg ex - Z.of_nat (String.length fp)))
| spells_inf (sign : bool) : spells (sign_str sign ++ "inf") (Inf sign)
| spells_nan : spells "nan" (NaN false false 0).

(** A scalar that a caller who works with floats supplies for a
    decimal-typed field: a float, or a string written as [str] writes a
    float; a [Decimal] or an int may stand beside it. *)
Definition supplied (val : pyobj) : Prop :=
  match val with
  | PyFloat s | PyStr s => exists d, spells s d
  | PyDecimal _ | PyInt _ => True
  | PyOther => False
  end.

(** What the field holds for it: for a float or such a string, the
    decimal with the digits and the exponent that the string shows, which
    is written back as the same string where that is written without an
    exponent; a [Decimal] itself; the value of an int. *)
Definition kept (val : pyobj) (d : Decimal) : Prop :=
  match val with
  | PyFloat s | PyStr s =>
      spells s d /\
      (forall sign ip fp,
         s = spell sign ip fp -> positional ip fp = true -> to_string d = s)
  | PyDecimal d0 => d = d0
  | PyInt z => d = Fin (z <? 0) (Z.abs_N z) 0
  | PyOther => False
  end.

End Repr.

(** ** What the report is searched for *)

Module Report.

Import Dec PySplat.

(** What a group of the pattern takes: digits, a point, digits, either
    run of digits possibly empty. *)
Definition numeral (g : string) : Prop :=
  exists a b,
    g = a ++ "." ++ b /\
    Str.forallb Str.is_digit a = true /\ Str.forallb Str.is_digit b = true.

(** The three patterns as the compiled expression has them, in the order
    of the document, any text in between; [w] is the character that the
    unescaped point of [3.0] stands for. *)
Definition located (w : ascii) (text g1 g2 g3 : string) : Prop :=
  exists pre mid1 mid2 post,
    text = pre ++ "Free space path loss: " ++ g1 ++ " dB" ++ mid1
           ++ "ITWOM Version 3" ++ String w ("0 path loss: " ++ g2 ++ " dB"
           ++ mid2 ++ g3 ++ " dBuV/meter" ++ post) /\
    numeral g1 /\ numeral g2 /\ numeral g3.

(** [text] holds [part]. *)
Definition contains (text part : string) : Prop :=
  exists pre post, text = pre ++ part ++ post.

(** The code of one group: digits, an escaped point, digits. *)
Definition number_group : list Re.instr :=
  [Re.Open; Re.Star Re.CDigit; Re.Chr (Re.CLit "."); Re.Star Re.CDigit;
   Re.Close].

(** The code of [REPORT_PATTERN], by its parts. *)
Definition report_code : list Re.instr :=
  Re.lits "Free space path loss: " ++ number_group ++ Re.lits " dB"
  ++ [Re.LazyStar Re.CAny]
  ++ Re.lits "ITWOM Version 3" ++ [Re.Chr Re.CAny] ++ Re.lits "0 path loss: "
  ++ number_group ++ Re.lits " dB"
  ++ [Re.LazyStar Re.CAny]
  ++ number_group ++ Re.lits " dBuV/meter".

(** [part] occurs in [text], decided. *)
Fixpoint occurs (part text : string) : bool :=
  String.prefix part text ||
  match text with
  | String _ text' => occurs part text'
  | EmptyString => false
  end.

End Report.

(** ** The workspace of an invocation *)

Module Workspace.

Import PySplat.

(** The directory that [tempfile.mkdtemp] creates: the first candidate that
    does not exist. *)
Fixpoint chosen (candidates : list string) (fs : OS.filesystem) : option string :=
  match candidates with
  | [] => None
  | d :: rest =>
      match fs d with
      | None => Some d
      | Some _ => chosen rest fs
      end
  end.

(** Nothing is left of [dir]: neither the directory nor anything below. *)
Definition removed (dir : string) (fs : OS.filesystem) : Prop :=
  forall p, OS.under dir p = true -> fs p = None.

(** A site name that can be part of a file name. *)
Definition file_name_part (name : string) : Prop :=
  Str.existsb (fun c => Ascii.eqb c "/" || Ascii.eqb c Ascii.zero) name = false.

(** The paths of the three input files, in the order they are opened. *)
Definition input_paths (dir : string) (t : Transmitter.Transmitter)
    (r : Receiver.Receiver) : list string :=
  [OS.joinpath dir ("transmitter-" ++ Transmitter.name t ++ ".qth");
   OS.joinpath dir ("transmitter-" ++ Transmitter.name t ++ ".lrp");
   OS.joinpath dir ("receiver-" ++ Receiver.name r ++ ".qth")].

(** The workspace has room for the input files: its own path holds no NUL,
    and the paths of the three files are within the limits of the system
    (a site name of some 240 bytes is not). *)
Definition roomy (dir : string) (t : Transmitter.Transmitter)
    (r : Receiver.Receiver) : Prop :=
  OS.has_nul dir = false /\
  List.existsb OS.too_long (input_paths dir t r) = false.

(** The workspace exists and holds no directory of its own. *)
Definition tidy (dir : string) (fs : OS.filesystem) : Prop :=
  fs dir = Some OS.Dir /\
  forall p, OS.under dir p = true -> p <> dir -> fs p <> Some OS.Dir.

(** The timeout the child process is given. *)
Definition effective_timeout (timeout : option Z) : Z :=
  match timeout with
  | Some t => t
  | None => 2
  end.

End Workspace.

(** ** Concrete objects *)

Module Examples.

Import Dec PySplat.

(** The transmitter and the receiver of [test1], as constructed. *)
Definition menesble : Transmitter.Transmitter :=
  {| Transmitter.name := "Menesble";
     Transmitter.latitude := literal "47.78194";
     Transmitter.longitude_WtoE := literal "4.90917";
     Transmitter.height_m := literal "41.0";
     Transmitter.eirp_W := literal "80.0";
     Transmitter.frequency_MHz := literal "800.00";
     Transmitter.polarization := Polarization1;
     Transmitter.radio_climate := Climate5 |}.

Definition bure : Receiver.Receiver :=
  {| Receiver.name := "Bure";
     Receiver.latitude := literal "47.738787";
     Receiver.longitude_WtoE := literal "4.8892801";
     Receiver.height_m := literal "2.0" |}.

(** Their projections. *)
Definition menesble_qth : QTH.QTHFields :=
  {| QTH.name := "Menesble";
     QTH.latitude := literal "47.78194";
     QTH.longitude_EtoW := literal "355.09083";
     QTH.height_m := literal "41.0" |}.

Definition menesble_lrp : LRP.LRPFields :=
  LRPFields_new (literal "48.78048780487804878048780488") (literal "800.00")
    Polarization1 Climate5.

Definition bure_qth : QTH.QTHFields :=
  {| QTH.name := "Bure";
     QTH.latitude := literal "47.738787";
     QTH.longitude_EtoW := literal "355.1107199";
     QTH.height_m := literal "2.0" |}.

(** The same transmitter at 370 degrees (10 degrees east, once around). *)
Definition transmitter_at_370 : Transmitter.Transmitter :=
  {| Transmitter.name := "Menesble";
     Transmitter.latitude := literal "47.78194";
     Transmitter.longitude_WtoE := literal "370";
     Transmitter.height_m := literal "41.0";
     Transmitter.eirp_W := literal "80.0";
     Transmitter.frequency_MHz := literal "800.00";
     Transmitter.polarization := Polarization1;
     Transmitter.radio_climate := Climate5 |}.

(** The same transmitter, its longitude given to 27 places. *)
Definition transmitter_long_fraction : Transmitter.Transmitter :=
  {| Transmitter.name := "Menesble";
     Transmitter.latitude := literal "47.78194";
     Transmitter.longitude_WtoE := literal "4.909170000000000000000000001";
     Transmitter.height_m := literal "41.0";
     Transmitter.eirp_W := literal "80.0";
     Transmitter.frequency_MHz := literal "800.00";
     Transmitter.polarization := Polarization1;
     Transmitter.radio_climate := Climate5 |}.

(** A transmitter whose latitude is not a number. *)
Definition transmitter_args_north : TransmitterArgs.TransmitterArgs :=
  {| TransmitterArgs.name := "Menesble";
     TransmitterArgs.latitude := PyStr "north";
     TransmitterArgs.longitude_WtoE := PyFloat "4.90917";
     TransmitterArgs.height_m := PyStr "41.0";
     TransmitterArgs.eirp_W := PyInt 80;
     TransmitterArgs.frequency_MHz := PyDecimal (literal "800.00");
     TransmitterArgs.polarization := Polarization1;
     TransmitterArgs.radio_climate := Climate5 |}.

(** The transmitter of [test1] described with floats, its height with a
    string. *)
Definition transmitter_args_floats : TransmitterArgs.TransmitterArgs :=
  {| TransmitterArgs.name := "Menesble";
     TransmitterArgs.latitude := PyFloat "47.78194";
     TransmitterArgs.longitude_WtoE := PyFloat "4.90917";
     TransmitterArgs.height_m := PyStr "41.0";
     TransmitterArgs.eirp_W := PyFloat "80.0";
     TransmitterArgs.frequency_MHz := PyFloat "0.1";
     TransmitterArgs.polarization := Polarization1;
     TransmitterArgs.radio_climate := Climate5 |}.

(** The receiver of [test1] described with floats, its height a
    hundredth of a millimetre, which [str] writes with an exponent. *)
Definition receiver_args_floats : ReceiverArgs.ReceiverArgs :=
  {| ReceiverArgs.name := "Bure";
     ReceiverArgs.latitude := PyFloat "47.738787";
     ReceiverArgs.longitude_WtoE := PyFloat "4.8892801";
     ReceiverArgs.height_m := PyFloat "1e-05" |}.

(** A receiver whose height is missing. *)
Definition receiver_args_none : ReceiverArgs.ReceiverArgs :=
  {| ReceiverArgs.name := "Bure";
     ReceiverArgs.latitude := PyStr "47.738787";
     ReceiverArgs.longitude_WtoE := PyFloat "4.8892801";
     ReceiverArgs.height_m := PyOther |}.

(** A world for an invocation: [/tmp] exists and is empty, [tempfile]
    draws one name. *)
Definition tmp_only : OS.filesystem :=
  fun p => if String.eqb p "/tmp" then Some OS.Dir else None.

Definition drawn_names : list string := ["/tmp/tmpk3x9q2ab"].

Definition sample_report : string :=
  Str.join newline
    ["Free space path loss: 104.55 dB";
     "ITWOM Version 3.0 path loss: 141.82 dB";
     "Field strength at Bure: 42.53 dBuV/meter";
     EmptyString].

(** External programs: one that writes [text] as its report and exits with
    0, one that exits with 1, one that does not complete in time. *)
Definition splat_writes (text : string) : OS.program :=
  fun args cwd timeout fs =>
    (OS.Exited 0,
     OS.update fs (OS.joinpath cwd "Menesble-to-Bure.txt") (OS.File text)).

Definition splat_fails : OS.program :=
  fun args cwd timeout fs =>
    (OS.Exited 1,
     OS.update fs (OS.joinpath cwd "splat.log") (OS.File "no terrain")).

Definition splat_hangs : OS.program :=
  fun args cwd timeout fs =>
    (OS.TimedOut,
     OS.update fs (OS.joinpath cwd "Menesble-to-Bure.txt") (OS.File "Free")).

(** Reports in which one quantity is printed without a point. *)
Definition report_integer_loss : string :=
  Str.join newline
    ["Free space path loss: 104 dB";
     "ITWOM Version 3.0 path loss: 141.82 dB";
     "Field strength at Bure: 42.53 dBuV/meter"].

Definition report_integer_itwom : string :=
  Str.join newline
    ["Free space path loss: 104.55 dB";
     "ITWOM Version 3.0 path loss: 141 dB";
     "Field strength at Bure: 42.53 dBuV/meter"].

Definition report_integer_field : string :=
  Str.join newline
    ["Free space path loss: 104.55 dB";
     "ITWOM Version 3.0 path loss: 141.82 dB";
     "Field strength at Bure: 42 dBuV/meter"].

(** A report without the third quantity. *)
Definition report_without_field : string :=
  Str.join newline
    ["Free space path loss: 104.55 dB";
     "ITWOM Version 3.0 path loss: 141.82 dB"].

(** A report whose first loss line holds a bare point, before the three
    lines of a good report. *)
Definition report_bare_point : string :=
  Str.join newline
    ["Free space path loss: . dB";
     "Free space path loss: 104.55 dB";
     "ITWOM Version 3.0 path loss: 141.82 dB";
     "Field strength at Bure: 42.53 dBuV/meter"].

(** A report that names another version of the model, with a comma. *)
Definition report_other_version : string :=
  Str.join newline
    ["Free space path loss: 104.55 dB";
     "ITWOM Version 3,0 path loss: 141.82 dB";
     "Field strength at Bure: 42.53 dBuV/meter"].

(** A report that names both. *)
Definition report_two_versions : string :=
  Str.join newline
    ["Free space path loss: 104.55 dB";
     "ITWOM Version 3,0 path loss: 99.99 dB";
     "ITWOM Version 3.0 path loss: 141.82 dB";
     "Field strength at Bure: 42.53 dBuV/meter"].

(** A site whose name runs over two lines. *)
Definition two_line_site : QTH.QTHFields :=
  {| QTH.name := "Mont" ++ newline ++ "Blanc";
     QTH.latitude := literal "45.8326";
     QTH.longitude_EtoW := literal "353.1352";
     QTH.height_m := literal "2.0" |}.

End Examples.

(** ** What the parser takes and gives *)

Module Parser.

Import Dec PySplat Report.

(** The code [p] matches the text [w], whatever groups were taken before. *)
Definition accepts (p : list Re.instr) (w : string) : Prop :=
  forall st, exists st', Re.run p w st st'.

(** A value the parser can return: finite, not negative, with as many
    places as the report printed. *)
Definition plain_quantity (d : Decimal) : Prop :=
  match d with
  | Fin false _ e => e <= 0
  | _ => False
  end.

(** The three patterns stand in [text], for some character in the place of
    the unescaped point. *)
Definition readable (text : string) : Prop :=
  exists c g1 g2 g3, located c text g1 g2 g3.

End Parser.

Module ParserExamples.

Import PySplat.

(** A report whose field strength is below zero. *)
Definition report_negative_field : string :=
  Str.join newline
    ["Free space path loss: 104.55 dB";
     "ITWOM Version 3.0 path loss: 141.82 dB";
     "Field strength at Bure: -5.25 dBuV/meter"].

End ParserExamples.

(** ** The invocation, step by step *)

Module Staging.

Import Dec PySplat Workspace.

(** The names of the three input files. *)
Definition transmitter_qth_name (t : Transmitter.Transmitter) : string :=
  "transmitter-" ++ Transmitter.name t ++ ".qth".

Definition transmitter_lrp_name (t : Transmitter.Transmitter) : string :=
  "transmitter-" ++ Transmitter.name t ++ ".lrp".

Definition receiver_qth_name (r : Receiver.Receiver) : string :=
  "receiver-" ++ Receiver.name r ++ ".qth".

(** The texts written to them, in the order they are written. *)
Definition input_texts (t : Transmitter.Transmitter) (r : Receiver.Receiver)
    : result (string * string * string) :=
  text1 <- (q <- Transmitter.to_qthfields t ;; qth_text q) ;;
  text2 <- (l <- Transmitter.to_lrpfields t ;; lrp_text l) ;;
  text3 <- (q <- Receiver.to_qthfields r ;; qth_text q) ;;
  Ok (text1, text2, text3).

(** The file system when the tool is started: the directory created, the
    three files opened, then written. *)
Definition staged (dir : string) (t : Transmitter.Transmitter)
    (r : Receiver.Receiver) (texts : string * string * string)
    (fs : OS.filesystem) : OS.filesystem :=
  let '(text1, text2, text3) := texts in
  let p1 := OS.joinpath dir (transmitter_qth_name t) in
  let p2 := OS.joinpath dir (transmitter_lrp_name t) in
  let p3 := OS.joinpath dir (receiver_qth_name r) in
  let opened :=
    OS.update (OS.update (OS.update (OS.update fs dir OS.Dir)
      p1 (OS.File EmptyString)) p2 (OS.File EmptyString))
      p3 (OS.File EmptyString) in
  OS.update (OS.update (OS.update opened p1 (OS.File (OS.encode text1)))
    p2 (OS.File (OS.encode text2))) p3 (OS.File (OS.encode text3)).

(** The command line of the tool. *)
Definition splat_args (cities_filepath terrain_folder dir : string)
    (t : Transmitter.Transmitter) (r : Receiver.Receiver) : list string :=
  ["splat"; "-metric"; "-s"; cities_filepath; "-d"; terrain_folder;
   "-t"; OS.joinpath dir (transmitter_qth_name t);
   "-r"; OS.joinpath dir (receiver_qth_name r)].

(** Where the report is looked for. *)
Definition report_path (dir : string) (t : Transmitter.Transmitter)
    (r : Receiver.Receiver) : string :=
  OS.joinpath dir (report_filename t r).

(** The invocation can stage its inputs: [tempfile] draws [dir], nothing
    is there yet, the two names can be parts of a file name, and the
    workspace has room for the three files. *)
Definition ready (tmp_names : list string) (fs : OS.filesystem) (dir : string)
    (t : Transmitter.Transmitter) (r : Receiver.Receiver) : Prop :=
  chosen tmp_names fs = Some dir /\ removed dir fs /\
  file_name_part (Transmitter.name t) /\ file_name_part (Receiver.name r) /\
  roomy dir t r.

(** The two paths of the caller can stand on a command line: they hold no
    NUL. *)
Definition plain_paths (terrain_folder cities_filepath : string) : Prop :=
  OS.has_nul terrain_folder = false /\ OS.has_nul cities_filepath = false.

(** How the invocation ends when the tool has ended with [c] and left the
    files [fs']. *)
Definition outcome (path : string) (c : OS.completion) (fs' : OS.filesystem)
    : result (Decimal * Decimal * Decimal) :=
  match c with
  | OS.Exited 0 => report_text <- fst (OS.read path fs') ;; report_values report_text
  | OS.Exited rc => Raise (CalledProcessError rc)
  | OS.TimedOut => Raise TimeoutExpired
  | OS.NotStarted => Raise (OSError "splat")
  | OS.Undecodable => Raise UnicodeDecodeError
  end.

(** The computation leaves every path outside [dir] as it found it. *)
Definition frames {A : Type} (dir : string) (c : OS.M A) : Prop :=
  forall fs p, OS.under dir p = false -> snd (c fs) p = fs p.

(** A tool that touches nothing outside its working directory. *)
Definition confined (splat : OS.program) : Prop :=
  forall args cwd timeout fs p,
    OS.under cwd p = false -> snd (splat args cwd timeout fs) p = fs p.

(** A name with a slash in it, and no NUL, that [pathlib] leaves as it is
    written: no component of it is empty or a dot. *)
Definition slashed (name : string) : Prop :=
  Str.existsb (fun c => Ascii.eqb c "/") name = true /\
  Str.existsb (fun c => Ascii.eqb c Ascii.zero) name = false /\
  Report.occurs "//" name = false /\ Report.occurs "/./" name = false.

End Staging.

Module PipelineExamples.

Import Dec PySplat Examples.

(** A tool that writes its report and exits with 1 all the same. *)
Definition splat_writes_and_fails (text : string) : OS.program :=
  fun args cwd timeout fs =>
    (OS.Exited 1,
     OS.update fs (OS.joinpath cwd "Menesble-to-Bure.txt") (OS.File text)).

(** The report of [test1] as a tool that ends its lines with a carriage
    return and a line feed writes it. *)
Definition crlf_report : string :=
  Str.join (String (ascii_of_N 13) newline)
    ["Free space path loss: 104.55 dB";
     "ITWOM Version 3.0 path loss: 141.82 dB";
     "Field strength at Bure: 42.53 dBuV/meter";
     EmptyString].

(** A tool that exits with 0 and writes nothing. *)
Definition splat_silent : OS.program :=
  fun args cwd timeout fs => (OS.Exited 0, fs).

(** The transmitter of [test1] under a name with a slash. *)
Definition transmitter_slashed : Transmitter.Transmitter :=
  {| Transmitter.name := "Menesble/Nord";
     Transmitter.latitude := literal "47.78194";
     Transmitter.longitude_WtoE := literal "4.90917";
     Transmitter.height_m := literal "41.0";
     Transmitter.eirp_W := literal "80.0";
     Transmitter.frequency_MHz := literal "800.00";
     Transmitter.polarization := Polarization1;
     Transmitter.radio_climate := Climate5 |}.

(** A receiver whose longitude is infinite. *)
Definition receiver_nowhere : Receiver.Receiver :=
  {| Receiver.name := "Bure";
     Receiver.latitude := literal "47.738787";
     Receiver.longitude_WtoE := Inf false;
     Receiver.height_m := literal "2.0" |}.

End PipelineExamples.

(** ** Construction, field by field *)

Module FieldExamples.

Import Dec PySplat.

(** A transmitter with two scalars that cannot be coerced: the latitude is
    no number, the height is missing. *)
Definition transmitter_args_two_errors : TransmitterArgs.TransmitterArgs :=
  {| TransmitterArgs.name := "Menesble";
     TransmitterArgs.latitude := PyStr "north";
     TransmitterArgs.longitude_WtoE := PyFloat "4.90917";
     TransmitterArgs.height_m := PyOther;
     TransmitterArgs.eirp_W := PyInt 80;
     TransmitterArgs.frequency_MHz := PyDecimal (literal "800.00");
     TransmitterArgs.polarization := Polarization1;
     TransmitterArgs.radio_climate := Climate5 |}.

(** A transmitter described with ints. *)
Definition transmitter_args_ints : TransmitterArgs.TransmitterArgs :=
  {| TransmitterArgs.name := "Menesble";
     TransmitterArgs.latitude := PyInt 48;
     TransmitterArgs.longitude_WtoE := PyInt (-5);
     TransmitterArgs.height_m := PyInt 41;
     TransmitterArgs.eirp_W := PyInt 80;
     TransmitterArgs.frequency_MHz := PyInt 800;
     TransmitterArgs.polarization := Polarization1;
     TransmitterArgs.radio_climate := Climate5 |}.

End FieldExamples.

(** ** What is written, and what is read back from it *)

Module Decode.

Import Dec PySplat.

(** The numbers of a [.qth] block, in the order of its lines. *)
Definition qth_numbers (q : QTH.QTHFields) : list Decimal :=
  [QTH.latitude q; QTH.longitude_EtoW q; QTH.height_m q].

(** The numbers of a [.lrp] block, in the order of its lines. *)
Definition lrp_numbers (l : LRP.LRPFields) : list Decimal :=
  [LRP.earth_dielectric_constant l;
   LRP.earth_conductivity l;
   LRP.atmospheric_bending_constant l;
   LRP.frequency_MHz l;
   of_int (int_of_radio_climate (LRP.radio_climate l));
   of_int (int_of_polarization (LRP.polarization l));
   LRP.fraction_situations l;
   LRP.fraction_time l;
   LRP.erp_W l].

(** The arguments that spell an object out: each decimal by its string. *)
Definition transmitter_printed (t : Transmitter.Transmitter)
    : TransmitterArgs.TransmitterArgs :=
  {| TransmitterArgs.name := Transmitter.name t;
     TransmitterArgs.latitude := PyStr (to_string (Transmitter.latitude t));
     TransmitterArgs.longitude_WtoE :=
       PyStr (to_string (Transmitter.longitude_WtoE t));
     TransmitterArgs.height_m := PyStr (to_string (Transmitter.height_m t));
     TransmitterArgs.eirp_W := PyStr (to_string (Transmitter.eirp_W t));
     TransmitterArgs.frequency_MHz :=
       PyStr (to_string (Transmitter.frequency_MHz t));
     TransmitterArgs.polarization := Transmitter.polarization t;
     TransmitterArgs.radio_climate := Transmitter.radio_climate t |}.

Definition receiver_printed (r : Receiver.Receiver) : ReceiverArgs.ReceiverArgs :=
  {| ReceiverArgs.name := Receiver.name r;
     ReceiverArgs.latitude := PyStr (to_string (Receiver.latitude r));
     ReceiverArgs.longitude_WtoE := PyStr (to_string (Receiver.longitude_WtoE r));
     ReceiverArgs.height_m := PyStr (to_string (Receiver.height_m r)) |}.

End Decode.

(** ** Longitudes beyond the circle *)

Module Beyond.

Import Dec.

(** The longitudes above 360 for which 360 - longitude_WtoE is exact in the
    28 digits of the context. *)
Definition above_360 (longitude_WtoE : Decimal) : Prop :=
  match longitude_WtoE with
  | Fin sign c e =>
      - 10 ^ 28 < Num.diff360 sign c e < 0 /\ Etiny DefaultContext <= e
  | _ => False
  end.

(** The projection returns, and the longitude it returns is the remainder
    with the sign of the dividend: minus (longitude_WtoE - 360) mod 360, in
    (-360, 0]. *)
Definition remainder_below_zero (longitude_WtoE : Decimal)
    (out : result PySplat.QTH.QTHFields) : Prop :=
  exists q vl vr,
    out = Ok q /\
    Num.value longitude_WtoE = Some vl /\
    Num.value (PySplat.QTH.longitude_EtoW q) = Some vr /\
    (vr == - Num.qmod (vl - 360) 360)%Q /\ (- (360) < vr)%Q /\ (vr <= 0)%Q.

End Beyond.

Module BeyondExamples.

Import Dec PySplat.

(** A transmitter twice around: at 720 degrees. *)
Definition transmitter_at_720 : Transmitter.Transmitter :=
  {| Transmitter.name := "Menesble";
     Transmitter.latitude := literal "47.78194";
     Transmitter.longitude_WtoE := literal "720";
     Transmitter.height_m := literal "41.0";
     Transmitter.eirp_W := literal "80.0";
     Transmitter.frequency_MHz := literal "800.00";
     Transmitter.polarization := Polarization1;
     Transmitter.radio_climate := Climate5 |}.

(** A receiver once around: Bure at 364.8892801 degrees. *)
Definition receiver_once_around : Receiver.Receiver :=
  {| Receiver.name := "Bure";
     Receiver.latitude := literal "47.738787";
     Receiver.longitude_WtoE := literal "364.8892801";
     Receiver.height_m := literal "2.0" |}.

End BeyondExamples.

(** ** Link parameters that are refused *)

Module LinkExamples.

Import Dec PySplat.

(** A transmitter whose power is a signalling NaN. *)
Definition transmitter_unset_power : Transmitter.Transmitter :=
  {| Transmitter.name := "Menesble";
     Transmitter.latitude := literal "47.78194";
     Transmitter.longitude_WtoE := literal "4.90917";
     Transmitter.height_m := literal "41.0";
     Transmitter.eirp_W := NaN false true 0;
     Transmitter.frequency_MHz := literal "800.00";
     Transmitter.polarization := Polarization1;
     Transmitter.radio_climate := Climate5 |}.

End LinkExamples.

(* ================================================================== *)
(** * Properties *)

(** ** Decimal digits *)

Section Digits.

Lemma digits_onto_length (fuel : nat) :
  forall (n : N) (acc : string),
    (n < 2 ^ N.of_nat (S fuel))%N ->
    exists k : nat,
      String.length (Str.digits_onto fuel n acc) = (k + String.length acc)%nat /\
      (1 <= k)%nat /\
      (n < 10 ^ N.of_nat k)%N /\
      (n = 0%N /\ k = 1%nat \/ (10 ^ N.of_nat (k - 1) <= n)%N).
Proof.
  induction fuel as [|fuel IH]; intros n acc Hn.
  - exists 1%nat. cbn [Str.digits_onto String.length].
    change (2 ^ N.of_nat 1)%N with 2%N in Hn.
    change (10 ^ N.of_nat 1)%N with 10%N.
    change (10 ^ N.of_nat (1 - 1))%N with 1%N. lia.
  - cbn [Str.digits_onto]. destruct (N.ltb_spec n 10) as [Hlt|Hge].
    + exists 1%nat. cbn [String.length].
      change (10 ^ N.of_nat 1)%N with 10%N.
      change (10 ^ N.of_nat (1 - 1))%N with 1%N. lia.
    + assert (Hdiv : (n / 10 < 2 ^ N.of_nat (S fuel))%N).
      { rewrite Nat2N.inj_succ, N.pow_succ_r' in Hn.
        rewrite Nat2N.inj_succ in *. lia. }
      destruct (IH (n / 10)%N (String (Str.digit_chr (n mod 10)) acc) Hdiv)
        as (k & Hlen & Hk & Hub & Hlb).
      exists (S k). rewrite Hlen. cbn [String.length].
      replace (S k - 1)%nat with (S (k - 1)) by lia.
      rewrite !Nat2N.inj_succ, !N.pow_succ_r'.
      destruct Hlb as [[Hz _]|Hlb]; [lia|].
      repeat split; try lia.
Qed.

Lemma len_int_zero : Dec.len_int 0 = 1.
Proof. reflexivity. Qed.

Lemma len_int_bounds (c : N) :
  (0 < c)%N ->
  1 <= Dec.len_int c /\
  10 ^ (Dec.len_int c - 1) <= Z.of_N c < 10 ^ Dec.len_int c.
Proof.
  intros Hc. unfold Dec.len_int, Str.of_N.
  destruct (digits_onto_length (N.to_nat (N.log2 c)) c EmptyString)
    as (k & Hlen & Hk & Hub & Hlb).
  { rewrite Nat2N.inj_succ, N2Nat.id. apply N.log2_spec. exact Hc. }
  rewrite Hlen. cbn [String.length]. rewrite Nat.add_0_r.
  destruct Hlb as [[Hz _]|Hlb]; [lia|].
  replace (Z.of_nat k - 1) with (Z.of_N (N.of_nat (k - 1))) by lia.
  replace (Z.of_nat k) with (Z.of_N (N.of_nat k)) at 3 by lia.
  change 10 with (Z.of_N 10).
  rewrite <- !N2Z.inj_pow. lia.
Qed.

Lemma len_int_pos (c : N) : 1 <= Dec.len_int c.
Proof.
  destruct (N.eq_dec c 0) as [->|Hc].
  - rewrite len_int_zero. lia.
  - apply len_int_bounds. lia.
Qed.

(** A coefficient below 10**k has at most k digits. *)
Lemma len_int_le (c : N) (k : Z) :
  1 <= k -> Z.of_N c < 10 ^ k -> Dec.len_int c <= k.
Proof.
  intros Hk Hc. destruct (N.eq_dec c 0) as [->|Hnz].
  - rewrite len_int_zero. exact Hk.
  - destruct (len_int_bounds c) as (H1 & Hlo & _); [lia|].
    destruct (Z_le_gt_dec (Dec.len_int c) k) as [Hle|Hgt]; [exact Hle|].
    exfalso.
    assert (10 ^ k <= 10 ^ (Dec.len_int c - 1)).
    { apply Z.pow_le_mono_r; lia. }
    lia.
Qed.

(** A coefficient of at least 10**k has more than k digits. *)
Lemma len_int_gt (c : N) (k : Z) :
  0 <= k -> 10 ^ k <= Z.of_N c -> k < Dec.len_int c.
Proof.
  intros Hk Hc.
  assert (Hpos : 0 < 10 ^ k) by (apply Z.pow_pos_nonneg; lia).
  destruct (len_int_bounds c) as (H1 & _ & Hhi); [lia|].
  destruct (Z_lt_le_dec k (Dec.len_int c)) as [Hlt|Hge]; [exact Hlt|].
  exfalso.
  assert (10 ^ Dec.len_int c <= 10 ^ k).
  { apply Z.pow_le_mono_r; lia. }
  lia.
Qed.

End Digits.

(** ** Exact results of [_fix], [__sub__] and [__mod__] *)

Section Exact.

Import Dec.

Lemma pow10_Z (k : Z) : Z.of_N (pow10 k) = 10 ^ k.
Proof.
  unfold pow10. rewrite Z2N.id; [reflexivity|].
  destruct (Z_le_gt_dec 0 k).
  - apply Z.pow_nonneg; lia.
  - rewrite Z.pow_neg_r; lia.
Qed.

Lemma pow10_pos (k : Z) : 0 <= k -> (0 < pow10 k)%N.
Proof.
  intros Hk. pose proof (pow10_Z k) as H.
  assert (0 < 10 ^ k) by (apply Z.pow_pos_nonneg; lia). lia.
Qed.

(** [_fix] leaves a coefficient of at most 28 digits alone, when the
    exponent is in range. *)
Lemma fix_exact (s : bool) (c : N) (e : Z) :
  (0 < c)%N -> Z.of_N c < 10 ^ 28 ->
  Etiny DefaultContext <= e -> e <= 999972 ->
  _fix DefaultContext (Fin s c e) = Ok (Fin s c e).
Proof.
  intros Hc Hlt He Hmax.
  pose proof (len_int_le c 28 ltac:(lia) Hlt) as Hlen.
  pose proof (len_int_pos c) as Hlen1.
  unfold _fix. destruct c as [|p]; [lia|].
  unfold Etop, Etiny in *. cbn [prec Emax Emin DefaultContext] in *.
  destruct (Z.ltb_spec (999999 - 28 + 1) (len_int (N.pos p) + e - 28)); [lia|].
  destruct (Z.ltb_spec (len_int (N.pos p) + e - 28) (-999999 - 28 + 1)).
  - destruct (Z.ltb_spec e (-999999 - 28 + 1)); [lia|reflexivity].
  - destruct (Z.ltb_spec e (len_int (N.pos p) + e - 28)); [lia|reflexivity].
Qed.

Lemma fix_zero (s : bool) (e : Z) :
  Etiny DefaultContext <= e <= 999999 ->
  _fix DefaultContext (Fin s 0 e) = Ok (Fin s 0 e).
Proof.
  intros He. unfold _fix, Etiny in *. cbn [prec Emax Emin DefaultContext] in *.
  do 2 f_equal. lia.
Qed.

Lemma fix_exact_Z (s : bool) (z e : Z) :
  0 <= z < 10 ^ 28 -> Etiny DefaultContext <= e <= 999972 ->
  _fix DefaultContext (Fin s (Z.to_N z) e) = Ok (Fin s (Z.to_N z) e).
Proof.
  intros Hz He. destruct (Z.eq_dec z 0) as [->|Hnz].
  - apply fix_zero. lia.
  - apply fix_exact; lia.
Qed.

End Exact.

(** ** The east-to-west longitude on exact inputs *)

Section Longitude.

Import Dec.

Lemma len_360 : len_int 360 = 3.
Proof. reflexivity. Qed.
Lemma Etiny_default : Etiny DefaultContext = -1000026.
Proof. reflexivity. Qed.

Lemma pow_split (a b : Z) : 0 <= a -> 0 <= b -> 10 ^ (a + b) = 10 ^ a * 10 ^ b.
Proof. intros. apply Z.pow_add_r; assumption. Qed.

Lemma normalize_360_neg (c : N) (e : Z) :
  c <> 0%N -> e <= 0 -> -26 <= len_int c + e ->
  _normalize 28 (360%N, 0) (c, e) = ((360 * pow10 (0 - e))%N, e, (c, e)).
Proof.
  intros Hc He Hmag. unfold _normalize. cbv zeta. cbn [fst snd].
  destruct (Z.ltb_spec 0 e); [lia|]. cbv iota beta. cbn [fst snd].
  rewrite len_360.
  destruct (Z.ltb_spec (len_int c + e - 1) (0 + Z.min (-1) (3 - 28 - 2))); [lia|].
  reflexivity.
Qed.

Lemma normalize_360_pos (c : N) (e : Z) :
  c <> 0%N -> 0 < e -> e + Z.min (-1) (len_int c - 30) <= 2 ->
  _normalize 28 (360%N, 0) (c, e) = ((360%N, 0), ((c * pow10 (e - 0))%N, 0)).
Proof.
  intros Hc He Hmag. unfold _normalize. cbv zeta. cbn [fst snd].
  destruct (Z.ltb_spec 0 e); [|lia]. cbv iota beta. cbn [fst snd].
  rewrite len_360.
  destruct (Z.ltb_spec (3 + 0 - 1) (e + Z.min (-1) (len_int c - 28 - 2))); [lia|].
  reflexivity.
Qed.

Lemma fix_exact_Z_eq (s : bool) (z e : Z) (c : N) :
  c = Z.to_N z ->
  0 <= z < 10 ^ 28 -> -1000026 <= e <= 999972 ->
  _fix DefaultContext (Fin s c e) = Ok (Fin s (Z.to_N z) e).
Proof. intros -> ? ?. apply fix_exact_Z; [assumption|rewrite Etiny_default; assumption]. Qed.

Lemma sub360_exact (s : bool) (c : N) (e : Z) :
  0 <= Num.diff360 s c e < 10 ^ 28 -> Etiny DefaultContext <= e ->
  sub DefaultContext (Fin false 360 0) (Fin s c e)
  = Ok (Fin false (Z.to_N (Num.diff360 s c e)) (Z.min 0 e)).
Proof.
  intros HD He. unfold Num.diff360 in *. rewrite Etiny_default in *.
  assert (Hm : -1000026 <= Z.min 0 e <= 0) by lia.
  unfold sub. cbn [_check_nans copy_negate].
  unfold add. cbn [_check_nans].
  change (360 =? 0)%N with false. cbn [andb].
  destruct (N.eqb_spec c 0) as [->|Hc].
  - (* longitude zero *)
    assert (Hs0 : Num.signed s 0 = 0) by (destruct s; reflexivity).
    rewrite Hs0, Z.mul_0_l, Z.sub_0_r in *.
    assert (Hlow : -25 <= Z.min 0 e).
    { destruct (Z_le_gt_dec (-25) (Z.min 0 e)); [assumption|exfalso].
      assert (10 ^ 26 <= 10 ^ (- Z.min 0 e)) by (apply Z.pow_le_mono_r; lia).
      lia. }
    cbn [prec DefaultContext].
    replace (Z.max (Z.min 0 e) (0 - 28 - 1)) with (Z.min 0 e) by lia.
    unfold _rescale.
    destruct (Z.leb_spec (Z.min 0 e) 0); [|lia].
    replace (0 - Z.min 0 e) with (- Z.min 0 e) by lia.
    replace (360 * pow10 (- Z.min 0 e))%N with (Z.to_N (360 * 10 ^ (- Z.min 0 e))).
    2:{ pose proof (pow10_Z (- Z.min 0 e)). lia. }
    apply fix_exact_Z; [lia|rewrite Etiny_default; lia].
  - cbn [prec DefaultContext].
    assert (Hcpos : (0 < c)%N) by lia.
    destruct (len_int_bounds c Hcpos) as (Hl1 & Hlo & Hhi).
    destruct (Z_le_gt_dec e 0) as [Hneg|Hpos].
    + (* the longitude has a fractional part: exponent e *)
      replace (Z.min 0 e) with e in * by lia.
      replace (e - e) with 0 in * by lia.
      replace (10 ^ 0) with 1 in * by reflexivity. rewrite Z.mul_1_r in *.
      assert (Hmag : -26 <= len_int c + e).
      { destruct (Z_le_gt_dec (-26) (len_int c + e)); [assumption|exfalso].
        assert (Hc' : Z.of_N c < 10 ^ (-27 - e)).
        { eapply Z.lt_le_trans; [exact Hhi|]. apply Z.pow_le_mono_r; lia. }
        replace (- e) with (27 + (-27 - e)) in HD by lia.
        rewrite pow_split in HD by lia.
        assert (10 ^ 1 <= 10 ^ (-27 - e)) by (apply Z.pow_le_mono_r; lia).
        change (10 ^ 1) with 10 in *.
        change (10 ^ 27) with 1000000000000000000000000000 in *.
        change (10 ^ 28) with 10000000000000000000000000000 in *.
        unfold Num.signed in HD. destruct s; lia. }
      rewrite normalize_360_neg by assumption.
      replace (0 - e) with (- e) by lia.
      pose proof (pow10_Z (- e)) as Hp.
      destruct s; cbn [negb eqb Num.signed] in *.
      * rewrite fix_exact_Z_eq with (z := 360 * 10 ^ (- e) - - Z.of_N c); try lia.
        reflexivity.
      * destruct (N.eqb_spec (360 * pow10 (- e)) c) as [Heq|Hne].
        { replace (360 * 10 ^ (- e) - Z.of_N c) with 0 by lia.
          apply fix_zero. rewrite Etiny_default. lia. }
        destruct (N.ltb_spec (360 * pow10 (- e)) c) as [Hlt|Hge]; [lia|].
        rewrite fix_exact_Z_eq with (z := 360 * 10 ^ (- e) - Z.of_N c); try lia.
        reflexivity.
    + (* the longitude is a whole number: exponent 0 after scaling *)
      replace (Z.min 0 e) with 0 in * by lia.
      replace (- 0) with 0 in * by lia. rewrite Z.sub_0_r in *.
      replace (10 ^ 0) with 1 in * by reflexivity. rewrite Z.mul_1_r in *.
      assert (Hpe : 10 <= 10 ^ e).
      { change 10 with (10 ^ 1) at 1. apply Z.pow_le_mono_r; lia. }
      assert (Hmag : e + Z.min (-1) (len_int c - 30) <= 2).
      { destruct (Z_le_gt_dec (e + Z.min (-1) (len_int c - 30)) 2);
          [assumption|exfalso].
        assert (H32 : 10 ^ 32 <= 10 ^ (len_int c - 1) * 10 ^ e).
        { rewrite <- pow_split by lia. apply Z.pow_le_mono_r; lia. }
        assert (10 ^ (len_int c - 1) * 10 ^ e <= Z.of_N c * 10 ^ e).
        { apply Z.mul_le_mono_nonneg_r; lia. }
        change (10 ^ 32) with 100000000000000000000000000000000 in *.
        change (10 ^ 28) with 10000000000000000000000000000 in *.
        unfold Num.signed in HD. destruct s; lia. }
      rewrite normalize_360_pos by (assumption || lia).
      rewrite Z.sub_0_r.
      pose proof (pow10_Z e) as Hp.
      destruct s; cbn [negb eqb Num.signed] in *.
      * rewrite fix_exact_Z_eq with (z := 360 - - Z.of_N c * 10 ^ e); try lia.
        reflexivity.
      * destruct (N.eqb_spec 360 (c * pow10 e)) as [Heq|Hne].
        { replace (360 - Z.of_N c * 10 ^ e) with 0 by lia.
          apply fix_zero. rewrite Etiny_default. lia. }
        destruct (N.ltb_spec 360 (c * pow10 e)) as [Hlt|Hge]; [lia|].
        rewrite fix_exact_Z_eq with (z := 360 - Z.of_N c * 10 ^ e); try lia.
        reflexivity.
Qed.

Lemma rescale_same (s : bool) (c : N) (e : Z) :
  c <> 0%N -> _rescale (Fin s c e) e = Fin s c e.
Proof.
  intros Hc. unfold _rescale. destruct c as [|p]; [congruence|].
  destruct (Z.leb_spec e e); [|lia].
  replace (e - e) with 0 by lia. change (pow10 0) with 1%N.
  rewrite N.mul_1_r. reflexivity.
Qed.

Lemma rem360_exact (D m : Z) :
  0 <= D < 10 ^ 28 -> -1000026 <= m <= 0 ->
  rem DefaultContext (Fin false (Z.to_N D) m) (of_int 360)
  = Ok (Fin false (Z.to_N (D mod (360 * 10 ^ (- m)))) m).
Proof.
  intros HD Hm.
  assert (HT : 360 <= 360 * 10 ^ (- m)).
  { assert (0 < 10 ^ (- m)) by (apply Z.pow_pos_nonneg; lia). lia. }
  pose proof (Z.mod_pos_bound D (360 * 10 ^ (- m)) ltac:(lia)) as Hmod.
  pose proof (Z.mod_le D (360 * 10 ^ (- m)) ltac:(lia) ltac:(lia)) as Hmodle.
  change (of_int 360) with (Fin false 360 0).
  unfold rem. cbn [_check_nans]. unfold bind, _divide_rem.
  replace (Z.min m 0) with m by lia.
  destruct (N.eqb_spec (Z.to_N D) 0) as [Hz|Hnz].
  - cbn [orb]. rewrite Hz. cbn [_rescale].
    replace D with 0 by lia. rewrite Z.mod_0_l by lia.
    apply fix_zero. rewrite Etiny_default. lia.
  - cbn [orb].
    assert (Hpos : (0 < Z.to_N D)%N) by lia.
    destruct (len_int_bounds _ Hpos) as (Hl1 & Hlo & Hhi).
    rewrite Z2N.id in Hlo, Hhi by lia.
    pose proof (len_int_le (Z.to_N D) 28 ltac:(lia) ltac:(lia)) as Hl28.
    unfold adjusted. rewrite len_360.
    destruct (Z.leb_spec (m + len_int (Z.to_N D) - 1 - (0 + 3 - 1)) (-2)) as [Hsmall|Hbig].
    + (* the dividend is below 10 *)
      rewrite rescale_same by assumption.
      assert (HDT : D < 360 * 10 ^ (- m)).
      { assert (H10 : 10 ^ len_int (Z.to_N D) <= 10 ^ (1 + - m)).
        { apply Z.pow_le_mono_r; lia. }
        rewrite pow_split in H10 by lia. change (10 ^ 1) with 10 in H10.
        lia. }
      rewrite Z.mod_small by lia.
      apply fix_exact_Z; [lia|rewrite Etiny_default; lia].
    + cbn [prec DefaultContext].
      destruct (Z.leb_spec (m + len_int (Z.to_N D) - 1 - (0 + 3 - 1)) 28); [|lia].
      pose proof (pow10_Z (0 - m)) as Hp.
      replace (0 - m) with (- m) in * by lia.
      assert (Hp28 : Z.of_N (pow10 28) = 10 ^ 28) by apply pow10_Z.
      destruct (Z.leb_spec 0 m) as [Hm0|Hmneg].
      * assert (m = 0) by lia. subst m.
        change (pow10 (0 - 0)) with 1%N. rewrite N.mul_1_r.
        change (- 0) with 0 in *. change (10 ^ 0) with 1 in *.
        rewrite Z.mul_1_r in *.
        destruct (N.ltb_spec (Z.to_N D / 360) (pow10 28)) as [_|Hq].
        2:{ exfalso. assert (Z.of_N (Z.to_N D / 360) <= D).
            { rewrite N2Z.inj_div, Z2N.id by lia. change (Z.of_N 360) with 360.
              apply Z.div_le_upper_bound; lia. }
            lia. }
        assert (Heq : (Z.to_N D mod 360)%N = Z.to_N (D mod 360)).
        { apply N2Z.inj. rewrite N2Z.inj_mod, !Z2N.id by lia. reflexivity. }
        rewrite Heq. apply fix_exact_Z; [lia|rewrite Etiny_default; lia].
      * destruct (N.ltb_spec (Z.to_N D / (360 * pow10 (- m))) (pow10 28)) as [_|Hq].
        2:{ exfalso.
            assert (Z.of_N (Z.to_N D / (360 * pow10 (- m))) <= D).
            { rewrite N2Z.inj_div, N2Z.inj_mul, Z2N.id, Hp by lia.
              change (Z.of_N 360) with 360.
              apply Z.div_le_upper_bound; [lia|]. nia. }
            lia. }
        assert (Heq : (Z.to_N D mod (360 * pow10 (- m)))%N
                      = Z.to_N (D mod (360 * 10 ^ (- m)))).
        { apply N2Z.inj. rewrite N2Z.inj_mod, N2Z.inj_mul, !Z2N.id, Hp by lia.
          reflexivity. }
        rewrite Heq. apply fix_exact_Z; [lia|rewrite Etiny_default; lia].
Qed.

Lemma inject_Z_minus (x y : Z) : inject_Z (x - y) = (inject_Z x - inject_Z y)%Q.
Proof. unfold Z.sub, Qminus. rewrite inject_Z_plus, inject_Z_opp. reflexivity. Qed.

Lemma qmod_comp (x x' y y' : Q) :
  (x == x')%Q -> (y == y')%Q -> (Num.qmod x y == Num.qmod x' y')%Q.
Proof.
  intros Hx Hy. unfold Num.qmod.
  assert (Hfl : Qfloor (x / y) = Qfloor (x' / y')).
  { apply Qfloor_comp. rewrite Hx, Hy. reflexivity. }
  rewrite Hfl, Hx, Hy. reflexivity.
Qed.

Lemma qmod_scaled (D T : Z) (p : Q) :
  0 < T -> (0 < p)%Q ->
  (Num.qmod (inject_Z D * p) (inject_Z T * p) == inject_Z (D mod T) * p)%Q.
Proof.
  intros HT Hp. unfold Num.qmod.
  assert (HTq : ~ (inject_Z T == 0)%Q).
  { intros H. change 0%Q with (inject_Z 0) in H. rewrite inject_Z_injective in H. lia. }
  assert (Hpq : ~ (p == 0)%Q).
  { intros H. rewrite H in Hp. apply (Qlt_irrefl 0). exact Hp. }
  assert (Hfl : Qfloor (inject_Z D * p / (inject_Z T * p)) = D / T).
  { rewrite Zdiv_Qdiv. apply Qfloor_comp. field. split; assumption. }
  rewrite Hfl. rewrite Z.mod_eq by lia.
  rewrite inject_Z_minus, inject_Z_mult. ring.
Qed.

Lemma Qpow10_pos (k : Z) : (0 < 10 ^ k)%Q.
Proof. apply Qpower_0_lt. reflexivity. Qed.

Lemma Qpow10_inject (k : Z) : 0 <= k -> (inject_Z (10 ^ k) == 10 ^ k)%Q.
Proof. intros Hk. rewrite Zpower_Qpower by assumption. reflexivity. Qed.

Lemma Qpow10_add (a b : Z) : (10 ^ (a + b) == 10 ^ a * 10 ^ b)%Q.
Proof. apply Qpower_plus. discriminate. Qed.

Lemma east_to_west_exact (s : bool) (c : N) (e : Z) :
  Num.exact_longitude (Fin s c e) ->
  PySplat.east_to_west (Fin s c e)
  = Ok (Fin false
          (Z.to_N (Num.diff360 s c e mod (360 * 10 ^ (- Z.min 0 e))))
          (Z.min 0 e)).
Proof.
  intros [HD He]. rewrite Etiny_default in He.
  unfold PySplat.east_to_west.
  change (of_string "360") with (Ok (Fin false 360 0)).
  cbn [bind]. unfold PySplat.getcontext.
  rewrite sub360_exact by (assumption || rewrite Etiny_default; assumption).
  cbn [bind]. apply rem360_exact; [assumption|lia].
Qed.

Lemma east_to_west_value (s : bool) (c : N) (e : Z) (q : PySplat.QTH.QTHFields) :
  Num.exact_longitude (Fin s c e) ->
  PySplat.QTH.longitude_EtoW q
  = Fin false (Z.to_N (Num.diff360 s c e mod (360 * 10 ^ (- Z.min 0 e))))
      (Z.min 0 e) ->
  forall out, out = Ok q -> Num.east_to_west_spec (Fin s c e) out.
Proof.
  intros [HD He] Hq out ->. rewrite Etiny_default in He.
  set (m := Z.min 0 e) in *. set (D := Num.diff360 s c e) in *.
  set (T := 360 * 10 ^ (- m)) in *.
  assert (HT : 0 < T).
  { subst T. assert (0 < 10 ^ (- m)) by (apply Z.pow_pos_nonneg; lia). lia. }
  pose proof (Z.mod_pos_bound D T HT) as Hmod.
  exists q, (inject_Z (Num.signed s c) * 10 ^ e)%Q,
    (inject_Z (D mod T) * 10 ^ m)%Q.
  assert (Hab : (10 ^ (- m) * 10 ^ m == 1)%Q).
  { rewrite <- Qpow10_add. replace (- m + m) with 0 by lia. reflexivity. }
  assert (H360 : (360 == inject_Z T * 10 ^ m)%Q).
  { subst T. rewrite inject_Z_mult, Qpow10_inject by lia.
    rewrite <- Qmult_assoc, Hab. reflexivity. }
  assert (Hdiff : (360 - inject_Z (Num.signed s c) * 10 ^ e
                   == inject_Z D * 10 ^ m)%Q).
  { subst D. unfold Num.diff360. fold m.
    rewrite inject_Z_minus, !inject_Z_mult, !Qpow10_inject by lia.
    replace e with ((e - m) + m) at 1 by lia. rewrite Qpow10_add.
    change (inject_Z 360) with 360%Q.
    transitivity (360 * (10 ^ (- m) * 10 ^ m)
                  - inject_Z (Num.signed s c) * 10 ^ (e - m) * 10 ^ m)%Q.
    - rewrite Hab. ring.
    - ring. }
  split; [reflexivity|]. split; [reflexivity|]. split; [|split; [|split]].
  - rewrite Hq. unfold Num.value, Num.signed. rewrite Z2N.id by lia. reflexivity.
  - rewrite (qmod_comp _ _ _ _ Hdiff H360). symmetry. apply qmod_scaled.
    + exact HT.
    + apply Qpow10_pos.
  - apply Qmult_le_0_compat.
    + change 0%Q with (inject_Z 0). rewrite <- Zle_Qle. lia.
    + apply Qlt_le_weak, Qpow10_pos.
  - rewrite H360. apply Qmult_lt_compat_r.
    + apply Qpow10_pos.
    + rewrite <- Zlt_Qlt. lia.
Qed.

End Longitude.

(** ** C1: the east-to-west longitude *)

Section EastToWest.

Import Dec PySplat Examples.

(** [Decimal.__mod__] takes the sign of the dividend: 360 - 370 is -10, and
    -10 % 360 is -10, not 350. *)
Lemma to_qthfields_at_370 :
  Transmitter.to_qthfields transmitter_at_370
  = Ok {| QTH.name := "Menesble";
          QTH.latitude := Fin false 4778194 (-5);
          QTH.longitude_EtoW := Fin true 10 0;
          QTH.height_m := Fin false 410 (-1) |}.
Proof. vm_compute. reflexivity. Qed.

(** The subtraction is rounded to the 28 digits of the context: 360 less
    4.909170000000000000000000001 has 30 digits, and the remainder is taken
    of 355.0908300000000000000000000. *)
Lemma to_qthfields_long_fraction :
  Transmitter.to_qthfields transmitter_long_fraction
  = Ok {| QTH.name := "Menesble";
          QTH.latitude := Fin false 4778194 (-5);
          QTH.longitude_EtoW := Fin false 3550908300000000000000000000 (-25);
          QTH.height_m := Fin false 410 (-1) |}.
Proof. vm_compute. reflexivity. Qed.

(** C1, as stated, fails. For the longitude 370 the projection returns -10,
    which is not in [0, 360). For the longitude
    4.909170000000000000000000001 it returns the difference rounded to 28
    digits, which is not (360 - longitude_WtoE) mod 360. *)
Lemma C1_east_to_west_longitude_fails :
  ~ Num.east_to_west_spec
      (Transmitter.longitude_WtoE transmitter_at_370)
      (Transmitter.to_qthfields transmitter_at_370) /\
  ~ Num.east_to_west_spec
      (Transmitter.longitude_WtoE transmitter_long_fraction)
      (Transmitter.to_qthfields transmitter_long_fraction).
Proof.
  split.
  - intros (q & vl & vr & Hout & _ & Hvr & _ & Hge & _).
    rewrite to_qthfields_at_370 in Hout. injection Hout as <-.
    cbn in Hvr. injection Hvr as <-.
    revert Hge. vm_compute. intros H. apply H. reflexivity.
  - intros (q & vl & vr & Hout & Hvl & Hvr & Heq & _).
    rewrite to_qthfields_long_fraction in Hout. injection Hout as <-.
    cbn in Hvr. injection Hvr as <-.
    vm_compute in Hvl. injection Hvl as <-.
    revert Heq. vm_compute. discriminate.
Qed.

(** Other inputs on which the sentence fails, by the nature of [Decimal]:
    a NaN goes through, an infinity raises, and a longitude with more
    digits than the context holds is rounded before the remainder is
    taken. *)
Lemma east_to_west_special_values :
  east_to_west (NaN false false 0) = Ok (NaN false false 0) /\
  east_to_west (Inf false) = Raise InvalidOperation /\
  east_to_west (literal "1E-29") = Ok (Fin false 0 (-25)) /\
  east_to_west (literal "-1E+32") = Raise InvalidOperation.
Proof. repeat split; vm_compute; reflexivity. Qed.

(** C1 (amended). For every Transmitter and every Receiver whose
    longitude_WtoE is a finite decimal such that 360 - longitude_WtoE is not
    negative and is exact in the 28 digits of the context,
    to_qthfields().longitude_EtoW is (360 - longitude_WtoE) mod 360 and lies
    in [0, 360). *)
Theorem C1_east_to_west_longitude
    (t : Transmitter.Transmitter) (r : Receiver.Receiver) :
  Num.exact_longitude (Transmitter.longitude_WtoE t) ->
  Num.exact_longitude (Receiver.longitude_WtoE r) ->
  Num.east_to_west_spec (Transmitter.longitude_WtoE t)
    (Transmitter.to_qthfields t) /\
  Num.east_to_west_spec (Receiver.longitude_WtoE r)
    (Receiver.to_qthfields r).
Proof.
  intros Ht Hr. split.
  - destruct t as [n lat lon h eirp f pol rc]. cbn [Transmitter.longitude_WtoE] in *.
    destruct lon as [s c e| |]; try contradiction.
    eapply east_to_west_value; [exact Ht| |].
    2:{ unfold Transmitter.to_qthfields. cbn [Transmitter.longitude_WtoE].
        rewrite (east_to_west_exact s c e Ht). cbn [bind]. reflexivity. }
    reflexivity.
  - destruct r as [n lat lon h]. cbn [Receiver.longitude_WtoE] in *.
    destruct lon as [s c e| |]; try contradiction.
    eapply east_to_west_value; [exact Hr| |].
    2:{ unfold Receiver.to_qthfields. cbn [Receiver.longitude_WtoE].
        rewrite (east_to_west_exact s c e Hr). cbn [bind]. reflexivity. }
    reflexivity.
Qed.

Lemma C1_east_to_west_longitude_witness :
  Num.east_to_west_spec (Transmitter.longitude_WtoE menesble)
    (Transmitter.to_qthfields menesble) /\
  Num.east_to_west_spec (Receiver.longitude_WtoE bure)
    (Receiver.to_qthfields bure).
Proof.
  apply (C1_east_to_west_longitude menesble bure).
  - vm_compute. repeat split; discriminate.
  - vm_compute. repeat split; discriminate.
Defined.

(** The longitudes of geography are exact: anything in (-640, 360] with at
    most 25 digits after the point. *)
Lemma exact_longitude_geographic (s : bool) (c : N) (e : Z) :
  -25 <= e ->
  -640 * 10 ^ (- Z.min 0 e) < Num.signed s c * 10 ^ (e - Z.min 0 e)
    <= 360 * 10 ^ (- Z.min 0 e) ->
  Num.exact_longitude (Fin s c e).
Proof.
  intros He Hrange. unfold Num.exact_longitude, Num.diff360.
  rewrite Etiny_default. split; [|lia].
  assert (Hp : 10 ^ (- Z.min 0 e) <= 10 ^ 25) by (apply Z.pow_le_mono_r; lia).
  change (10 ^ 25) with 10000000000000000000000000 in Hp.
  change (10 ^ 28) with 10000000000000000000000000000.
  lia.
Qed.

End EastToWest.

(** ** Division by 1.64 *)

Section Division.

Import Dec.

Lemma round_half_even_pos (kept dropped : N) (k : Z) :
  1 <= k ->
  (0 <? round_half_even kept dropped k)
  = negb ((Z.of_N dropped =? 5 * 10 ^ (k - 1)) && Z.even (Z.of_N kept))
    && (5 * 10 ^ (k - 1) <=? Z.of_N dropped).
Proof.
  intros Hk. unfold round_half_even.
  pose proof (pow10_Z (k - 1)) as Hp.
  assert (Heven : N.even kept = Z.even (Z.of_N kept)).
  { destruct kept as [|[p|p|]]; reflexivity. }
  assert (E1 : (dropped =? 5 * pow10 (k - 1))%N = (Z.of_N dropped =? 5 * 10 ^ (k - 1))).
  { destruct (N.eqb_spec dropped (5 * pow10 (k - 1)));
      destruct (Z.eqb_spec (Z.of_N dropped) (5 * 10 ^ (k - 1))); lia. }
  assert (E2 : (5 * pow10 (k - 1) <=? dropped)%N = (5 * 10 ^ (k - 1) <=? Z.of_N dropped)).
  { destruct (N.leb_spec (5 * pow10 (k - 1)) dropped);
      destruct (Z.leb_spec (5 * 10 ^ (k - 1)) (Z.of_N dropped)); lia. }
  rewrite Heven, E1, E2.
  destruct (Z.of_N dropped =? 5 * 10 ^ (k - 1)), (Z.even (Z.of_N kept)),
    (5 * 10 ^ (k - 1) <=? Z.of_N dropped), (dropped =? 0)%N; reflexivity.
Qed.

Lemma fix_rounds (s : bool) (c : N) (e : Z) :
  28 < len_int c ->
  -1000026 <= len_int c + e - 28 <= 999971 ->
  exists c' e',
    _fix DefaultContext (Fin s c e) = Ok (Fin s c' e') /\
    10 ^ 27 <= Z.of_N c' < 10 ^ 28 /\
    e' >= e + (len_int c - 28) /\
    Z.of_N c' * 10 ^ (e' - e) = Num.rounded (Z.of_N c) (len_int c - 28) * 10 ^ (len_int c - 28).
Proof.
  intros Hlen Hrange.
  assert (Hc : (0 < c)%N).
  { destruct c; [rewrite len_int_zero in Hlen; lia|lia]. }
  unfold _fix. destruct c as [|p]; [lia|].
  set (c := N.pos p) in *.
  destruct (len_int_bounds c Hc) as (_ & Hlo & Hhi).
  set (k := len_int c - 28) in *.
  assert (Hk : 1 <= k) by lia.
  unfold Etop. rewrite Etiny_default. cbn [prec Emax DefaultContext].
  destruct (Z.ltb_spec (999999 - 28 + 1) (len_int c + e - 28)); [lia|].
  destruct (Z.ltb_spec (len_int c + e - 28) (-1000026)); [lia|].
  destruct (Z.ltb_spec e (len_int c + e - 28)); [|lia].
  unfold round_to.
  replace (len_int c + e - (len_int c + e - 28)) with 28 by lia.
  change (28 <? 0) with false. cbv iota.
  change (len_int c - 28) with k.
  replace (len_int c + e - 28) with (e + k) by lia.
  pose proof (pow10_Z k) as Hpk.
  assert (Hpk0 : 0 < 10 ^ k) by (apply Z.pow_pos_nonneg; lia).
  assert (Hkept : Z.of_N (c / pow10 k) = Z.of_N c / 10 ^ k).
  { rewrite N2Z.inj_div, Hpk. reflexivity. }
  assert (Hdrop : Z.of_N (c mod pow10 k) = Z.of_N c mod 10 ^ k).
  { rewrite N2Z.inj_mod, Hpk. reflexivity. }
  assert (Hsplit : 10 ^ len_int c = 10 ^ 28 * 10 ^ k).
  { rewrite <- Z.pow_add_r by lia. f_equal. lia. }
  assert (Hsplit' : 10 ^ (len_int c - 1) = 10 ^ 27 * 10 ^ k).
  { rewrite <- Z.pow_add_r by lia. f_equal. lia. }
  assert (Hkb : 10 ^ 27 <= Z.of_N c / 10 ^ k < 10 ^ 28).
  { split.
    - apply Z.div_le_lower_bound; [lia|]. rewrite Z.mul_comm. lia.
    - apply Z.div_lt_upper_bound; [lia|]. rewrite Z.mul_comm. lia. }
  rewrite round_half_even_pos by lia. rewrite Hkept, Hdrop.
  unfold Num.rounded.
  set (kept := Z.of_N c / 10 ^ k) in *.
  set (dropped := Z.of_N c mod 10 ^ k) in *.
  set (half := 5 * 10 ^ (k - 1)) in *.
  change (10 ^ 27) with 1000000000000000000000000000 in *.
  change (10 ^ 28) with 10000000000000000000000000000 in *.
  destruct ((dropped =? half) && Z.even kept); cbn [negb andb].
  { exists (c / pow10 k)%N, (e + k).
    destruct (Z.ltb_spec (999999 - 28 + 1) (e + k)); [lia|].
    split; [reflexivity|]. rewrite Hkept. fold kept.
    replace (e + k - e) with k by lia. lia. }
  destruct (half <=? dropped).
  2:{ exists (c / pow10 k)%N, (e + k).
    destruct (Z.ltb_spec (999999 - 28 + 1) (e + k)); [lia|].
    split; [reflexivity|]. rewrite Hkept. fold kept.
    replace (e + k - e) with k by lia. lia. }
  assert (Hk1 : Z.of_N (c / pow10 k + 1) = kept + 1) by lia.
  destruct (Z.ltb_spec 28 (len_int (c / pow10 k + 1))) as [Hcarry|Hnocarry].
  - assert (Hge : 10 ^ 28 <= kept + 1).
    { destruct (len_int_bounds (c / pow10 k + 1)) as (_ & Hlo' & _); [lia|].
      rewrite Hk1 in Hlo'.
      assert (10 ^ 28 <= 10 ^ (len_int (c / pow10 k + 1) - 1))
        by (apply Z.pow_le_mono_r; lia).
      lia. }
    change (10 ^ 28) with 10000000000000000000000000000 in *.
    exists ((c / pow10 k + 1) / 10)%N, (e + k + 1).
    destruct (Z.ltb_spec (999999 - 28 + 1) (e + k + 1)); [lia|].
    split; [reflexivity|].
    assert (Hq : Z.of_N ((c / pow10 k + 1) / 10) = 1000000000000000000000000000).
    { rewrite N2Z.inj_div, Hk1. change (Z.of_N 10) with 10. lia. }
    rewrite Hq. replace (e + k + 1 - e) with (k + 1) by lia.
    rewrite Z.pow_add_r by lia. change (10 ^ 1) with 10.
    assert (Hkeq : kept + 1 = 10000000000000000000000000000) by lia.
    rewrite Hkeq. lia.
  - assert (Hlt : kept + 1 < 10 ^ 28).
    { destruct (Z_lt_le_dec (kept + 1) (10 ^ 28)) as [Hl|Hg]; [exact Hl|exfalso].
      assert (Hg' : 10 ^ 28 <= Z.of_N (c / pow10 k + 1)) by (rewrite Hk1; exact Hg).
      pose proof (len_int_gt (c / pow10 k + 1) 28 ltac:(lia) Hg'). lia. }
    change (10 ^ 28) with 10000000000000000000000000000 in *.
    exists (c / pow10 k + 1)%N, (e + k).
    destruct (Z.ltb_spec (999999 - 28 + 1) (e + k)); [lia|].
    split; [reflexivity|]. rewrite Hk1.
    replace (e + k - e) with k by lia. lia.
Qed.

Lemma rounded_cases (c k : Z) :
  1 <= k -> 0 <= c ->
  exists kept dropped P',
    0 < P' /\ 10 ^ k = 10 * P' /\ c = 10 * P' * kept + dropped /\
    0 <= dropped < 10 * P' /\ 0 <= kept /\ dropped mod 5 = c mod 5 /\
    ((dropped = 5 * P' /\ Z.even kept = true /\ Num.rounded c k = kept) \/
     (dropped = 5 * P' /\ Z.even kept = false /\ Num.rounded c k = kept + 1) \/
     (5 * P' < dropped /\ Num.rounded c k = kept + 1) \/
     (dropped < 5 * P' /\ Num.rounded c k = kept)).
Proof.
  intros Hk Hc.
  assert (HP' : 0 < 10 ^ (k - 1)) by (apply Z.pow_pos_nonneg; lia).
  assert (HP : 10 ^ k = 10 * 10 ^ (k - 1)).
  { replace k with (1 + (k - 1)) at 1 by lia. rewrite Z.pow_add_r by lia. reflexivity. }
  exists (c / 10 ^ k), (c mod 10 ^ k), (10 ^ (k - 1)).
  unfold Num.rounded.
  pose proof (Z.div_mod c (10 ^ k) ltac:(lia)) as Hdm.
  pose proof (Z.mod_pos_bound c (10 ^ k) ltac:(lia)) as Hmb.
  assert (Hkept : 0 <= c / 10 ^ k) by (apply Z.div_pos; lia).
  assert (Hm5 : (c mod 10 ^ k) mod 5 = c mod 5).
  { apply Z.mod_mod_divide. exists (2 * 10 ^ (k - 1)). lia. }
  rewrite <- HP.
  repeat (split; [first [assumption | lia]|]).
  rewrite HP in *.
  destruct (Z.eqb_spec (c mod (10 * 10 ^ (k - 1))) (5 * 10 ^ (k - 1))) as [Heq|Hne].
  - destruct (Z.even (c / (10 * 10 ^ (k - 1)))) eqn:Hev; cbn [andb].
    + left. auto.
    + right; left. destruct (Z.leb_spec (5 * 10 ^ (k - 1)) (c mod (10 * 10 ^ (k - 1)))); [auto|lia].
  - cbn [andb].
    destruct (Z.leb_spec (5 * 10 ^ (k - 1)) (c mod (10 * 10 ^ (k - 1)))).
    + right; right; left. split; [lia|reflexivity].
    + right; right; right. split; [lia|reflexivity].
Qed.

Lemma rounded_exact (c k : Z) :
  1 <= k -> 0 <= c ->
  2 * Z.abs (Num.rounded c k * 10 ^ k - c) <= 10 ^ k.
Proof.
  intros Hk Hc.
  destruct (rounded_cases c k Hk Hc)
    as (kept & dropped & P' & HP' & HP & Hc' & Hd & Hkept & _ & Hcases).
  rewrite HP.
  destruct Hcases as [(Hd' & _ & ->)|[(Hd' & _ & ->)|[(Hd' & ->)|(Hd' & ->)]]]; nia.
Qed.

Lemma rounded_tie_even (c k : Z) :
  1 <= k -> 0 <= c ->
  2 * Z.abs (Num.rounded c k * 10 ^ k - c) = 10 ^ k ->
  Z.even (Num.rounded c k) = true.
Proof.
  intros Hk Hc.
  destruct (rounded_cases c k Hk Hc)
    as (kept & dropped & P' & HP' & HP & Hc' & Hd & Hkept & _ & Hcases).
  rewrite HP.
  destruct Hcases as [(Hd' & Hev & ->)|[(Hd' & Hev & ->)|[(Hd' & ->)|(Hd' & ->)]]];
    intros Htie.
  - exact Hev.
  - rewrite Z.even_add, Hev. reflexivity.
  - exfalso. nia.
  - exfalso. nia.
Qed.

Lemma rounded_sticky (coeff0 r Dd k : Z) :
  1 <= k -> 0 < r < Dd -> 0 <= coeff0 ->
  2 * Z.abs (Num.rounded (if coeff0 mod 5 =? 0 then coeff0 + 1 else coeff0) k
             * 10 ^ k * Dd - (coeff0 * Dd + r)) < 10 ^ k * Dd.
Proof.
  intros Hk Hr Hc0.
  set (coeff := if coeff0 mod 5 =? 0 then coeff0 + 1 else coeff0).
  assert (Hcoeff : 0 <= coeff) by (unfold coeff; destruct (coeff0 mod 5 =? 0); lia).
  destruct (rounded_cases coeff k Hk Hcoeff)
    as (kept & dropped & P' & HP' & HP & Hc' & Hd & Hkept & Hm5 & Hcases).
  rewrite HP.
  assert (Hst : (coeff = coeff0 + 1 /\ dropped mod 5 = 1) \/
                (coeff = coeff0 /\ dropped mod 5 <> 0)).
  { unfold coeff in *. destruct (Z.eqb_spec (coeff0 mod 5) 0); [left|right]; lia. }
  assert (Hne : dropped <> 5 * P') by lia.
  destruct Hcases as [(Hd' & _)|[(Hd' & _)|[(Hd' & ->)|(Hd' & ->)]]]; try lia.
  - destruct Hst as [(Hco & Hm)|(Hco & Hm)].
    + assert (E : (kept + 1) * (10 * P') * Dd - (coeff0 * Dd + r)
                  = (10 * P' - dropped + 1) * Dd - r) by nia.
      rewrite E. nia.
    + assert (E : (kept + 1) * (10 * P') * Dd - (coeff0 * Dd + r)
                  = (10 * P' - dropped) * Dd - r) by nia.
      rewrite E. nia.
  - destruct Hst as [(Hco & Hm)|(Hco & Hm)].
    + assert (E : kept * (10 * P') * Dd - (coeff0 * Dd + r)
                  = - ((dropped - 1) * Dd + r)) by nia.
      rewrite E. assert (1 <= dropped) by lia. nia.
    + assert (E : kept * (10 * P') * Dd - (coeff0 * Dd + r)
                  = - (dropped * Dd + r)) by nia.
      rewrite E. nia.
Qed.

Lemma N_div_eucl_eq (a b : N) : N.div_eucl a b = ((a / b)%N, (a mod b)%N).
Proof. unfold N.div, N.modulo. destruct (N.div_eucl a b). reflexivity. Qed.

Lemma strip_exact_spec (fuel : nat) :
  forall (coeff : N) (exp ideal : Z),
    exists j,
      0 <= j /\ snd (strip_exact fuel coeff exp ideal) = exp + j /\
      Z.of_N coeff = Z.of_N (fst (strip_exact fuel coeff exp ideal)) * 10 ^ j /\
      (exp <= ideal -> exp + j <= ideal) /\ (ideal < exp -> j = 0).
Proof.
  induction fuel as [|fuel IH]; intros coeff exp ideal.
  - exists 0. cbn. repeat split; lia.
  - cbn [strip_exact].
    destruct (Z.ltb_spec exp ideal) as [Hlt|Hge]; cbn [andb].
    + destruct (N.eqb_spec (coeff mod 10) 0) as [Hz|Hnz].
      * destruct (IH (coeff / 10)%N (exp + 1) ideal) as (j & Hj & He & Hc & Hle & _).
        exists (j + 1). rewrite He.
        repeat split; try lia.
        rewrite Z.pow_add_r by lia. change (10 ^ 1) with 10.
        rewrite Z.mul_assoc, <- Hc. lia.
      * exists 0. cbn [fst snd]. rewrite Z.pow_0_r. repeat split; lia.
    + exists 0. cbn [fst snd]. rewrite Z.pow_0_r. repeat split; lia.
Qed.

Lemma len_int_range (c : N) (lo hi : Z) :
  1 <= lo -> 10 ^ (lo - 1) <= Z.of_N c < 10 ^ hi -> lo <= len_int c <= hi.
Proof.
  intros Hlo [H1 H2].
  assert (0 < 10 ^ (lo - 1)) by (apply Z.pow_pos_nonneg; lia).
  split.
  - pose proof (len_int_gt c (lo - 1) ltac:(lia) H1). lia.
  - destruct (Z_le_gt_dec hi 0).
    + exfalso. assert (10 ^ hi <= 10 ^ 0) by (apply Z.pow_le_mono_r; lia).
      change (10 ^ 0) with 1 in *. lia.
    + apply len_int_le; lia.
Qed.

Lemma len_int_succ5 (c : N) :
  (0 < c)%N -> (c mod 5 = 0)%N -> len_int (c + 1) = len_int c.
Proof.
  intros Hc Hm.
  destruct (len_int_bounds c Hc) as (H1 & Hlo & Hhi).
  assert (HP : 10 ^ len_int c = 10 * 10 ^ (len_int c - 1)).
  { replace (len_int c) with (1 + (len_int c - 1)) at 1 by lia.
    rewrite Z.pow_add_r by lia. reflexivity. }
  assert (Hpos : 0 < 10 ^ (len_int c - 1)) by (apply Z.pow_pos_nonneg; lia).
  assert (Hr : len_int c <= len_int (c + 1) <= len_int c).
  { apply len_int_range; [lia|]. rewrite HP in *.
    set (P := 10 ^ (len_int c - 1)) in *. lia. }
  lia.
Qed.

Lemma len_int_shift (c : N) (c' : N) (j : Z) :
  (0 < c')%N -> 0 <= j -> Z.of_N c = Z.of_N c' * 10 ^ j ->
  len_int c = len_int c' + j.
Proof.
  intros Hc' Hj Heq.
  destruct (len_int_bounds c' Hc') as (H1 & Hlo & Hhi).
  assert (Hp : 0 < 10 ^ j) by (apply Z.pow_pos_nonneg; lia).
  assert (Hr : len_int c' + j <= len_int c <= len_int c' + j).
  { apply len_int_range; [lia|].
    replace (len_int c' + j - 1) with ((len_int c' - 1) + j) by lia.
    rewrite !Z.pow_add_r by lia. nia. }
  lia.
Qed.

Lemma fix_exact_adjusted (s : bool) (c : N) (e : Z) :
  (0 < c)%N -> len_int c <= 28 ->
  -1000026 <= e -> len_int c + e - 28 <= 999972 ->
  _fix DefaultContext (Fin s c e) = Ok (Fin s c e).
Proof.
  intros Hc Hlen He Hmax.
  unfold _fix. destruct c as [|p]; [lia|].
  unfold Etop. rewrite Etiny_default. cbn [prec Emax DefaultContext].
  destruct (Z.ltb_spec (999999 - 28 + 1) (len_int (N.pos p) + e - 28)); [lia|].
  destruct (Z.ltb_spec (len_int (N.pos p) + e - 28) (-1000026)).
  - destruct (Z.ltb_spec e (-1000026)); [lia|reflexivity].
  - destruct (Z.ltb_spec e (len_int (N.pos p) + e - 28)); [lia|reflexivity].
Qed.

Lemma div_tail (s : bool) (coeff0 r : N) (Nn Dd ex ideal : Z) (fuel : nat) :
  Z.of_N coeff0 = Nn / Dd -> Z.of_N r = Nn mod Dd -> 0 < Dd ->
  6 * 10 ^ 28 <= Z.of_N coeff0 < 7 * 10 ^ 29 ->
  -1000027 <= ex <= 999969 ->
  exists cq eq K,
    (let '(coeff, exp) :=
       if (r =? 0)%N then strip_exact fuel coeff0 ex ideal
       else ((if (coeff0 mod 5 =? 0)%N then coeff0 + 1 else coeff0)%N, ex) in
     _fix DefaultContext (Fin s coeff exp)) = Ok (Fin s cq eq) /\
    0 < Z.of_N cq < 10 ^ 28 /\ 1 <= K <= 2 /\ ex + K <= eq /\
    10 ^ (27 + K) * Dd <= Nn < 10 ^ (28 + K) * Dd /\
    2 * Z.abs (Z.of_N cq * 10 ^ (eq - ex) * Dd - Nn) <= 10 ^ K * Dd /\
    (2 * Z.abs (Z.of_N cq * 10 ^ (eq - ex) * Dd - Nn) = 10 ^ K * Dd ->
     Z.even (Z.of_N cq * 10 ^ (eq - ex - K)) = true) /\
    (Z.of_N cq * 10 ^ (eq - ex) * Dd <> Nn -> 10 ^ 27 <= Z.of_N cq).
Proof.
  intros Hq Hr HDd Hsize Hex.
  pose proof (Z.div_mod Nn Dd ltac:(lia)) as Hdm.
  pose proof (Z.mod_pos_bound Nn Dd HDd) as Hmb.
  change (10 ^ 28) with 10000000000000000000000000000 in Hsize.
  change (10 ^ 29) with 100000000000000000000000000000 in Hsize.
  assert (Hc0 : (0 < coeff0)%N) by lia.
  assert (Hlen0 : 29 <= len_int coeff0 <= 30).
  { apply len_int_range; [lia|].
    change (10 ^ (29 - 1)) with 10000000000000000000000000000.
    change (10 ^ 30) with 1000000000000000000000000000000. lia. }
  destruct (len_int_bounds coeff0 Hc0) as (_ & Hlo0 & Hhi0).
  set (K := len_int coeff0 - 28) in *.
  assert (HK : 1 <= K <= 2) by lia.
  assert (HPK : 0 < 10 ^ K) by (apply Z.pow_pos_nonneg; lia).
  assert (Hmag : 10 ^ (27 + K) * Dd <= Nn < 10 ^ (28 + K) * Dd).
  { replace (27 + K) with (len_int coeff0 - 1) by lia.
    replace (28 + K) with (len_int coeff0) by lia.
    set (A := 10 ^ (len_int coeff0 - 1)) in *.
    set (B := 10 ^ len_int coeff0) in *.
    split; nia. }
  destruct (N.eqb_spec r 0) as [Hr0|Hr0].
  - (* the division is exact *)
    destruct (strip_exact_spec fuel coeff0 ex ideal) as (j & Hj & He & Hc & _ & _).
    destruct (strip_exact fuel coeff0 ex ideal) as [coeff exp]. cbn [fst snd] in *.
    subst exp.
    assert (Hpj : 0 < 10 ^ j) by (apply Z.pow_pos_nonneg; lia).
    assert (Hcpos : (0 < coeff)%N) by nia.
    assert (HNn : Nn = Z.of_N coeff * 10 ^ j * Dd) by nia.
    pose proof (len_int_shift coeff0 coeff j Hcpos Hj Hc) as Hshift.
    destruct (Z_le_gt_dec (len_int coeff) 28) as [Hshort|Hlong].
    + exists coeff, (ex + j), K.
      rewrite fix_exact_adjusted by lia.
      split; [reflexivity|].
      destruct (len_int_bounds coeff Hcpos) as (_ & _ & Hhi).
      assert (10 ^ len_int coeff <= 10 ^ 28) by (apply Z.pow_le_mono_r; lia).
      replace (ex + j - ex) with j by lia.
      assert (Hzero : Z.of_N coeff * 10 ^ j * Dd - Nn = 0) by lia.
      rewrite Hzero. cbn [Z.abs].
      split; [lia|]. split; [lia|]. split; [lia|]. split; [exact Hmag|].
      split; [nia|]. split; [intros Ht; exfalso; nia|].
      intros Hne. exfalso. lia.
    + destruct (fix_rounds s coeff (ex + j) ltac:(lia) ltac:(lia))
        as (c' & e' & Hfix & Hc' & He' & Hval).
      exists c', e', K. rewrite Hfix. split; [reflexivity|].
      set (k := len_int coeff - 28) in *.
      assert (HKk : K = j + k) by lia.
      assert (Hk : 1 <= k) by lia.
      assert (Hpk : 0 < 10 ^ k) by (apply Z.pow_pos_nonneg; lia).
      set (d := e' - (ex + j) - k).
      assert (Hd : 0 <= d) by (unfold d; lia).
      assert (Hpd : 0 < 10 ^ d) by (apply Z.pow_pos_nonneg; lia).
      assert (Hsplit1 : 10 ^ (e' - (ex + j)) = 10 ^ d * 10 ^ k).
      { rewrite <- Z.pow_add_r by lia. f_equal. unfold d. lia. }
      assert (Hsplit2 : 10 ^ (e' - ex) = 10 ^ d * 10 ^ k * 10 ^ j).
      { rewrite <- !Z.pow_add_r by lia. f_equal. unfold d. lia. }
      assert (Hsplit3 : 10 ^ K = 10 ^ k * 10 ^ j).
      { rewrite <- Z.pow_add_r by lia. f_equal. lia. }
      assert (Hrnd : Z.of_N c' * 10 ^ d = Num.rounded (Z.of_N coeff) k).
      { rewrite Hsplit1 in Hval. apply (Z.mul_reg_r _ _ (10 ^ k)); [lia|].
        rewrite <- Hval. ring. }
      pose proof (rounded_exact (Z.of_N coeff) k ltac:(lia) ltac:(lia)) as Hre.
      pose proof (rounded_tie_even (Z.of_N coeff) k ltac:(lia) ltac:(lia)) as Hte.
      rewrite <- Hrnd in Hre, Hte.
      replace (e' - ex - K) with d by (unfold d; lia).
      rewrite Hsplit2, Hsplit3, HNn.
      set (pd := 10 ^ d) in *. set (pk := 10 ^ k) in *. set (pj := 10 ^ j) in *.
      replace (Z.of_N c' * (pd * pk * pj) * Dd - Z.of_N coeff * pj * Dd)
        with ((Z.of_N c' * pd * pk - Z.of_N coeff) * (pj * Dd)) by ring.
      assert (Hpos : 0 < pj * Dd) by (apply Z.mul_pos_pos; assumption).
      rewrite Z.abs_mul. rewrite (Z.abs_eq (pj * Dd)) by lia.
      set (a := Z.abs (Z.of_N c' * pd * pk - Z.of_N coeff)) in *.
      assert (Ha : 0 <= a) by apply Z.abs_nonneg.
      change (10 ^ 27) with 1000000000000000000000000000 in *.
      change (10 ^ 28) with 10000000000000000000000000000 in *.
      split; [lia|]. split; [lia|]. split; [lia|].
      split; [rewrite <- HNn; exact Hmag|].
      split; [|split].
      * replace (pk * pj * Dd) with (pk * (pj * Dd)) by ring.
        rewrite Z.mul_assoc. apply Z.mul_le_mono_nonneg_r; lia.
      * intros Ht. apply Hte. apply (Z.mul_reg_r _ _ (pj * Dd)); [lia|].
        replace (2 * a * (pj * Dd)) with (2 * (a * (pj * Dd))) by ring.
        rewrite Ht. ring.
      * intros _. lia.
  - (* the division leaves a remainder *)
    set (coeff := (if (coeff0 mod 5 =? 0)%N then coeff0 + 1 else coeff0)%N).
    assert (Hcoeff : Z.of_N coeff
                     = if Z.of_N coeff0 mod 5 =? 0 then Z.of_N coeff0 + 1 else Z.of_N coeff0).
    { unfold coeff. destruct (N.eqb_spec (coeff0 mod 5) 0);
        destruct (Z.eqb_spec (Z.of_N coeff0 mod 5) 0); lia. }
    assert (Hlen : len_int coeff = len_int coeff0).
    { unfold coeff. destruct (N.eqb_spec (coeff0 mod 5) 0) as [Hm|Hm];
        [apply len_int_succ5; assumption|reflexivity]. }
    destruct (fix_rounds s coeff ex ltac:(lia) ltac:(lia))
      as (c' & e' & Hfix & Hc' & He' & Hval).
    exists c', e', K. rewrite Hfix. split; [reflexivity|].
    rewrite Hlen in He', Hval. fold K in He', Hval.
    pose proof (rounded_sticky (Z.of_N coeff0) (Z.of_N r) Dd K
                  ltac:(lia) ltac:(lia) ltac:(lia)) as Hrs.
    rewrite <- Hcoeff, <- Hval in Hrs.
    replace Nn with (Z.of_N coeff0 * Dd + Z.of_N r) by lia.
    change (10 ^ 27) with 1000000000000000000000000000 in *.
    change (10 ^ 28) with 10000000000000000000000000000 in *.
    split; [lia|]. split; [lia|]. split; [lia|].
    split; [replace (Z.of_N coeff0 * Dd + Z.of_N r) with Nn by lia; exact Hmag|].
    split; [lia|]. split; [intros Ht; exfalso; lia|].
    intros _. lia.
Qed.

Lemma len_164 : len_int 164 = 3.
Proof. reflexivity. Qed.

(** Dividing a finite, nonzero decimal by 1.64: the quotient of the
    integers [Nn / Dd], scaled by 10**ex, rounded to 28 digits. *)
Lemma div_164_int (s : bool) (c : N) (e : Z) :
  (0 < c)%N -> -999998 <= e + len_int c - 1 <= 999998 ->
  exists cq eq K Nn Dd,
    div DefaultContext (Fin s c e) (Fin false 164 (-2)) = Ok (Fin s cq eq) /\
    0 < Z.of_N cq < 10 ^ 28 /\ 1 <= K <= 2 /\
    e + len_int c - 30 + K <= eq /\ 0 < Dd /\
    10 ^ (27 + K) * Dd <= Nn < 10 ^ (28 + K) * Dd /\
    2 * Z.abs (Z.of_N cq * 10 ^ (eq - (e + len_int c - 30)) * Dd - Nn)
      <= 10 ^ K * Dd /\
    (2 * Z.abs (Z.of_N cq * 10 ^ (eq - (e + len_int c - 30)) * Dd - Nn)
     = 10 ^ K * Dd ->
     Z.even (Z.of_N cq * 10 ^ (eq - (e + len_int c - 30) - K)) = true) /\
    (Z.of_N cq * 10 ^ (eq - (e + len_int c - 30)) * Dd <> Nn ->
     10 ^ 27 <= Z.of_N cq) /\
    ((len_int c <= 32 /\ Nn = Z.of_N c * 10 ^ (32 - len_int c) /\ Dd = 164) \/
     (32 < len_int c /\ Nn = Z.of_N c /\ Dd = 164 * 10 ^ (len_int c - 32))).
Proof.
  intros Hc Hadj.
  destruct (len_int_bounds c Hc) as (HL1 & Hlo & Hhi).
  unfold div. cbn [_check_nans]. rewrite xorb_false_r.
  change (164 =? 0)%N with false. cbv iota.
  destruct (N.eqb_spec c 0) as [|_]; [lia|].
  rewrite len_164. cbn [prec DefaultContext].
  replace (3 - len_int c + 28 + 1) with (32 - len_int c) by lia.
  replace (e - -2 - (32 - len_int c)) with (e + len_int c - 30) by lia.
  set (L := len_int c) in *. set (ex := e + L - 30).
  destruct (Z.leb_spec 0 (32 - L)) as [Hsh|Hsh].
  - (* the dividend is scaled up *)
    rewrite N_div_eucl_eq.
    pose proof (pow10_Z (32 - L)) as Hp.
    assert (Hpp : 0 < 10 ^ (32 - L)) by (apply Z.pow_pos_nonneg; lia).
    assert (HNlo : 10 ^ 31 <= Z.of_N c * 10 ^ (32 - L)).
    { replace 31 with ((L - 1) + (32 - L)) by lia. rewrite Z.pow_add_r by lia.
      apply Z.mul_le_mono_nonneg_r; lia. }
    assert (HNhi : Z.of_N c * 10 ^ (32 - L) < 10 ^ 32).
    { replace 32 with (L + (32 - L)) at 2 by lia. rewrite Z.pow_add_r by lia.
      apply Z.mul_lt_mono_pos_r; lia. }
    change (10 ^ 31) with 10000000000000000000000000000000 in HNlo.
    change (10 ^ 32) with 100000000000000000000000000000000 in HNhi.
    destruct (div_tail s (c * pow10 (32 - L) / 164)%N (c * pow10 (32 - L) mod 164)%N
                (Z.of_N c * 10 ^ (32 - L)) 164 ex (e - -2)
                (Z.to_nat (e - -2 - ex)))
      as (cq & eq & K & Hres & Hcq & HK & Heq & Hmag & Herr & Htie & Hinex).
    + rewrite N2Z.inj_div, N2Z.inj_mul, Hp. reflexivity.
    + rewrite N2Z.inj_mod, N2Z.inj_mul, Hp. reflexivity.
    + lia.
    + rewrite N2Z.inj_div, N2Z.inj_mul, Hp. change (Z.of_N 164) with 164.
      change (10 ^ 28) with 10000000000000000000000000000.
      change (10 ^ 29) with 100000000000000000000000000000.
      lia.
    + unfold ex. lia.
    + exists cq, eq, K, (Z.of_N c * 10 ^ (32 - L)), 164.
      split; [exact Hres|]. split; [exact Hcq|]. split; [exact HK|].
      split; [exact Heq|]. split; [lia|]. split; [exact Hmag|].
      split; [exact Herr|]. split; [exact Htie|]. split; [exact Hinex|].
      left. repeat split; lia.
  - (* the divisor is scaled up *)
    rewrite N_div_eucl_eq.
    replace (- (32 - L)) with (L - 32) by lia.
    pose proof (pow10_Z (L - 32)) as Hp.
    assert (Hpp : 0 < 10 ^ (L - 32)) by (apply Z.pow_pos_nonneg; lia).
    assert (HNlo : 10 ^ 31 * 10 ^ (L - 32) <= Z.of_N c).
    { rewrite <- Z.pow_add_r by lia. replace (31 + (L - 32)) with (L - 1) by lia. lia. }
    assert (HNhi : Z.of_N c < 10 ^ 32 * 10 ^ (L - 32)).
    { rewrite <- Z.pow_add_r by lia. replace (32 + (L - 32)) with L by lia. lia. }
    change (10 ^ 31) with 10000000000000000000000000000000 in HNlo.
    change (10 ^ 32) with 100000000000000000000000000000000 in HNhi.
    destruct (div_tail s (c / (164 * pow10 (L - 32)))%N (c mod (164 * pow10 (L - 32)))%N
                (Z.of_N c) (164 * 10 ^ (L - 32)) ex (e - -2)
                (Z.to_nat (e - -2 - ex)))
      as (cq & eq & K & Hres & Hcq & HK & Heq & Hmag & Herr & Htie & Hinex).
    + rewrite N2Z.inj_div, N2Z.inj_mul, Hp. reflexivity.
    + rewrite N2Z.inj_mod, N2Z.inj_mul, Hp. reflexivity.
    + lia.
    + rewrite N2Z.inj_div, N2Z.inj_mul, Hp. change (Z.of_N 164) with 164.
      change (10 ^ 28) with 10000000000000000000000000000.
      change (10 ^ 29) with 100000000000000000000000000000.
      split.
      * apply Z.div_le_lower_bound; lia.
      * apply Z.div_lt_upper_bound; lia.
    + unfold ex. lia.
    + exists cq, eq, K, (Z.of_N c), (164 * 10 ^ (L - 32)).
      split; [exact Hres|]. split; [exact Hcq|]. split; [exact HK|].
      split; [exact Heq|]. split; [lia|]. split; [exact Hmag|].
      split; [exact Herr|]. split; [exact Htie|]. split; [exact Hinex|].
      right. repeat split; lia.
Qed.

Lemma Qpow10_nonzero (k : Z) : ~ (10 ^ k == 0)%Q.
Proof.
  intros H. pose proof (Qpow10_pos k) as Hp. rewrite H in Hp.
  apply (Qlt_irrefl 0). exact Hp.
Qed.

Lemma inject_Z_nonzero (z : Z) : z <> 0 -> ~ (inject_Z z == 0)%Q.
Proof.
  intros Hz H. change 0%Q with (inject_Z 0) in H.
  rewrite inject_Z_injective in H. contradiction.
Qed.

Lemma Qabs_signed (s : bool) (a b x y : Q) :
  (a == (if s then - x else x))%Q -> (b == (if s then - y else y))%Q ->
  (Qabs (a - b) == Qabs (x - y))%Q.
Proof.
  intros Ha Hb. rewrite Ha, Hb. destruct s; [|reflexivity].
  setoid_replace (- x - - y)%Q with (- (x - y))%Q by ring.
  apply Qabs_opp.
Qed.

Lemma Qabs_signed_pos (s : bool) (a x : Q) :
  (a == (if s then - x else x))%Q -> (0 <= x)%Q -> (Qabs a == x)%Q.
Proof.
  intros Ha Hx. rewrite Ha. destruct s.
  - rewrite Qabs_opp. apply Qabs_pos. exact Hx.
  - apply Qabs_pos. exact Hx.
Qed.

Lemma div_164_nearest (s : bool) (c : N) (e : Z) :
  (0 < c)%N -> -999998 <= e + len_int c - 1 <= 999998 ->
  exists q,
    div DefaultContext (Fin s c e) (Fin false 164 (-2)) = Ok q /\
    Num.nearest_28 (inject_Z (Num.signed s c) * 10 ^ e / (164 # 100))%Q q.
Proof.
  intros Hc Hadj.
  destruct (div_164_int s c e Hc Hadj)
    as (cq & eq & K & Nn & Dd & Hdiv & Hcq & HK & Heq & HDd & Hmag & Herr
        & Htie & Hinex & Hcase).
  exists (Fin s cq eq). split; [exact Hdiv|].
  unfold Num.nearest_28.
  set (ex := e + len_int c - 30) in *. set (j := eq - ex) in *.
  assert (Hj : 0 <= j) by lia.
  exists (ex + K).
  assert (HDq : ~ (inject_Z Dd == 0)%Q) by (apply inject_Z_nonzero; lia).
  assert (Heqx : (10 ^ eq == inject_Z (10 ^ j) * 10 ^ ex)%Q).
  { rewrite Qpow10_inject by lia. rewrite <- Qpow10_add.
    replace (j + ex) with eq by lia. reflexivity. }
  set (T := (10 ^ ex / inject_Z Dd)%Q).
  assert (HTpos : (0 < T)%Q).
  { apply Qlt_shift_div_l.
    - change 0%Q with (inject_Z 0). rewrite <- Zlt_Qlt. exact HDd.
    - rewrite Qmult_0_l. apply Qpow10_pos. }
  set (xp := (inject_Z (Z.of_N c) * 10 ^ e / (164 # 100))%Q).
  set (vp := (inject_Z (Z.of_N cq) * 10 ^ eq)%Q).
  assert (HT : (xp == inject_Z Nn * T)%Q).
  { unfold xp, T. symmetry.
    destruct Hcase as [(HL & -> & ->)|(HL & -> & ->)].
    - rewrite inject_Z_mult, Qpow10_inject by lia.
      assert (E : (10 ^ (32 - len_int c) * 10 ^ ex == 10 ^ e * 100)%Q).
      { rewrite <- Qpow10_add. replace (32 - len_int c + ex) with (e + 2) by lia.
        rewrite Qpow10_add. reflexivity. }
      change (inject_Z 164) with 164%Q.
      transitivity (inject_Z (Z.of_N c) * (10 ^ (32 - len_int c) * 10 ^ ex) / 164)%Q.
      + field.
      + rewrite E. field.
    - rewrite inject_Z_mult, Qpow10_inject by lia.
      assert (E : (10 ^ ex == 10 ^ e * 100 * 10 ^ (len_int c - 32))%Q).
      { transitivity (10 ^ (e + 2) * 10 ^ (len_int c - 32))%Q.
        - rewrite <- Qpow10_add. replace (e + 2 + (len_int c - 32)) with ex by lia.
          reflexivity.
        - rewrite Qpow10_add. reflexivity. }
      change (inject_Z 164) with 164%Q.
      rewrite E. field.
      apply Qpow10_nonzero. }
  set (A := Z.of_N cq * 10 ^ j * Dd - Nn) in *.
  assert (Hdiff : (vp - xp == inject_Z A * T)%Q).
  { rewrite HT. unfold A, vp, T.
    rewrite inject_Z_minus, !inject_Z_mult, Heqx. field. exact HDq. }
  assert (Hx : (inject_Z (Num.signed s c) * 10 ^ e / (164 # 100)
                == (if s then - xp else xp))%Q).
  { unfold Num.signed, xp. destruct s; [rewrite inject_Z_opp; field|reflexivity]. }
  assert (Hv : (inject_Z (Num.signed s cq) * 10 ^ eq
                == (if s then - vp else vp))%Q).
  { unfold Num.signed, vp. destruct s; [rewrite inject_Z_opp; ring|reflexivity]. }
  assert (HNn0 : 0 <= Nn).
  { assert (0 < 10 ^ (27 + K)) by (apply Z.pow_pos_nonneg; lia).
    assert (0 <= 10 ^ (27 + K) * Dd) by (apply Z.mul_nonneg_nonneg; lia). lia. }
  assert (Hxp0 : (0 <= xp)%Q).
  { rewrite HT. apply Qmult_le_0_compat; [|apply Qlt_le_weak; exact HTpos].
    change 0%Q with (inject_Z 0). rewrite <- Zle_Qle. exact HNn0. }
  assert (Habsx : (Qabs (inject_Z (Num.signed s c) * 10 ^ e / (164 # 100))
                   == inject_Z Nn * T)%Q).
  { rewrite (Qabs_signed_pos s _ xp Hx Hxp0). exact HT. }
  assert (Hscale : forall m,
             0 <= m -> (10 ^ m * 10 ^ (ex + K) == inject_Z (10 ^ (m + K) * Dd) * T)%Q).
  { intros m Hm. unfold T. rewrite inject_Z_mult, Qpow10_inject by lia.
    rewrite (Qpow10_add ex K), (Qpow10_add m K). field. exact HDq. }
  assert (Habsd : (Qabs (inject_Z (Num.signed s cq) * 10 ^ eq
                         - inject_Z (Num.signed s c) * 10 ^ e / (164 # 100))
                   == inject_Z (Z.abs A) * T)%Q).
  { rewrite (Qabs_signed s _ _ vp xp Hv Hx).
    rewrite Hdiff, Qabs_Qmult.
    rewrite (Qabs_pos T) by (apply Qlt_le_weak; exact HTpos).
    apply Qmult_comp; [|reflexivity].
    unfold Qabs, inject_Z. reflexivity. }
  assert (Hhalf : ((1 # 2) * 10 ^ (ex + K)
                   == inject_Z (10 ^ K * Dd) * (1 # 2) * T)%Q).
  { unfold T. rewrite inject_Z_mult, Qpow10_inject by lia.
    rewrite (Qpow10_add ex K). field. exact HDq. }
  split; [|split; [|split; [lia|split; [lia|split; [|split]]]]].
  - rewrite Habsx, (Hscale 27 ltac:(lia)).
    apply Qmult_le_compat_r; [|apply Qlt_le_weak; exact HTpos].
    rewrite <- Zle_Qle. lia.
  - rewrite Habsx, (Hscale 28 ltac:(lia)).
    apply Qmult_lt_compat_r; [exact HTpos|].
    rewrite <- Zlt_Qlt. lia.
  - rewrite Habsd, Hhalf.
    apply Qmult_le_compat_r; [|apply Qlt_le_weak; exact HTpos].
    assert (H2 : (inject_Z (2 * Z.abs A) <= inject_Z (10 ^ K * Dd))%Q)
      by (rewrite <- Zle_Qle; exact Herr).
    rewrite inject_Z_mult in H2. change (inject_Z 2) with 2%Q in H2.
    apply Qmult_le_l with (z := 2%Q); [reflexivity|].
    setoid_replace (2 * (inject_Z (10 ^ K * Dd) * (1 # 2)))%Q
      with (inject_Z (10 ^ K * Dd)) by ring.
    exact H2.
  - intros Ht. rewrite Habsd, Hhalf in Ht.
    replace (eq - (ex + K)) with (eq - ex - K) by lia.
    apply Htie.
    apply Qmult_inj_r in Ht; [|intros H0; rewrite H0 in HTpos;
                               exact (Qlt_irrefl 0 HTpos)].
    assert (H2 : (inject_Z (2 * Z.abs A) == inject_Z (10 ^ K * Dd))%Q).
    { rewrite inject_Z_mult. change (inject_Z 2) with 2%Q. rewrite Ht. ring. }
    rewrite inject_Z_injective in H2. exact H2.
  - intros Hne. apply Hinex. intros HA. apply Hne.
    rewrite Hv, Hx.
    assert (Hz : (vp - xp == 0)%Q).
    { rewrite Hdiff. unfold A. fold j. rewrite HA, Z.sub_diag. ring. }
    assert (Hvx : (vp == xp)%Q).
    { setoid_replace vp with ((vp - xp) + xp)%Q by ring. rewrite Hz. ring. }
    destruct s; rewrite Hvx; reflexivity.
Qed.

End Division.

(** ** C5: the link parameters *)

Section LinkParameters.

Import Dec PySplat Examples.

(** The divisor and the five constants, as [Decimal] reads them. *)
Lemma lrp_literals :
  of_string "1.64" = Ok (Fin false 164 (-2)) /\
  literal "15.000" = Fin false 15000 (-3) /\
  literal "0.005" = Fin false 5 (-3) /\
  literal "301.000" = Fin false 301000 (-3) /\
  literal "0.50" = Fin false 50 (-2).
Proof. repeat split; reflexivity. Qed.

(** C5. For every Transmitter, to_lrpfields() is the record whose erp_W is
    eirp_W / Decimal("1.64") under the rules of the decimal context, with
    the five constants 15.000, 0.005, 301.000, 0.50, 0.50 and the
    transmitter's frequency_MHz, polarization and radio_climate unchanged;
    for a finite nonzero eirp_W inside the exponent range the division
    returns, and erp_W is eirp_W / 1.64 correctly rounded to 28 digits; for
    eirp_W = 80.0 it is 48.78048780487804878048780488. *)
Theorem C5_to_lrpfields (t : Transmitter.Transmitter) :
  Transmitter.to_lrpfields t
  = (erp <- div DefaultContext (Transmitter.eirp_W t) (Fin false 164 (-2)) ;;
     Ok {| LRP.erp_W := erp;
           LRP.frequency_MHz := Transmitter.frequency_MHz t;
           LRP.polarization := Transmitter.polarization t;
           LRP.radio_climate := Transmitter.radio_climate t;
           LRP.earth_dielectric_constant := Fin false 15000 (-3);
           LRP.earth_conductivity := Fin false 5 (-3);
           LRP.atmospheric_bending_constant := Fin false 301000 (-3);
           LRP.fraction_situations := Fin false 50 (-2);
           LRP.fraction_time := Fin false 50 (-2) |}) /\
  List.map to_string
    [Fin false 15000 (-3); Fin false 5 (-3); Fin false 301000 (-3);
     Fin false 50 (-2); Fin false 50 (-2)]
  = ["15.000"; "0.005"; "301.000"; "0.50"; "0.50"] /\
  (forall (s : bool) (c : N) (e : Z),
     Transmitter.eirp_W t = Fin s c e -> (0 < c)%N ->
     -999998 <= e + len_int c - 1 <= 999998 ->
     exists l,
       Transmitter.to_lrpfields t = Ok l /\
       Num.nearest_28 (inject_Z (Num.signed s c) * 10 ^ e / (164 # 100))%Q
         (LRP.erp_W l)) /\
  (exists l,
     Transmitter.to_lrpfields menesble = Ok l /\
     Transmitter.eirp_W menesble = Fin false 800 (-1) /\
     to_string (LRP.erp_W l) = "48.78048780487804878048780488").
Proof.
  assert (Hshape : forall t',
    Transmitter.to_lrpfields t'
    = (erp <- div DefaultContext (Transmitter.eirp_W t') (Fin false 164 (-2)) ;;
       Ok {| LRP.erp_W := erp;
             LRP.frequency_MHz := Transmitter.frequency_MHz t';
             LRP.polarization := Transmitter.polarization t';
             LRP.radio_climate := Transmitter.radio_climate t';
             LRP.earth_dielectric_constant := Fin false 15000 (-3);
             LRP.earth_conductivity := Fin false 5 (-3);
             LRP.atmospheric_bending_constant := Fin false 301000 (-3);
             LRP.fraction_situations := Fin false 50 (-2);
             LRP.fraction_time := Fin false 50 (-2) |})).
  { intros t'. reflexivity. }
  split; [apply Hshape|]. split; [vm_compute; reflexivity|]. split.
  - intros s c e Heirp Hc Hadj.
    destruct (div_164_nearest s c e Hc Hadj) as (q & Hdiv & Hnear).
    rewrite Hshape, Heirp, Hdiv. cbn [bind].
    eexists. split; [reflexivity|]. exact Hnear.
  - eexists. split; [vm_compute; reflexivity|].
    split; vm_compute; reflexivity.
Qed.

Lemma C5_to_lrpfields_witness :
  exists l,
    Transmitter.to_lrpfields menesble = Ok l /\
    Num.nearest_28 (inject_Z (Num.signed false 800) * 10 ^ (-1) / (164 # 100))%Q
      (LRP.erp_W l).
Proof.
  apply (proj1 (proj2 (proj2 (C5_to_lrpfields menesble))) false 800%N (-1)).
  - reflexivity.
  - reflexivity.
  - vm_compute. split; discriminate.
Defined.

End LinkParameters.

(** ** C7, C8: the text of the input files *)

Section InputFiles.

Import Dec PySplat Lines Examples.

Section Strings.

Lemma append_assoc (a b c : string) : (a ++ b) ++ c = a ++ (b ++ c).
Proof. induction a as [|x a IH]; cbn; [reflexivity|]. rewrite IH. reflexivity. Qed.

Lemma append_nil_r (a : string) : a ++ EmptyString = a.
Proof. induction a as [|x a IH]; cbn; [reflexivity|]. rewrite IH. reflexivity. Qed.

Variable p : ascii -> bool.

Lemma forallb_app (a b : string) :
  Str.forallb p (a ++ b) = Str.forallb p a && Str.forallb p b.
Proof.
  induction a as [|x a IH]; cbn; [reflexivity|].
  rewrite IH. apply andb_assoc.
Qed.

Lemma forallb_repeat (c : ascii) (n : nat) :
  p c = true -> Str.forallb p (Str.repeat c n) = true.
Proof. intros Hc. induction n as [|n IH]; cbn; [reflexivity|]. rewrite Hc, IH. reflexivity. Qed.

Lemma forallb_take (n : nat) :
  forall s, Str.forallb p s = true -> Str.forallb p (Str.take n s) = true.
Proof.
  induction n as [|n IH]; intros [|c s] H; cbn in *; try reflexivity.
  apply andb_true_iff in H as [Hc Hs]. rewrite Hc, (IH s Hs). reflexivity.
Qed.

Lemma forallb_drop (n : nat) :
  forall s, Str.forallb p s = true -> Str.forallb p (Str.drop n s) = true.
Proof.
  induction n as [|n IH]; intros [|c s] H; cbn in *; try assumption; try reflexivity.
  apply andb_true_iff in H as [Hc Hs]. apply IH. exact Hs.
Qed.

Hypothesis p_digits : forall c, Str.is_digit c = true -> p c = true.

Lemma is_digit_digit_chr (n : N) : Str.is_digit (Str.digit_chr (n mod 10)) = true.
Proof.
  assert (H : (n mod 10 < 10)%N) by (apply N.mod_lt; discriminate).
  assert (H' : In (n mod 10)%N [0;1;2;3;4;5;6;7;8;9]%N).
  { cbn. lia. }
  cbn in H'. repeat (destruct H' as [<-|H']; [reflexivity|]). contradiction.
Qed.

Lemma forallb_digits_onto (fuel : nat) :
  forall n acc, Str.forallb p acc = true ->
    Str.forallb p (Str.digits_onto fuel n acc) = true.
Proof.
  induction fuel as [|fuel IH]; intros n acc Hacc; cbn [Str.digits_onto].
  - cbn. rewrite p_digits by apply is_digit_digit_chr. exact Hacc.
  - assert (Hacc' : Str.forallb p (String (Str.digit_chr (n mod 10)) acc) = true).
    { cbn. rewrite p_digits by apply is_digit_digit_chr. exact Hacc. }
    destruct (n <? 10)%N; [exact Hacc'|]. apply IH. exact Hacc'.
Qed.

Lemma forallb_of_N (n : N) : Str.forallb p (Str.of_N n) = true.
Proof. apply forallb_digits_onto. reflexivity. Qed.

End Strings.

Lemma forallb_of_Z (p : ascii -> bool) (z : Z) :
  (forall c, Str.is_digit c = true -> p c = true) -> p "-"%char = true ->
  Str.forallb p (Str.of_Z z) = true.
Proof.
  intros Hd Hm. unfold Str.of_Z. destruct (z <? 0); cbn; [rewrite Hm; cbn|];
    apply forallb_of_N; assumption.
Qed.

Lemma to_string_chars (d : Decimal) : Str.forallb decimal_char (to_string d) = true.
Proof.
  assert (Hd : forall c, Str.is_digit c = true -> decimal_char c = true).
  { intros c Hc. unfold decimal_char. rewrite Hc. reflexivity. }
  assert (HN : forall n, Str.forallb decimal_char (Str.of_N n) = true).
  { intros n. apply forallb_of_N. exact Hd. }
  destruct d as [s c e|s|s sig pl]; unfold to_string.
  - cbv zeta. set (ld := e + len_int c).
    set (dp := if (e <=? 0) && (-6 <? ld) then ld else 1).
    assert (Hsign : Str.forallb decimal_char (sign_str s) = true) by (destruct s; reflexivity).
    assert (He : Str.forallb decimal_char
                   (if ld =? dp then EmptyString else "E" ++ Str.of_Z_signed (ld - dp)) = true).
    { destruct (ld =? dp); [reflexivity|]. unfold Str.of_Z_signed.
      destruct (ld - dp <? 0); cbn; apply HN. }
    destruct (dp <=? 0); [|destruct (len_int c <=? dp)]; cbv beta iota.
    + rewrite !forallb_app, Hsign, He, forallb_repeat, HN by reflexivity.
      reflexivity.
    + rewrite !forallb_app, Hsign, He, HN, forallb_repeat by reflexivity. reflexivity.
    + rewrite !forallb_app, Hsign, He, forallb_take, forallb_drop by apply HN.
      reflexivity.
  - destruct s; reflexivity.
  - rewrite !forallb_app.
    assert (H1 : Str.forallb decimal_char (sign_str s) = true) by (destruct s; reflexivity).
    assert (H2 : Str.forallb decimal_char (if sig then "sNaN" else "NaN") = true)
      by (destruct sig; reflexivity).
    rewrite H1, H2. destruct (pl =? 0)%N; [reflexivity|]. rewrite HN. reflexivity.
Qed.

Lemma existsb_app (p : ascii -> bool) (a b : string) :
  Str.existsb p (a ++ b) = Str.existsb p a || Str.existsb p b.
Proof.
  induction a as [|x a IH]; cbn; [reflexivity|].
  rewrite IH. apply orb_assoc.
Qed.

Lemma forallb_excludes (p q : ascii -> bool) (s : string) :
  (forall c, p c = true -> q c = false) ->
  Str.forallb p s = true -> Str.existsb q s = false.
Proof.
  intros Hpq. induction s as [|c s IH]; cbn; [reflexivity|].
  intros H. apply andb_true_iff in H as [Hc Hs].
  rewrite (Hpq c Hc), (IH Hs). reflexivity.
Qed.

Lemma decimal_char_plain (c : ascii) :
  decimal_char c = true -> is_nl c || Ascii.eqb c ";" = false.
Proof.
  unfold decimal_char, is_nl.
  destruct (Ascii.eqb_spec c Str.nl) as [->|_]; [discriminate|].
  destruct (Ascii.eqb_spec c ";") as [->|_]; [discriminate|].
  reflexivity.
Qed.

Lemma to_string_plain (d : Decimal) : plain_value (to_string d).
Proof.
  apply (forallb_excludes decimal_char); [exact decimal_char_plain|].
  apply to_string_chars.
Qed.

Lemma of_Z_plain (z : Z) : plain_value (Str.of_Z z).
Proof.
  apply (forallb_excludes decimal_char); [exact decimal_char_plain|].
  apply forallb_of_Z; [|reflexivity].
  intros c Hc. unfold decimal_char. rewrite Hc. reflexivity.
Qed.

Lemma plain_single_line (s : string) : plain_value s -> single_line s.
Proof.
  unfold plain_value, single_line. induction s as [|c s IH]; cbn; [reflexivity|].
  intros H. apply orb_false_iff in H as [Hc Hs].
  apply orb_false_iff in Hc as [Hc _]. rewrite Hc, (IH Hs). reflexivity.
Qed.

Lemma split_on_single (s : string) :
  single_line s -> Str.split_on Str.nl s = [s].
Proof.
  unfold single_line.
  induction s as [|c s IH]; cbn [Str.split_on Str.existsb]; [reflexivity|].
  intros H. apply orb_false_iff in H as [Hc Hs]. unfold is_nl in Hc.
  rewrite Hc, (IH Hs). reflexivity.
Qed.

Lemma split_on_line (s t : string) :
  single_line s ->
  Str.split_on Str.nl (s ++ String Str.nl t) = s :: Str.split_on Str.nl t.
Proof.
  unfold single_line. induction s as [|c s IH]; cbn [String.append Str.split_on Str.existsb].
  - intros _. rewrite Ascii.eqb_refl. reflexivity.
  - intros H. apply orb_false_iff in H as [Hc Hs]. unfold is_nl in Hc.
    rewrite Hc, (IH Hs). reflexivity.
Qed.

Lemma split_join (ls : list string) :
  ls <> [] -> Forall single_line ls ->
  Str.split_on Str.nl (Str.join newline ls) = ls.
Proof.
  induction ls as [|a ls IH]; intros Hne Hall; [contradiction|].
  inversion Hall as [|? ? Ha Hls]; subst.
  destruct ls as [|b ls].
  - cbn [Str.join]. apply split_on_single. exact Ha.
  - change (Str.join newline (a :: b :: ls))
      with (a ++ String Str.nl (Str.join newline (b :: ls))).
    rewrite split_on_line by exact Ha.
    rewrite IH; [reflexivity|discriminate|exact Hls].
Qed.

Lemma qth_text_eq (q : QTH.QTHFields) :
  qth_text q = Ok (Str.join newline (qth_lines q)).
Proof. destruct q as [n lat lon h]. reflexivity. Qed.

Lemma lrp_text_eq (l : LRP.LRPFields) :
  lrp_text l = Ok (Str.join newline (lrp_lines l)).
Proof.
  destruct l.
  unfold lrp_lines, lrp_values, lrp_comments.
  cbn [zip_append Str.join LRP.earth_dielectric_constant LRP.earth_conductivity
       LRP.atmospheric_bending_constant LRP.frequency_MHz LRP.radio_climate
       LRP.polarization LRP.fraction_situations LRP.fraction_time LRP.erp_W].
  rewrite !append_assoc. reflexivity.
Qed.


(** C7, as stated, fails: a site whose name holds a line break is rendered
    as five lines, and the latitude is no longer the second. *)
Lemma C7_name_with_line_break : ~ qth_block_spec two_line_site.
Proof.
  intros (text & Htext & Hlines).
  rewrite qth_text_eq in Htext. injection Htext as <-.
  vm_compute in Hlines. discriminate Hlines.
Qed.

(** C7 (amended). For every QTHFields value the encoder renders name,
    latitude, longitude_EtoW and height followed by " meters", joined by
    line breaks in that order; when the name holds no line break this is a
    block of 4 lines, in that order. For the transmitter "Menesble" at
    latitude 47.78194, longitude 4.90917 and height 41.0 the lines are
    Menesble, 47.78194, 355.09083 and 41.0 meters. *)
Theorem C7_qth_block (q : QTH.QTHFields) :
  single_line (QTH.name q) ->
  qth_text q = Ok (Str.join newline (qth_lines q)) /\
  qth_block_spec q /\
  List.length (qth_lines q) = 4%nat /\
  (exists m text,
     Transmitter.to_qthfields menesble = Ok m /\
     qth_text m = Ok text /\
     lines text = ["Menesble"; "47.78194"; "355.09083"; "41.0 meters"]).
Proof.
  intros Hname. split; [apply qth_text_eq|]. split; [|split; [reflexivity|]].
  - exists (Str.join newline (qth_lines q)). split; [apply qth_text_eq|].
    apply split_join; [discriminate|].
    repeat constructor; try exact Hname;
      try (apply plain_single_line, to_string_plain).
    unfold single_line. rewrite existsb_app.
    pose proof (plain_single_line _ (to_string_plain (QTH.height_m q))) as H.
    unfold single_line in H. rewrite H. reflexivity.
  - eexists. eexists. split; [vm_compute; reflexivity|].
    split; vm_compute; reflexivity.
Qed.

Lemma C7_qth_block_witness : qth_block_spec bure_qth.
Proof. apply (C7_qth_block bure_qth). reflexivity. Defined.

(** C8. For every LRPFields value the encoder renders a block of 9 lines:
    the values, in the order earth dielectric constant, earth conductivity,
    atmospheric bending constant, frequency, radio climate, polarization,
    fraction of situations, fraction of time, effective radiated power,
    each followed on its line by its comment; no value holds a line break or
    the [;] that opens a comment. For the transmitter of [test1] the nine
    lines are 15.000, 0.005, 301.000, 800.00, 5, 1, 0.50, 0.50 and
    48.78048780487804878048780488, each with its comment. *)
Theorem C8_lrp_block (l : LRP.LRPFields) :
  (exists text,
     lrp_text l = Ok text /\
     lines text = zip_append (lrp_values l) lrp_comments /\
     List.length (lines text) = 9%nat /\
     Forall plain_value (lrp_values l) /\
     List.forallb comment_ok lrp_comments = true) /\
  (exists m text,
     Transmitter.to_lrpfields menesble = Ok m /\
     lrp_text m = Ok text /\
     lines text
     = ["15.000" ++ TAB ++ "; Earth Dielectric Constant (Relative permittivity)";
        "0.005; Earth Conductivity (Siemens per meter)";
        "301.000" ++ TAB ++ "; Atmospheric Bending Constant (N-Units)";
        "800.00" ++ TAB ++ "; Frequency in MHz (20 MHz to 20 GHz)";
        "5" ++ TAB ++ "; Radio Climate";
        "1" ++ TAB ++ "; Polarization (0 = Horizontal, 1 = Vertical)";
        "0.50" ++ TAB ++ "; Fraction of Situations";
        "0.50" ++ TAB ++ "; Fraction of Time";
        "48.78048780487804878048780488 ; ERP"]).
Proof.
  split.
  - assert (Hvalues : Forall plain_value (lrp_values l)).
    { unfold lrp_values.
      repeat constructor; first [apply to_string_plain | apply of_Z_plain]. }
    assert (Hlines : Forall single_line (lrp_lines l)).
    { unfold lrp_lines, lrp_values, lrp_comments. cbn [zip_append].
      repeat constructor; unfold single_line; rewrite existsb_app;
        match goal with
        | |- Str.existsb is_nl ?v || _ = false =>
            let H := fresh in
            assert (H : single_line v)
              by (apply plain_single_line;
                  first [apply to_string_plain | apply of_Z_plain]);
            unfold single_line in H; rewrite H; reflexivity
        end. }
    exists (Str.join newline (lrp_lines l)).
    split; [apply lrp_text_eq|].
    assert (Hsplit : lines (Str.join newline (lrp_lines l)) = lrp_lines l).
    { apply split_join; [discriminate|exact Hlines]. }
    rewrite Hsplit. repeat split; try reflexivity. exact Hvalues.
  - exists menesble_lrp. eexists.
    split; [vm_compute; reflexivity|].
    split; [vm_compute; reflexivity|].
    vm_compute. reflexivity.
Qed.

End InputFiles.

(** ** C9: construction *)

Section Construction.

Import Dec PySplat Validation Examples.

Lemma of_string_raises (s : string) (e : exn) :
  of_string s = Raise e -> e = InvalidOperation.
Proof.
  unfold of_string. cbv zeta.
  match goal with
  | |- context [let (_, _) := ?x in _] => destruct x as [sign body]
  end.
  destruct (if starts_number body then parse_number sign body
            else parse_special sign body); congruence.
Qed.

Lemma convert_raises (val : pyobj) (e : exn) :
  _convert_to_decimal val = Raise e -> validation_error e.
Proof.
  destruct val as [d|s|z|s|]; cbn [_convert_to_decimal]; intros H;
    try discriminate.
  - left. exact (of_string_raises _ _ H).
  - left. exact (of_string_raises _ _ H).
  - right. congruence.
Qed.

Lemma convert_cases (val : pyobj) :
  (exists d, _convert_to_decimal val = Ok d) \/
  (exists e, _convert_to_decimal val = Raise e /\ validation_error e).
Proof.
  destruct (_convert_to_decimal val) as [d|e] eqn:E.
  - left. exists d. reflexivity.
  - right. exists e. split; [reflexivity|]. exact (convert_raises _ _ E).
Qed.

(** *** What [Decimal] takes for a number *)

Lemma span_digits_spec (s : string) :
  forall d r, Str.span_digits s = (d, r) -> s = d ++ r /\ digits d.
Proof.
  unfold digits.
  induction s as [|c s IH]; cbn [Str.span_digits]; intros d r H.
  - injection H as <- <-. split; reflexivity.
  - destruct (Str.is_digit c) eqn:Hc.
    + destruct (Str.span_digits s) as [d' r'] eqn:E. injection H as <- <-.
      destruct (IH _ _ eq_refl) as [-> Hd].
      split; [reflexivity|]. cbn [Str.forallb]. rewrite Hc, Hd. reflexivity.
    + injection H as <- <-. split; reflexivity.
Qed.

(** The sign that a string starts with, as the parser takes it off. *)
Lemma sign_split (s : string) :
  exists sign rest,
    s = sign ++ rest /\ sign_text sign /\
    match s with
    | String "-" r => (true, r)
    | String "+" r => (false, r)
    | _ => (false, s)
    end = (String.eqb sign "-", rest).
Proof.
  unfold sign_text. destruct s as [|c r].
  - exists EmptyString, EmptyString. repeat split. left. reflexivity.
  - destruct (Ascii.eqb_spec c "-") as [->|Hm].
    { exists "-", r. repeat split. right; right. reflexivity. }
    destruct (Ascii.eqb_spec c "+") as [->|Hp].
    { exists "+", r. repeat split. right; left. reflexivity. }
    exists EmptyString, (String c r). split; [reflexivity|].
    split; [left; reflexivity|].
    destruct c as [[] [] [] [] [] [] [] []]; try reflexivity; congruence.
Qed.

Lemma lower_e (c : ascii) :
  Ascii.eqb (Str.lower c) "e" = true -> c = "E"%char \/ c = "e"%char.
Proof.
  destruct c as [[] [] [] [] [] [] [] []]; cbn; intros H;
    try discriminate H; auto.
Qed.

Lemma parse_exp_spec (s : string) (z : Z) :
  parse_exp s = Some z -> exponent_part s z.
Proof.
  unfold parse_exp. destruct s as [|e r].
  - intros H. injection H as <-. constructor.
  - destruct (Ascii.eqb (Str.lower e) "e") eqn:He; [|discriminate].
    destruct (sign_split r) as (sign & rest & -> & Hs & ->).
    destruct (Str.span_digits rest) as [ds tail] eqn:E.
    destruct (span_digits_spec _ _ _ E) as [-> Hd].
    destruct ds as [|x ds]; [discriminate|].
    destruct tail; [|discriminate].
    intros H. injection H as <-.
    assert (Happ : String x ds ++ EmptyString = String x ds).
    { clear. generalize (String x ds). intros a.
      induction a as [|y a IH]; cbn; [reflexivity|]. rewrite IH. reflexivity. }
    rewrite Happ in *.
    apply exponent_some; [exact (lower_e _ He)|exact Hs|exact Hd|discriminate].
Qed.

Lemma append_nil (a : string) : a ++ EmptyString = a.
Proof. induction a as [|y a IH]; cbn; [reflexivity|]. rewrite IH. reflexivity. Qed.

Lemma append_assoc3 (a b c : string) : (a ++ b) ++ c = a ++ b ++ c.
Proof. induction a as [|y a IH]; cbn; [reflexivity|]. rewrite IH. reflexivity. Qed.

Lemma parse_number_spec (sign : bool) (s : string) (d : Decimal) :
  starts_number s = true -> parse_number sign s = Some d -> spelled sign s d.
Proof.
  unfold parse_number. intros Hst.
  destruct (Str.span_digits s) as [ip r1] eqn:E1.
  destruct (span_digits_spec _ _ _ E1) as [-> Hip].
  destruct r1 as [|c r].
  - (* digits to the end *)
    cbn [parse_exp]. intros H. injection H as <-.
    rewrite append_nil in *.
    rewrite <- (append_nil ip) at 1.
    apply spelled_integer; [exact Hip| |constructor].
    intros ->. discriminate Hst.
  - destruct (Ascii.eqb_spec c ".") as [->|Hc].
    + (* a point *)
      destruct (Str.span_digits r) as [fp r2] eqn:E2.
      destruct (span_digits_spec _ _ _ E2) as [-> Hfp].
      destruct (parse_exp r2) as [z|] eqn:Ez; [|discriminate].
      intros H. injection H as <-.
      apply spelled_fraction; [exact Hip|exact Hfp| |exact (parse_exp_spec _ _ Ez)].
      intros Hnil.
      destruct ip as [|x ip]; [|discriminate Hnil].
      destruct fp as [|y fp]; [|discriminate Hnil].
      destruct r2 as [|y r2]; [discriminate Hst|].
      cbn [String.append Str.span_digits] in E2.
      destruct (Str.is_digit y) eqn:Hy.
      * destruct (Str.span_digits r2); discriminate E2.
      * cbn [String.append starts_number] in Hst. rewrite Hy in Hst.
        vm_compute in Hst. discriminate Hst.
    + (* no point *)
      assert (Hmatch : match String c r with
                       | String "." r0 => Str.span_digits r0
                       | _ => (EmptyString, String c r)
                       end = (EmptyString, String c r)).
      { destruct c as [[] [] [] [] [] [] [] []]; try reflexivity; congruence. }
      rewrite Hmatch.
      destruct (parse_exp (String c r)) as [z|] eqn:Ez; [|discriminate].
      intros H. injection H as <-.
      rewrite append_nil. cbn [String.length Z.of_nat]. rewrite Z.sub_0_r.
      apply spelled_integer; [exact Hip| |exact (parse_exp_spec _ _ Ez)].
      intros ->. cbn [String.append] in Hst, E1.
      cbn [Str.span_digits] in E1.
      destruct (Str.is_digit c) eqn:Hd.
      * destruct (Str.span_digits r); discriminate E1.
      * cbn [starts_number] in Hst. destruct r as [|y r].
        -- congruence.
        -- rewrite Hd in Hst. cbn [orb] in Hst.
           apply andb_true_iff in Hst as [Hp _].
           apply Ascii.eqb_eq in Hp. contradiction.
Qed.

Lemma map_split (f : ascii -> ascii) (a : string) :
  forall s b, Str.map f s = a ++ b ->
    exists w t, s = w ++ t /\ Str.map f w = a /\ Str.map f t = b.
Proof.
  induction a as [|x a IH]; intros s b H.
  - exists EmptyString, s. repeat split. exact H.
  - destruct s as [|c s]; [discriminate H|].
    cbn [Str.map String.append] in H. injection H as Hc H.
    destruct (IH s b H) as (w & t & -> & Hw & Ht).
    exists (String c w), t. cbn [String.append Str.map]. rewrite Hc, Hw.
    repeat split. exact Ht.
Qed.

Lemma lower_digit (c : ascii) :
  Str.is_digit (Str.lower c) = true -> Str.lower c = c.
Proof.
  destruct c as [[] [] [] [] [] [] [] []]; cbn; intros H;
    try discriminate H; reflexivity.
Qed.

Lemma lower_digits_inv (t : string) :
  Str.forallb Str.is_digit (Str.map Str.lower t) = true -> Str.map Str.lower t = t.
Proof.
  induction t as [|c t IH]; cbn [Str.map Str.forallb]; [reflexivity|].
  intros H. apply andb_true_iff in H as [Hc Ht].
  rewrite (lower_digit c Hc), (IH Ht). reflexivity.
Qed.

(** The [s] that marks a signaling NaN, as the parser takes it off. *)
Lemma signal_split (l : string) :
  exists (signaling : bool) (rest : string),
    l = (if signaling then "s" else EmptyString) ++ rest /\
    match l with
    | String "s" r => (true, r)
    | _ => (false, l)
    end = (signaling, rest).
Proof.
  destruct l as [|c r].
  - exists false, EmptyString. split; reflexivity.
  - destruct (Ascii.eqb_spec c "s") as [->|Hs].
    + exists true, r. split; reflexivity.
    + exists false, (String c r). split; [reflexivity|].
      destruct c as [[] [] [] [] [] [] [] []]; try reflexivity; congruence.
Qed.

Lemma nan_split (r : string) (T : Type) (k : string -> T) (k0 : T) (v : T) :
  match r with
  | String "n" (String "a" (String "n" diag)) => k diag
  | _ => k0
  end = v ->
  (exists diag, r = "nan" ++ diag /\ k diag = v) \/ k0 = v.
Proof.
  intros H.
  destruct r as [|c1 r]; [right; exact H|].
  destruct (Ascii.eqb_spec c1 "n") as [->|H1].
  2:{ right. destruct c1 as [[] [] [] [] [] [] [] []]; try exact H; congruence. }
  destruct r as [|c2 r]; [right; exact H|].
  destruct (Ascii.eqb_spec c2 "a") as [->|H2].
  2:{ right. destruct c2 as [[] [] [] [] [] [] [] []]; try exact H; congruence. }
  destruct r as [|c3 r]; [right; exact H|].
  destruct (Ascii.eqb_spec c3 "n") as [->|H3].
  2:{ right. destruct c3 as [[] [] [] [] [] [] [] []]; try exact H; congruence. }
  left. exists r. split; [reflexivity|exact H].
Qed.

Lemma parse_special_spec (sign : bool) (s : string) (d : Decimal) :
  parse_special sign s = Some d -> spelled sign s d.
Proof.
  unfold parse_special.
  destruct (String.eqb (Str.map Str.lower s) "inf"
            || String.eqb (Str.map Str.lower s) "infinity") eqn:Hinf.
  - intros H. injection H as <-. apply spelled_inf.
    apply orb_true_iff in Hinf as [H|H]; apply String.eqb_eq in H; auto.
  - destruct (signal_split (Str.map Str.lower s)) as (signaling & rest & Hl & ->).
    intros H. apply nan_split in H as [(diag & -> & H)|H]; [|discriminate H].
    destruct (Str.forallb Str.is_digit diag) eqn:Hd; [|discriminate H].
    injection H as <-.
    assert (Hl' : Str.map Str.lower s
                  = (if signaling then "snan" else "nan") ++ diag).
    { rewrite Hl. destruct signaling; reflexivity. }
    destruct (map_split _ _ _ _ Hl') as (w & t & -> & Hw & Ht).
    assert (Htd : t = diag).
    { rewrite <- Ht in Hd. rewrite <- (lower_digits_inv t Hd). exact Ht. }
    subst t. apply spelled_nan; [exact Hw|exact Hd].
Qed.

(** What [Decimal] accepts is a number as [reads] says, and the decimal
    it gives is the one that is written. *)
Lemma of_string_reads (s : string) (d : Decimal) :
  of_string s = Ok d -> reads s d.
Proof.
  unfold of_string, reads. cbv zeta.
  destruct (sign_split (Str.drop_underscores (Str.strip s)))
    as (sign & body & Hs & Hsign & ->).
  intros H. exists sign, body. split; [exact Hs|]. split; [exact Hsign|].
  destruct (starts_number body) eqn:Hst.
  - destruct (parse_number (String.eqb sign "-") body) as [d'|] eqn:E;
      [|discriminate H].
    injection H as <-. exact (parse_number_spec _ _ _ Hst E).
  - destruct (parse_special (String.eqb sign "-") body) as [d'|] eqn:E;
      [|discriminate H].
    injection H as <-. exact (parse_special_spec _ _ _ E).
Qed.

(** A scalar that is coerced stands for the decimal it is coerced to. *)
Lemma convert_denotes (val : pyobj) (d : Decimal) :
  _convert_to_decimal val = Ok d -> denotes val d.
Proof.
  destruct val as [d0|s|z|s|]; cbn [_convert_to_decimal]; intros H.
  - injection H as <-. constructor.
  - constructor. exact (of_string_reads _ _ H).
  - injection H as <-. constructor.
  - constructor. exact (of_string_reads _ _ H).
  - discriminate H.
Qed.

(** A scalar that cannot be coerced is refused, by the exception of its
    kind. *)
Lemma convert_refuses (val : pyobj) :
  not_coercible val -> _convert_to_decimal val = Raise (refusal val).
Proof.
  intros [|s Hs]; cbn [_convert_to_decimal refusal]; [reflexivity|].
  destruct (of_string s) as [d|e] eqn:E.
  - exfalso. exact (Hs d (of_string_reads _ _ E)).
  - rewrite (of_string_raises _ _ E). reflexivity.
Qed.

Ltac convert_field val :=
  let d := fresh "d" in
  let e := fresh "e" in
  let E := fresh "E" in
  let He := fresh "He" in
  destruct (convert_cases val) as [(d & E)|(e & E & He)];
  rewrite E; cbn [bind];
  [|try (exists e; split; [reflexivity|exact He]); try discriminate].

Lemma transmitter_new_raises (args : TransmitterArgs.TransmitterArgs) (val : pyobj) :
  In val (transmitter_scalars args) ->
  (forall d, _convert_to_decimal val <> Ok d) ->
  exists e, Transmitter_new args = Raise e /\ validation_error e.
Proof.
  intros Hin Hno. unfold Transmitter_new.
  convert_field (TransmitterArgs.latitude args).
  convert_field (TransmitterArgs.longitude_WtoE args).
  convert_field (TransmitterArgs.height_m args).
  convert_field (TransmitterArgs.eirp_W args).
  convert_field (TransmitterArgs.frequency_MHz args).
  exfalso. cbn in Hin.
  repeat (destruct Hin as [<-|Hin]; [eapply Hno; eassumption|]).
  contradiction.
Qed.

(** The fields of a constructed object are the coercions of the scalars
    supplied, in the order of the fields. *)
Lemma transmitter_new_converts (args : TransmitterArgs.TransmitterArgs)
    (t : Transmitter.Transmitter) :
  Transmitter_new args = Ok t ->
  List.map _convert_to_decimal (transmitter_scalars args)
  = List.map Ok (transmitter_decimals t) /\
  Transmitter.name t = TransmitterArgs.name args /\
  Transmitter.polarization t = TransmitterArgs.polarization args /\
  Transmitter.radio_climate t = TransmitterArgs.radio_climate args.
Proof.
  unfold Transmitter_new, transmitter_scalars, transmitter_decimals.
  convert_field (TransmitterArgs.latitude args).
  convert_field (TransmitterArgs.longitude_WtoE args).
  convert_field (TransmitterArgs.height_m args).
  convert_field (TransmitterArgs.eirp_W args).
  convert_field (TransmitterArgs.frequency_MHz args).
  intros H. injection H as <-. cbn [List.map]. rewrite E, E0, E1, E2, E3.
  repeat split.
Qed.

Lemma converts_denote (vals : list pyobj) :
  forall ds, List.map _convert_to_decimal vals = List.map Ok ds ->
    Forall2 denotes vals ds.
Proof.
  induction vals as [|v vals IH]; intros [|d ds] H; try discriminate H.
  - constructor.
  - cbn [List.map] in H. injection H as Hv H.
    constructor; [exact (convert_denotes _ _ Hv)|exact (IH _ H)].
Qed.

Lemma transmitter_new_stores (args : TransmitterArgs.TransmitterArgs)
    (t : Transmitter.Transmitter) :
  Transmitter_new args = Ok t -> transmitter_stores args t.
Proof.
  intros H. destruct (transmitter_new_converts args t H) as (Hmap & Hrest).
  split; [exact (converts_denote _ _ Hmap)|exact Hrest].
Qed.

Lemma receiver_new_raises (args : ReceiverArgs.ReceiverArgs) (val : pyobj) :
  In val (receiver_scalars args) ->
  (forall d, _convert_to_decimal val <> Ok d) ->
  exists e, Receiver_new args = Raise e /\ validation_error e.
Proof.
  intros Hin Hno. unfold Receiver_new.
  convert_field (ReceiverArgs.latitude args).
  convert_field (ReceiverArgs.longitude_WtoE args).
  convert_field (ReceiverArgs.height_m args).
  exfalso. cbn in Hin.
  repeat (destruct Hin as [<-|Hin]; [eapply Hno; eassumption|]).
  contradiction.
Qed.

Lemma receiver_new_converts (args : ReceiverArgs.ReceiverArgs)
    (r : Receiver.Receiver) :
  Receiver_new args = Ok r ->
  List.map _convert_to_decimal (receiver_scalars args)
  = List.map Ok (receiver_decimals r) /\
  Receiver.name r = ReceiverArgs.name args.
Proof.
  unfold Receiver_new, receiver_scalars, receiver_decimals.
  convert_field (ReceiverArgs.latitude args).
  convert_field (ReceiverArgs.longitude_WtoE args).
  convert_field (ReceiverArgs.height_m args).
  intros H. injection H as <-. cbn [List.map]. rewrite E, E0, E1.
  repeat split.
Qed.

Lemma receiver_new_stores (args : ReceiverArgs.ReceiverArgs)
    (r : Receiver.Receiver) :
  Receiver_new args = Ok r -> receiver_stores args r.
Proof.
  intros H. destruct (receiver_new_converts args r H) as (Hmap & Hrest).
  split; [exact (converts_denote _ _ Hmap)|exact Hrest].
Qed.

(** No number is written in [north]. *)
Lemma north_is_no_number : not_coercible (PyStr "north").
Proof.
  apply refused_str. intros d (sign & body & Hs & Hsign & Hsp).
  change (Str.drop_underscores (Str.strip "north")) with "north" in Hs.
  assert (Hbody : body = "north").
  { destruct Hsign as [->|[->| ->]]; cbn [String.append] in Hs;
      [symmetry; exact Hs|discriminate Hs|discriminate Hs]. }
  subst body. clear Hs Hsign.
  assert (Hdigit : forall ip rest,
            digits ip -> ip ++ rest = "north" -> ip = EmptyString).
  { intros [|c ip] rest Hd Heq; [reflexivity|].
    cbn [String.append] in Heq. injection Heq as -> _. discriminate Hd. }
  inversion Hsp as [ip ex z Hip Hne Hex Heq|ip fp ex z Hip Hfp Hne Hex Heq
                   |w Hw Heq|w diag sg Hw Hdiag Heq]; subst.
  - exact (Hne (Hdigit ip ex Hip Heq)).
  - pose proof (Hdigit ip _ Hip Heq) as ->. discriminate Heq.
  - destruct Hw as [Hw|Hw]; discriminate Hw.
  - destruct w as [|a [|b [|c [|x [|y w]]]]]; destruct sg;
      try discriminate Hw; cbn [String.append] in Heq;
      injection Heq as -> -> ->; discriminate Hw.
Qed.

(** C9. For every scalar that cannot be coerced to a decimal (an object of
    a type that Decimal does not take, a string in which no number is
    written), the coercion raises: TypeError for the object,
    InvalidOperation for the string; supplied for a decimal-typed field, it
    makes the construction of the Transmitter or the Receiver fail with the
    exception of a coercion; and an object that is constructed holds, in
    each decimal-typed field, the number that the scalar supplied for it
    stands for, never a default. *)
Theorem C9_construction_validates
    (targs : TransmitterArgs.TransmitterArgs)
    (rargs : ReceiverArgs.ReceiverArgs) (val : pyobj) :
  not_coercible val ->
  _convert_to_decimal val = Raise (refusal val) /\
  (In val (transmitter_scalars targs) ->
   exists e, Transmitter_new targs = Raise e /\ validation_error e) /\
  (In val (receiver_scalars rargs) ->
   exists e, Receiver_new rargs = Raise e /\ validation_error e) /\
  (forall t, Transmitter_new targs = Ok t -> transmitter_stores targs t) /\
  (forall r, Receiver_new rargs = Ok r -> receiver_stores rargs r).
Proof.
  intros Hno.
  pose proof (convert_refuses val Hno) as Href.
  assert (Hnot : forall d, _convert_to_decimal val <> Ok d)
    by (intros d; rewrite Href; discriminate).
  split; [exact Href|]. split; [|split; [|split]].
  - intros Hin. exact (transmitter_new_raises targs val Hin Hnot).
  - intros Hin. exact (receiver_new_raises rargs val Hin Hnot).
  - apply transmitter_new_stores.
  - apply receiver_new_stores.
Qed.

Lemma C9_construction_validates_witness :
  _convert_to_decimal (PyStr "north") = Raise InvalidOperation /\
  exists e,
    Transmitter_new transmitter_args_north = Raise e /\ validation_error e.
Proof.
  destruct (C9_construction_validates transmitter_args_north
              receiver_args_none (PyStr "north") north_is_no_number)
    as (Href & Ht & _).
  split; [exact Href|]. apply Ht. left. reflexivity.
Defined.

(** A missing height is refused as well, by TypeError. *)
Lemma construction_refuses_none :
  Receiver_new receiver_args_none = Raise TypeError /\
  Transmitter_new transmitter_args_north = Raise InvalidOperation.
Proof. split; vm_compute; reflexivity. Qed.

(** What the constructor accepts without complaint: a float, through its
    string form; a string that spells a NaN or an infinity. *)
Lemma construction_accepts :
  _convert_to_decimal (PyFloat "0.1") = Ok (Fin false 1 (-1)) /\
  _convert_to_decimal (PyStr "41.0") = Ok (Fin false 410 (-1)) /\
  _convert_to_decimal (PyFloat "nan") = Ok (NaN false false 0) /\
  _convert_to_decimal (PyStr "-Infinity") = Ok (Inf true).
Proof. repeat split; vm_compute; reflexivity. Qed.

End Construction.

(** ** C6: the workspace and the timeout *)

Section Pipeline.

Import Dec PySplat Lines Workspace Staging Examples.

Lemma mkdtemp_chosen (candidates : list string) (fs : OS.filesystem) :
  OS.mkdtemp candidates fs
  = match chosen candidates fs with
    | Some d => (Ok d, OS.update fs d OS.Dir)
    | None => (Raise (OSError "No usable temporary directory name found"), fs)
    end.
Proof.
  induction candidates as [|d rest IH]; cbn [OS.mkdtemp chosen]; [reflexivity|].
  destruct (fs d); [exact IH|reflexivity].
Qed.

Lemma rmtree_removed (dir : string) (fs : OS.filesystem) :
  removed dir (OS.rmtree dir fs).
Proof. intros p Hp. unfold OS.rmtree. rewrite Hp. reflexivity. Qed.

(** Leaving the [with] block removes the directory, whatever the block
    did. *)
Lemma TemporaryDirectory_removed {A : Type} (candidates : list string)
    (body : string -> OS.M A) (fs : OS.filesystem) (dir : string) :
  chosen candidates fs = Some dir ->
  removed dir (snd (OS.TemporaryDirectory candidates body fs)).
Proof.
  intros Hdir. unfold OS.TemporaryDirectory. rewrite mkdtemp_chosen, Hdir.
  destruct (body dir (OS.update fs dir OS.Dir)) as [r fs2]. cbn [snd].
  apply rmtree_removed.
Qed.

Lemma TemporaryDirectory_none {A : Type} (candidates : list string)
    (body : string -> OS.M A) (fs : OS.filesystem) :
  chosen candidates fs = None ->
  OS.TemporaryDirectory candidates body fs
  = (Raise (OSError "No usable temporary directory name found"), fs).
Proof.
  intros Hdir. unfold OS.TemporaryDirectory. rewrite mkdtemp_chosen, Hdir.
  reflexivity.
Qed.

Lemma append_length (a b : string) :
  String.length (a ++ b) = (String.length a + String.length b)%nat.
Proof. induction a as [|c a IH]; cbn; [reflexivity|]. rewrite IH. reflexivity. Qed.

Lemma joinpath_ne (dir name : string) : OS.joinpath dir name <> dir.
Proof.
  intros H. apply (f_equal String.length) in H.
  unfold OS.joinpath in H. rewrite !append_length in H. cbn in H. lia.
Qed.

Lemma prefix_append (a b : string) : String.prefix a (a ++ b) = true.
Proof.
  induction a as [|c a IH]; cbn.
  - destruct b; reflexivity.
  - destruct (Ascii.ascii_dec c c) as [_|Hne]; [exact IH|contradiction].
Qed.

Lemma joinpath_under (dir name : string) :
  OS.under dir (OS.joinpath dir name) = true.
Proof.
  unfold OS.under, OS.joinpath. apply orb_true_iff. right.
  replace (dir ++ "/" ++ name) with ((dir ++ "/") ++ name).
  - apply prefix_append.
  - clear. induction dir as [|c d IH]; cbn; [reflexivity|]. rewrite IH. reflexivity.
Qed.

Lemma tidy_update_file (dir path text : string) (fs : OS.filesystem) :
  tidy dir fs -> path <> dir -> tidy dir (OS.update fs path (OS.File text)).
Proof.
  intros [Hdir Hsub] Hne. unfold tidy, OS.update. split.
  - destruct (String.eqb_spec dir path) as [E|_]; [congruence|exact Hdir].
  - intros p Hp Hpd. destruct (String.eqb_spec p path); [discriminate|].
    apply Hsub; assumption.
Qed.

Lemma tidy_created (dir : string) (fs : OS.filesystem) :
  removed dir fs -> tidy dir (OS.update fs dir OS.Dir).
Proof.
  intros Hfresh. unfold tidy, OS.update. split.
  - rewrite String.eqb_refl. reflexivity.
  - intros p Hp Hpd. destruct (String.eqb_spec p dir); [contradiction|].
    rewrite (Hfresh p Hp). discriminate.
Qed.

Lemma has_nul_app (a b : string) :
  OS.has_nul (a ++ b) = OS.has_nul a || OS.has_nul b.
Proof. apply existsb_app. Qed.

Lemma file_name_part_inv (name : string) :
  file_name_part name ->
  Str.existsb (fun c => Ascii.eqb c "/") name = false /\ OS.has_nul name = false.
Proof.
  unfold file_name_part, OS.has_nul.
  induction name as [|c n IH]; cbn [Str.existsb]; [split; reflexivity|].
  intros H. apply orb_false_iff in H as [Hc Hn].
  apply orb_false_iff in Hc as [Hs Hz]. destruct (IH Hn) as [IH1 IH2].
  rewrite Hs, Hz, IH1, IH2. split; reflexivity.
Qed.

Lemma joinpath_plain (dir name : string) :
  OS.has_nul dir = false -> OS.has_nul name = false ->
  OS.has_nul (OS.joinpath dir name) = false.
Proof.
  intros Hd Hn. unfold OS.joinpath. rewrite !has_nul_app, Hd, Hn. reflexivity.
Qed.

Lemma open_w_tidy (dir name : string) (fs : OS.filesystem) :
  tidy dir fs -> file_name_part name ->
  OS.has_nul dir = false -> OS.too_long (OS.joinpath dir name) = false ->
  OS.open_w dir name fs
  = (Ok (OS.joinpath dir name),
     OS.update fs (OS.joinpath dir name) (OS.File EmptyString)).
Proof.
  intros [Hdir Hsub] Hname Hnul Hlen. unfold OS.open_w.
  destruct (file_name_part_inv name Hname) as [Hslash Hz].
  rewrite (joinpath_plain dir name Hnul Hz), Hlen, Hdir, Hslash.
  pose proof (Hsub _ (joinpath_under dir name) (joinpath_ne dir name)) as Hp.
  destruct (fs (OS.joinpath dir name)) as [[|content]|]; try reflexivity.
  contradiction Hp. reflexivity.
Qed.

Lemma file_name_ok (pre name suf : string) :
  file_name_part pre -> file_name_part name -> file_name_part suf ->
  file_name_part (pre ++ name ++ suf).
Proof.
  unfold file_name_part. intros H1 H2 H3.
  rewrite !existsb_app, H1, H2, H3. reflexivity.
Qed.

Lemma roomy_inv (dir : string) (t : Transmitter.Transmitter)
    (r : Receiver.Receiver) :
  roomy dir t r ->
  OS.has_nul dir = false /\
  OS.too_long (OS.joinpath dir ("transmitter-" ++ Transmitter.name t ++ ".qth"))
  = false /\
  OS.too_long (OS.joinpath dir ("transmitter-" ++ Transmitter.name t ++ ".lrp"))
  = false /\
  OS.too_long (OS.joinpath dir ("receiver-" ++ Receiver.name r ++ ".qth"))
  = false.
Proof.
  intros [Hnul Hlen]. unfold input_paths in Hlen. cbn [List.existsb] in Hlen.
  apply orb_false_iff in Hlen as [H1 Hlen].
  apply orb_false_iff in Hlen as [H2 Hlen].
  apply orb_false_iff in Hlen as [H3 _].
  repeat split; assumption.
Qed.

(** The command line holds no NUL when its parts hold none. *)
Lemma command_line_plain (dir cities terrain name1 name3 : string) :
  OS.has_nul dir = false ->
  OS.has_nul cities = false -> OS.has_nul terrain = false ->
  file_name_part name1 -> file_name_part name3 ->
  List.existsb OS.has_nul
    (dir :: ["splat"; "-metric"; "-s"; cities; "-d"; terrain;
             "-t"; OS.joinpath dir name1; "-r"; OS.joinpath dir name3])
  = false.
Proof.
  intros Hd Hc Ht H1 H3. cbn [List.existsb].
  rewrite (joinpath_plain dir name1 Hd (proj2 (file_name_part_inv _ H1))).
  rewrite (joinpath_plain dir name3 Hd (proj2 (file_name_part_inv _ H3))).
  rewrite Hd, Hc, Ht. reflexivity.
Qed.

Lemma input_texts_inv (t : Transmitter.Transmitter) (r : Receiver.Receiver)
    (text1 text2 text3 : string) :
  input_texts t r = Ok (text1, text2, text3) ->
  (q <- Transmitter.to_qthfields t ;; qth_text q) = Ok text1 /\
  (l <- Transmitter.to_lrpfields t ;; lrp_text l) = Ok text2 /\
  (q <- Receiver.to_qthfields r ;; qth_text q) = Ok text3.
Proof.
  unfold input_texts. intros H.
  destruct (q <- Transmitter.to_qthfields t ;; qth_text q) as [x1|]; [|discriminate].
  destruct (l <- Transmitter.to_lrpfields t ;; lrp_text l) as [x2|]; [|discriminate].
  destruct (q <- Receiver.to_qthfields r ;; qth_text q) as [x3|]; [|discriminate].
  cbn [bind] in H. injection H as -> -> ->. repeat split.
Qed.

(** Reading leaves the files as they are. *)
Lemma read_keeps (path : string) (fs : OS.filesystem) :
  OS.read path fs = (fst (OS.read path fs), fs).
Proof.
  unfold OS.read. destruct (OS.has_nul path); [reflexivity|].
  destruct (OS.too_long path); [reflexivity|].
  destruct (fs path) as [[|content]|]; reflexivity.
Qed.

(** The three files are opened, in their order, in a workspace that has
    room for them. *)
Lemma inputs_opened {A : Type} (dir : string) (t : Transmitter.Transmitter)
    (r : Receiver.Receiver) (fs : OS.filesystem)
    (k : string -> string -> string -> OS.M A) :
  removed dir fs ->
  file_name_part (Transmitter.name t) -> file_name_part (Receiver.name r) ->
  roomy dir t r ->
  let p1 := OS.joinpath dir (transmitter_qth_name t) in
  let p2 := OS.joinpath dir (transmitter_lrp_name t) in
  let p3 := OS.joinpath dir (receiver_qth_name r) in
  (a <-- OS.open_w dir ("transmitter-" ++ Transmitter.name t ++ ".qth") ;;;
   b <-- OS.open_w dir ("transmitter-" ++ Transmitter.name t ++ ".lrp") ;;;
   c <-- OS.open_w dir ("receiver-" ++ Receiver.name r ++ ".qth") ;;;
   k a b c) (OS.update fs dir OS.Dir)
  = k p1 p2 p3
      (OS.update (OS.update (OS.update (OS.update fs dir OS.Dir)
         p1 (OS.File EmptyString)) p2 (OS.File EmptyString))
         p3 (OS.File EmptyString)).
Proof.
  intros Hfresh Hnt Hnr Hroom. cbv zeta.
  unfold transmitter_qth_name, transmitter_lrp_name, receiver_qth_name.
  destruct (roomy_inv _ _ _ Hroom) as (Hnul & Hl1 & Hl2 & Hl3).
  assert (Hn1 : file_name_part ("transmitter-" ++ Transmitter.name t ++ ".qth"))
    by (apply file_name_ok; [reflexivity|exact Hnt|reflexivity]).
  assert (Hn2 : file_name_part ("transmitter-" ++ Transmitter.name t ++ ".lrp"))
    by (apply file_name_ok; [reflexivity|exact Hnt|reflexivity]).
  assert (Hn3 : file_name_part ("receiver-" ++ Receiver.name r ++ ".qth"))
    by (apply file_name_ok; [reflexivity|exact Hnr|reflexivity]).
  pose proof (tidy_created dir fs Hfresh) as Ht0.
  set (fs0 := OS.update fs dir OS.Dir) in *.
  unfold OS.bindM at 1.
  rewrite (open_w_tidy dir _ fs0 Ht0 Hn1 Hnul Hl1).
  set (p1 := OS.joinpath dir ("transmitter-" ++ Transmitter.name t ++ ".qth")).
  pose proof (tidy_update_file dir p1 EmptyString fs0 Ht0 (joinpath_ne dir _)) as Ht1.
  set (fs1 := OS.update fs0 p1 (OS.File EmptyString)) in *.
  unfold OS.bindM at 1.
  rewrite (open_w_tidy dir _ fs1 Ht1 Hn2 Hnul Hl2).
  set (p2 := OS.joinpath dir ("transmitter-" ++ Transmitter.name t ++ ".lrp")).
  pose proof (tidy_update_file dir p2 EmptyString fs1 Ht1 (joinpath_ne dir _)) as Ht2.
  set (fs2 := OS.update fs1 p2 (OS.File EmptyString)) in *.
  unfold OS.bindM at 1.
  rewrite (open_w_tidy dir _ fs2 Ht2 Hn3 Hnul Hl3).
  reflexivity.
Qed.

(** The whole invocation, once its inputs can be staged: the tool is run
    once, and the result is read off its end. *)
Lemma pipeline_run (splat : OS.program) (tmp_names : list string)
    (terrain_folder cities_filepath : string)
    (t : Transmitter.Transmitter) (r : Receiver.Receiver)
    (timeout : option Z) (fs : OS.filesystem) (dir : string)
    (texts : string * string * string) :
  ready tmp_names fs dir t r ->
  plain_paths terrain_folder cities_filepath ->
  input_texts t r = Ok texts ->
  splat_report_values splat tmp_names terrain_folder cities_filepath t r
    timeout fs
  = let (c, fs') :=
      splat (splat_args cities_filepath terrain_folder dir t r) dir
        (effective_timeout timeout) (staged dir t r texts fs) in
    (outcome (report_path dir t r) c fs', OS.rmtree dir fs').
Proof.
  intros (Hdir & Hfresh & Hnt & Hnr & Hroom) [Hterrain Hcities] Htexts.
  destruct texts as [[text1 text2] text3].
  destruct (input_texts_inv _ _ _ _ _ Htexts) as (H1 & H2 & H3).
  unfold splat_report_values, OS.TemporaryDirectory.
  rewrite mkdtemp_chosen, Hdir.
  rewrite (inputs_opened dir t r fs _ Hfresh Hnt Hnr Hroom).
  unfold OS.bindM, OS.lift, OS.write.
  rewrite H1, H2, H3.
  unfold OS.subprocess_run, effective_timeout.
  assert (Hplain :
    List.existsb OS.has_nul
      (dir :: ["splat"; "-metric"; "-s"; cities_filepath; "-d"; terrain_folder;
               "-t"; OS.joinpath dir (transmitter_qth_name t);
               "-r"; OS.joinpath dir (receiver_qth_name r)]) = false).
  { apply command_line_plain;
      [exact (proj1 Hroom)|exact Hcities|exact Hterrain| |];
      apply file_name_ok; try reflexivity; assumption. }
  rewrite Hplain.
  unfold staged, splat_args, report_path.
  match goal with
  | |- context [splat ?a ?c ?tm ?f] => destruct (splat a c tm f) as [c' fs']
  end.
  unfold outcome.
  destruct c' as [[|rc|rc]| | |]; try reflexivity.
  rewrite (read_keeps _ fs').
  destruct (fst (OS.read (OS.joinpath dir (report_filename t r)) fs'));
    reflexivity.
Qed.

Lemma report_path_plain (dir : string) (t : Transmitter.Transmitter)
    (r : Receiver.Receiver) :
  OS.has_nul dir = false ->
  file_name_part (Transmitter.name t) -> file_name_part (Receiver.name r) ->
  OS.has_nul (report_path dir t r) = false.
Proof.
  intros Hd Ht Hr. unfold report_path, report_filename.
  apply joinpath_plain; [exact Hd|].
  rewrite !has_nul_app, (proj2 (file_name_part_inv _ Ht)),
    (proj2 (file_name_part_inv _ Hr)).
  reflexivity.
Qed.

(** C6. Whatever the external program does and however the invocation
    ends, nothing is left of the temporary workspace afterwards; and when
    the inputs can be written (the site names can be parts of a file name,
    the paths are within the limits of the system, the projections return),
    the command line holds no NUL, and the external program, started on
    these inputs, does not complete within the timeout (2 unless the caller
    chooses another), the invocation fails with TimeoutExpired. *)
Theorem C6_timeout_and_cleanup (splat : OS.program) (tmp_names : list string)
    (terrain_folder cities_filepath : string)
    (transmitter : Transmitter.Transmitter) (receiver : Receiver.Receiver)
    (timeout : option Z) (fs : OS.filesystem) (dir : string)
    (texts : string * string * string) :
  chosen tmp_names fs = Some dir ->
  let out := splat_report_values splat tmp_names terrain_folder cities_filepath
               transmitter receiver timeout fs in
  removed dir (snd out) /\
  (removed dir fs ->
   file_name_part (Transmitter.name transmitter) ->
   file_name_part (Receiver.name receiver) ->
   roomy dir transmitter receiver ->
   OS.has_nul terrain_folder = false -> OS.has_nul cities_filepath = false ->
   input_texts transmitter receiver = Ok texts ->
   fst (splat (splat_args cities_filepath terrain_folder dir transmitter receiver)
          dir (effective_timeout timeout)
          (staged dir transmitter receiver texts fs))
   = OS.TimedOut ->
   fst out = Raise TimeoutExpired).
Proof.
  intros Hdir out. split.
  - apply TemporaryDirectory_removed. exact Hdir.
  - intros Hfresh Hnt Hnr Hroom Hterrain Hcities Htexts Hrun. subst out.
    rewrite (pipeline_run splat tmp_names terrain_folder cities_filepath
               transmitter receiver timeout fs dir texts);
      [|exact (conj Hdir (conj Hfresh (conj Hnt (conj Hnr Hroom))))
       |split; assumption|exact Htexts].
    destruct (splat _ dir (effective_timeout timeout) _) as [c fs'].
    cbn [fst] in Hrun. rewrite Hrun. reflexivity.
Qed.

Lemma C6_timeout_and_cleanup_witness :
  let out := splat_report_values splat_hangs drawn_names "/srv/terrain"
               "/srv/cities.dat" menesble bure None tmp_only in
  removed "/tmp/tmpk3x9q2ab" (snd out) /\ fst out = Raise TimeoutExpired.
Proof.
  intros out.
  destruct (C6_timeout_and_cleanup splat_hangs drawn_names "/srv/terrain"
              "/srv/cities.dat" menesble bure None tmp_only
              "/tmp/tmpk3x9q2ab"
              (Str.join newline (qth_lines menesble_qth),
               Str.join newline (lrp_lines menesble_lrp),
               Str.join newline (qth_lines bure_qth))
              eq_refl) as [Hrm Hto].
  split; [exact Hrm|]. apply Hto.
  - intros p Hp. unfold tmp_only.
    destruct (String.eqb_spec p "/tmp") as [->|_]; [discriminate Hp|reflexivity].
  - reflexivity.
  - reflexivity.
  - split; vm_compute; reflexivity.
  - reflexivity.
  - reflexivity.
  - vm_compute. reflexivity.
  - reflexivity.
Defined.

(** The four ways out, each on the world [tmp_only]: the values of the
    report, the failure of the tool, the timeout, the report that cannot be
    read; the workspace is gone after each. *)
Lemma exit_paths :
  let run splat :=
    splat_report_values splat drawn_names "/srv/terrain" "/srv/cities.dat"
      menesble bure None tmp_only in
  fst (run (splat_writes sample_report))
  = Ok (Fin false 10455 (-2), Fin false 14182 (-2), Fin false 4253 (-2)) /\
  fst (run splat_fails) = Raise (CalledProcessError 1) /\
  fst (run splat_hangs) = Raise TimeoutExpired /\
  fst (run (splat_writes "Segmentation fault"))
  = Raise (SplatReportException "Segmentation fault") /\
  (forall splat, removed "/tmp/tmpk3x9q2ab" (snd (run splat))).
Proof.
  intros run. split; [|split; [|split; [|split]]].
  - vm_compute. reflexivity.
  - vm_compute. reflexivity.
  - vm_compute. reflexivity.
  - vm_compute. reflexivity.
  - intros splat. subst run. cbv beta. unfold splat_report_values.
    apply (TemporaryDirectory_removed drawn_names _ tmp_only "/tmp/tmpk3x9q2ab").
    reflexivity.
Qed.

End Pipeline.

(** ** C2, C3, C10: the report *)

Section ReportParser.

Import Dec PySplat Report Examples.

Lemma compile_report_pattern : Re.compile REPORT_PATTERN = Some report_code.
Proof. vm_compute. reflexivity. Qed.

Lemma match_at_star (cs : Re.cset) (p : list Re.instr) (s : string) (st : Re.mstate) :
  Re.match_at (Re.Star cs :: p) s st
  = match s with
    | String c s' =>
        if Re.cmatch cs c then
          match Re.match_at (Re.Star cs :: p) s' (Re.push c st) with
          | Some r => Some r
          | None => Re.match_at p s st
          end
        else Re.match_at p s st
    | EmptyString => Re.match_at p s st
    end.
Proof. destruct s; reflexivity. Qed.

Lemma match_at_lazy (cs : Re.cset) (p : list Re.instr) (s : string) (st : Re.mstate) :
  Re.match_at (Re.LazyStar cs :: p) s st
  = match Re.match_at p s st with
    | Some r => Some r
    | None =>
        match s with
        | String c s' =>
            if Re.cmatch cs c
            then Re.match_at (Re.LazyStar cs :: p) s' (Re.push c st)
            else None
        | EmptyString => None
        end
    end.
Proof. destruct s; reflexivity. Qed.

(** A successful match consumed a prefix of the text that the code
    matches. *)
Lemma match_at_sound (prog : list Re.instr) :
  forall s st st',
    Re.match_at prog s st = Some st' ->
    exists w rest, s = w ++ rest /\ Re.run prog w st st'.
Proof.
  induction prog as [|i p IH]; intros s st st' H.
  - cbn in H. injection H as <-. exists EmptyString, s. split; [reflexivity|constructor].
  - destruct i as [cs|cs|cs| |].
    + cbn [Re.match_at] in H. destruct s as [|c s]; [discriminate|].
      destruct (Re.cmatch cs c) eqn:Hc; [|discriminate].
      destruct (IH _ _ _ H) as (w & rest & -> & Hrun).
      exists (String c w), rest. split; [reflexivity|]. constructor; assumption.
    + revert st H. induction s as [|c s IHs]; intros st H; rewrite match_at_star in H.
      * destruct (IH _ _ _ H) as (w & rest & Hs & Hrun).
        exists w, rest. split; [exact Hs|]. apply Re.run_star_done. exact Hrun.
      * destruct (Re.cmatch cs c) eqn:Hc.
        -- destruct (Re.match_at (Re.Star cs :: p) s (Re.push c st)) as [r|] eqn:Hm.
           ++ injection H as <-.
              destruct (IHs _ Hm) as (w & rest & -> & Hrun).
              exists (String c w), rest. split; [reflexivity|].
              apply Re.run_star_more; assumption.
           ++ destruct (IH _ _ _ H) as (w & rest & Hs & Hrun).
              exists w, rest. split; [exact Hs|]. apply Re.run_star_done. exact Hrun.
        -- destruct (IH _ _ _ H) as (w & rest & Hs & Hrun).
           exists w, rest. split; [exact Hs|]. apply Re.run_star_done. exact Hrun.
    + revert st H. induction s as [|c s IHs]; intros st H; rewrite match_at_lazy in H.
      * destruct (Re.match_at p EmptyString st) as [r|] eqn:Hm; [|discriminate].
        injection H as <-.
        destruct (IH _ _ _ Hm) as (w & rest & Hs & Hrun).
        exists w, rest. split; [exact Hs|]. apply Re.run_lazy_done. exact Hrun.
      * destruct (Re.match_at p (String c s) st) as [r|] eqn:Hm.
        -- injection H as <-.
           destruct (IH _ _ _ Hm) as (w & rest & Hs & Hrun).
           exists w, rest. split; [exact Hs|]. apply Re.run_lazy_done. exact Hrun.
        -- destruct (Re.cmatch cs c) eqn:Hc; [|discriminate].
           destruct (IHs _ H) as (w & rest & -> & Hrun).
           exists (String c w), rest. split; [reflexivity|].
           apply Re.run_lazy_more; assumption.
    + cbn [Re.match_at] in H. destruct (IH _ _ _ H) as (w & rest & Hs & Hrun).
      exists w, rest. split; [exact Hs|]. constructor. exact Hrun.
    + cbn [Re.match_at] in H. destruct (IH _ _ _ H) as (w & rest & Hs & Hrun).
      exists w, rest. split; [exact Hs|]. constructor. exact Hrun.
Qed.

Lemma search_sound (prog : list Re.instr) :
  forall s gs,
    Re.search prog s = Some gs ->
    exists pre w rest st',
      s = pre ++ w ++ rest /\ Re.run prog w Re.init st' /\
      gs = List.rev (Re.closed st').
Proof.
  induction s as [|c s IHs]; intros gs H; cbn [Re.search] in H.
  - destruct (Re.match_at prog EmptyString Re.init) as [st'|] eqn:Hm; [|discriminate].
    injection H as <-. destruct (match_at_sound _ _ _ _ Hm) as (w & rest & Hs & Hrun).
    exists EmptyString, w, rest, st'. repeat split; assumption.
  - destruct (Re.match_at prog (String c s) Re.init) as [st'|] eqn:Hm.
    + injection H as <-. destruct (match_at_sound _ _ _ _ Hm) as (w & rest & Hs & Hrun).
      exists EmptyString, w, rest, st'. repeat split; assumption.
    + destruct (IHs _ H) as (pre & w & rest & st' & -> & Hrun & Hgs).
      exists (String c pre), w, rest, st'. repeat split; assumption.
Qed.

(** *** Reading a run back *)

Lemma push_all_closed (w : string) :
  forall st, Re.opened st = None -> Re.push_all w st = st.
Proof.
  induction w as [|c w IH]; intros st Hst; cbn [Re.push_all]; [reflexivity|].
  assert (Hp : Re.push c st = st) by (unfold Re.push; rewrite Hst; reflexivity).
  rewrite Hp. apply IH. exact Hst.
Qed.

Lemma push_all_opened (w : string) :
  forall cl g,
    Re.push_all w {| Re.closed := cl; Re.opened := Some g |}
    = {| Re.closed := cl; Re.opened := Some (Str.rev_onto w g) |}.
Proof.
  induction w as [|c w IH]; intros cl g; cbn [Re.push_all Str.rev_onto]; [reflexivity|].
  unfold Re.push. cbn [Re.opened Re.closed]. apply IH.
Qed.

Lemma rev_onto_rev_onto (b : string) :
  forall acc out,
    Str.rev_onto (Str.rev_onto b acc) out = Str.rev_onto acc (b ++ out).
Proof.
  induction b as [|c b IH]; intros acc out; cbn [Str.rev_onto String.append];
    [reflexivity|].
  rewrite IH. reflexivity.
Qed.

Lemma run_chr_inv (cs : Re.cset) (p : list Re.instr) (w : string) (st st' : Re.mstate) :
  Re.run (Re.Chr cs :: p) w st st' ->
  exists c w', w = String c w' /\ Re.cmatch cs c = true /\ Re.run p w' (Re.push c st) st'.
Proof. intros H. inversion H; subst. eauto. Qed.

Lemma run_lits_inv (text : string) :
  forall p w st st',
    Re.run (Re.lits text ++ p) w st st' ->
    exists w', w = text ++ w' /\ Re.run p w' (Re.push_all text st) st'.
Proof.
  induction text as [|c text IH]; intros p w st st' H; cbn [Re.lits app] in H.
  - exists w. split; [reflexivity|exact H].
  - apply run_chr_inv in H as (c' & w' & -> & Hc & H).
    cbn [Re.cmatch] in Hc. apply Ascii.eqb_eq in Hc. subst c'.
    destruct (IH _ _ _ _ H) as (w'' & -> & H').
    exists w''. split; [reflexivity|exact H'].
Qed.

Lemma run_star_inv (cs : Re.cset) (p : list Re.instr) (w : string) (st st' : Re.mstate) :
  Re.run (Re.Star cs :: p) w st st' ->
  exists a w',
    w = a ++ w' /\ Str.forallb (Re.cmatch cs) a = true /\
    Re.run p w' (Re.push_all a st) st'.
Proof.
  intros H. remember (Re.Star cs :: p) as prog eqn:E.
  induction H; try discriminate; injection E as -> ->.
  - exists EmptyString, w. repeat split. exact H.
  - destruct (IHrun eq_refl) as (a & w' & -> & Ha & Hrun).
    exists (String c a), w'. cbn. rewrite H, Ha. repeat split. exact Hrun.
Qed.

Lemma run_lazy_inv (cs : Re.cset) (p : list Re.instr) (w : string) (st st' : Re.mstate) :
  Re.run (Re.LazyStar cs :: p) w st st' ->
  exists a w',
    w = a ++ w' /\ Str.forallb (Re.cmatch cs) a = true /\
    Re.run p w' (Re.push_all a st) st'.
Proof.
  intros H. remember (Re.LazyStar cs :: p) as prog eqn:E.
  induction H; try discriminate; injection E as -> ->.
  - exists EmptyString, w. repeat split. exact H.
  - destruct (IHrun eq_refl) as (a & w' & -> & Ha & Hrun).
    exists (String c a), w'. cbn. rewrite H, Ha. repeat split. exact Hrun.
Qed.

(** One group: it takes a numeral and leaves it as the last group. *)
Lemma run_group_inv (p : list Re.instr) (w : string) (cl : list string)
    (st' : Re.mstate) :
  Re.run (number_group ++ p) w {| Re.closed := cl; Re.opened := None |} st' ->
  exists g w',
    w = g ++ w' /\ numeral g /\
    Re.run p w' {| Re.closed := g :: cl; Re.opened := None |} st'.
Proof.
  unfold number_group. cbn [app]. intros H.
  inversion H as [|? ? ? ? H1| | | | | |]; subst. clear H.
  unfold Re.open_group in H1. cbn [Re.closed] in H1.
  apply run_star_inv in H1 as (a & w1 & -> & Ha & H1).
  rewrite push_all_opened in H1.
  apply run_chr_inv in H1 as (c & w2 & -> & Hc & H1).
  cbn [Re.cmatch] in Hc. apply Ascii.eqb_eq in Hc. subst c.
  unfold Re.push in H1. cbn [Re.opened Re.closed] in H1.
  apply run_star_inv in H1 as (b & w3 & -> & Hb & H1).
  rewrite push_all_opened in H1.
  inversion H1 as [| |? ? ? ? H2| | | | |]; subst. clear H1.
  unfold Re.close_group in H2. cbn [Re.opened Re.closed] in H2.
  unfold Str.rev in H2. rewrite rev_onto_rev_onto in H2.
  cbn [Str.rev_onto] in H2. rewrite rev_onto_rev_onto in H2.
  cbn [Str.rev_onto] in H2. rewrite append_nil_r in H2.
  exists (a ++ "." ++ b), w3. split.
  - rewrite !append_assoc. reflexivity.
  - split; [|exact H2]. exists a, b. repeat split; assumption.
Qed.

Ltac closed_state H :=
  rewrite push_all_closed in H by reflexivity.

Lemma report_code_run (w : string) (st' : Re.mstate) :
  Re.run report_code w Re.init st' ->
  exists g1 g2 g3 mid1 c mid2,
    w = "Free space path loss: " ++ g1 ++ " dB" ++ mid1
        ++ "ITWOM Version 3" ++ String c ("0 path loss: " ++ g2 ++ " dB"
        ++ mid2 ++ g3 ++ " dBuV/meter") /\
    numeral g1 /\ numeral g2 /\ numeral g3 /\
    Re.closed st' = [g3; g2; g1].
Proof.
  unfold report_code, Re.init. intros H.
  apply run_lits_inv in H as (w1 & -> & H). closed_state H.
  apply run_group_inv in H as (g1 & w2 & -> & Hg1 & H).
  apply run_lits_inv in H as (w3 & -> & H). closed_state H.
  cbn [app] in H.
  apply run_lazy_inv in H as (mid1 & w4 & -> & _ & H). closed_state H.
  apply run_lits_inv in H as (w5 & -> & H). closed_state H.
  cbn [app] in H.
  apply run_chr_inv in H as (c & w6 & -> & _ & H).
  unfold Re.push in H. cbn [Re.opened] in H.
  apply run_lits_inv in H as (w7 & -> & H). closed_state H.
  apply run_group_inv in H as (g2 & w8 & -> & Hg2 & H).
  apply run_lits_inv in H as (w9 & -> & H). closed_state H.
  cbn [app] in H.
  apply run_lazy_inv in H as (mid2 & w10 & -> & _ & H). closed_state H.
  apply run_group_inv in H as (g3 & w11 & -> & Hg3 & H).
  rewrite <- (app_nil_r (Re.lits " dBuV/meter")) in H.
  apply run_lits_inv in H as (w12 & -> & H). closed_state H.
  inversion H; subst.
  exists g1, g2, g3, mid1, c, mid2.
  split; [|repeat split; assumption].
  rewrite append_nil_r. reflexivity.
Qed.

(** Whatever the search finds is three numerals, located in the text in
    the order of the pattern. *)
Lemma search_located (text : string) (gs : list string) :
  Re.search report_code text = Some gs ->
  exists c g1 g2 g3, gs = [g1; g2; g3] /\ located c text g1 g2 g3.
Proof.
  intros H.
  destruct (search_sound _ _ _ H) as (pre & w & post & st' & -> & Hrun & ->).
  destruct (report_code_run _ _ Hrun)
    as (g1 & g2 & g3 & mid1 & c & mid2 & -> & Hg1 & Hg2 & Hg3 & Hcl).
  exists c, g1, g2, g3. rewrite Hcl. split; [reflexivity|].
  exists pre, mid1, mid2, post. split; [|repeat split; assumption].
  repeat (progress (rewrite ?append_assoc; cbn [String.append])).
  reflexivity.
Qed.

(** *** [Decimal] of a numeral *)

Lemma rev_involutive (s : string) : Str.rev (Str.rev s) = s.
Proof.
  unfold Str.rev. rewrite rev_onto_rev_onto. cbn [Str.rev_onto].
  apply append_nil_r.
Qed.

Lemma forallb_rev_onto (p : ascii -> bool) (s : string) :
  forall acc,
    Str.forallb p (Str.rev_onto s acc) = Str.forallb p s && Str.forallb p acc.
Proof.
  induction s as [|c s IH]; intros acc; cbn [Str.rev_onto Str.forallb]; [reflexivity|].
  rewrite IH. cbn [Str.forallb]. destruct (p c), (Str.forallb p s); reflexivity.
Qed.

Lemma lstrip_id (s : string) :
  Str.forallb Str.not_blank s = true -> Str.lstrip s = s.
Proof.
  destruct s as [|c s]; cbn; [reflexivity|].
  intros H. apply andb_true_iff in H as [Hc _]. unfold Str.not_blank in Hc.
  apply andb_true_iff in Hc as [Hc _]. apply negb_true_iff in Hc.
  rewrite Hc. reflexivity.
Qed.

Lemma strip_id (s : string) :
  Str.forallb Str.not_blank s = true -> Str.strip s = s.
Proof.
  intros H. unfold Str.strip. rewrite (lstrip_id s H).
  rewrite lstrip_id.
  - apply rev_involutive.
  - unfold Str.rev. rewrite forallb_rev_onto, H. reflexivity.
Qed.

Lemma drop_underscores_id (s : string) :
  Str.forallb Str.not_blank s = true -> Str.drop_underscores s = s.
Proof.
  unfold Str.drop_underscores.
  induction s as [|c s IH]; cbn [Str.filter Str.forallb]; [reflexivity|].
  intros H. apply andb_true_iff in H as [Hc Hs]. unfold Str.not_blank in Hc.
  apply andb_true_iff in Hc as [_ Hc]. rewrite Hc, (IH Hs). reflexivity.
Qed.

Lemma digit_not_blank (c : ascii) : Str.is_digit c = true -> Str.not_blank c = true.
Proof.
  unfold Str.is_digit, Str.not_blank, Str.is_space. intros H.
  apply andb_true_iff in H as [H1 H2].
  apply N.leb_le in H1. apply N.leb_le in H2.
  assert (Hu : Ascii.eqb c "_" = false).
  { apply Ascii.eqb_neq. intros ->. cbn in H2. lia. }
  rewrite Hu. cbn [negb andb].
  set (n := N_of_ascii c) in *.
  destruct (N.leb_spec 9 n), (N.leb_spec n 13), (N.leb_spec 28 n),
    (N.leb_spec n 32), (N.eqb_spec n 133), (N.eqb_spec n 160); cbn; try reflexivity; lia.
Qed.

Lemma digits_not_blank (s : string) :
  Str.forallb Str.is_digit s = true -> Str.forallb Str.not_blank s = true.
Proof.
  induction s as [|c s IH]; cbn; [reflexivity|].
  intros H. apply andb_true_iff in H as [Hc Hs].
  rewrite (digit_not_blank c Hc), (IH Hs). reflexivity.
Qed.

Lemma span_digits_app (a : string) (r : string) :
  Str.forallb Str.is_digit a = true ->
  (match r with String c _ => Str.is_digit c = false | EmptyString => True end) ->
  Str.span_digits (a ++ r) = (a, r).
Proof.
  intros Ha Hr. induction a as [|c a IH]; cbn [String.append].
  - destruct r as [|c r]; cbn [Str.span_digits]; [reflexivity|].
    rewrite Hr. reflexivity.
  - cbn [Str.forallb] in Ha. apply andb_true_iff in Ha as [Hc Has].
    cbn [Str.span_digits]. rewrite Hc, (IH Has). reflexivity.
Qed.

(** [Decimal] reads a numeral as its digits, scaled by those after the
    point; the bare point is no number. *)
Lemma of_string_numeral (a b : string) :
  Str.forallb Str.is_digit a = true -> Str.forallb Str.is_digit b = true ->
  of_string (a ++ "." ++ b)
  = match a ++ b with
    | EmptyString => Raise InvalidOperation
    | _ => Ok (Fin false (Str.int_of_digits (a ++ b))
                 (- Z.of_nat (String.length b)))
    end.
Proof.
  intros Ha Hb.
  assert (Hnb : Str.forallb Str.not_blank (a ++ "." ++ b) = true).
  { rewrite !forallb_app, (digits_not_blank a Ha), (digits_not_blank b Hb).
    reflexivity. }
  unfold of_string. rewrite (strip_id _ Hnb), (drop_underscores_id _ Hnb).
  assert (Hspan : Str.span_digits (a ++ "." ++ b) = (a, "." ++ b)).
  { apply span_digits_app; [exact Ha|reflexivity]. }
  assert (Hspanb : Str.span_digits b = (b, EmptyString)).
  { rewrite <- (append_nil_r b) at 1. apply span_digits_app; [exact Hb|exact I]. }
  destruct a as [|x a].
  - cbn [String.append] in *.
    destruct b as [|y b].
    + reflexivity.
    + cbn [Str.forallb] in Hb. apply andb_true_iff in Hb as [Hy Hb].
      cbv zeta. cbv beta iota.
      assert (Hst : starts_number (String "." (String y b)) = true).
      { cbn [starts_number]. rewrite Hy. reflexivity. }
      rewrite Hst. unfold parse_number. rewrite Hspan.
      cbn [String.append]. rewrite Hspanb. cbn [parse_exp]. reflexivity.
  - cbn [Str.forallb] in Ha. apply andb_true_iff in Ha as [Hx Ha].
    assert (Hsign : forall T (k1 k2 : string -> T) (k3 : T),
              match String x (a ++ "." ++ b) with
              | String "-" r => k1 r
              | String "+" r => k2 r
              | _ => k3
              end = k3).
    { intros T k1 k2 k3.
      assert (Hm : x <> "-"%char) by (intros ->; discriminate Hx).
      assert (Hp : x <> "+"%char) by (intros ->; discriminate Hx).
      destruct x as [[] [] [] [] [] [] [] []]; try reflexivity; congruence. }
    cbn [String.append]. rewrite Hsign. cbv beta iota zeta.
    assert (Hst : starts_number (String x (a ++ "." ++ b)) = true).
    { cbn [starts_number]. destruct (a ++ "." ++ b); rewrite Hx; reflexivity. }
    change ("." ++ b) with (String "." b) in *.
    rewrite Hst. unfold parse_number.
    change (String x (a ++ String "." b)) with (String x a ++ String "." b).
    rewrite Hspan. rewrite Hspanb. cbn [parse_exp].
    reflexivity.
Qed.

(** *** The parser *)

Lemma report_values_unfold (text : string) :
  report_values text
  = match Re.search report_code text with
    | Some [g1; g2; g3] =>
        d1 <- of_string g1 ;; d2 <- of_string g2 ;; d3 <- of_string g3 ;;
        Ok (d1, d2, d3)
    | _ => Raise (SplatReportException text)
    end.
Proof. unfold report_values. rewrite compile_report_pattern. reflexivity. Qed.

(** A report that is parsed holds the three numerals, and the values
    returned are those that [Decimal] reads from them. *)
Lemma report_values_ok (text : string) (d1 d2 d3 : Decimal) :
  report_values text = Ok (d1, d2, d3) ->
  exists c g1 g2 g3,
    located c text g1 g2 g3 /\
    of_string g1 = Ok d1 /\ of_string g2 = Ok d2 /\ of_string g3 = Ok d3.
Proof.
  rewrite report_values_unfold. intros H.
  destruct (Re.search report_code text) as [gs|] eqn:Hs; [|discriminate].
  destruct (search_located _ _ Hs) as (c & g1 & g2 & g3 & -> & Hloc).
  exists c, g1, g2, g3. split; [exact Hloc|].
  destruct (of_string g1) as [x1|]; [|discriminate].
  destruct (of_string g2) as [x2|]; [|discriminate].
  destruct (of_string g3) as [x3|]; [|discriminate].
  cbn [bind] in H. injection H as -> -> ->. repeat split.
Qed.

(** When the three numerals are not there the parser raises, and the
    exception carries the text. *)
Lemma report_not_located (text : string) :
  (forall c g1 g2 g3, ~ located c text g1 g2 g3) ->
  report_values text = Raise (SplatReportException text).
Proof.
  intros Hno. rewrite report_values_unfold.
  destruct (Re.search report_code text) as [gs|] eqn:Hs; [|reflexivity].
  destruct (search_located _ _ Hs) as (c & g1 & g2 & g3 & -> & Hloc).
  destruct (Hno _ _ _ _ Hloc).
Qed.

(** The parser returns three values or raises: with the text when the
    search fails, with InvalidOperation when a group is a bare point. *)
Lemma report_values_raises (text : string) (e : exn) :
  report_values text = Raise e ->
  e = SplatReportException text \/ e = InvalidOperation.
Proof.
  rewrite report_values_unfold. intros H.
  destruct (Re.search report_code text) as [[|g1 [|g2 [|g3 [|g4 gs]]]]|];
    try (left; congruence).
  right.
  destruct (of_string g1) as [x1|e1] eqn:E1;
    [|cbn [bind] in H; injection H as <-; exact (of_string_raises _ _ E1)].
  destruct (of_string g2) as [x2|e2] eqn:E2;
    [|cbn [bind] in H; injection H as <-; exact (of_string_raises _ _ E2)].
  destruct (of_string g3) as [x3|e3] eqn:E3;
    [|cbn [bind] in H; injection H as <-; exact (of_string_raises _ _ E3)].
  discriminate H.
Qed.

Lemma numeral_has_point (g : string) : numeral g -> contains g ".".
Proof. intros (a & b & -> & _). exists a, b. reflexivity. Qed.

Lemma occurs_complete (part text : string) :
  contains text part -> occurs part text = true.
Proof.
  intros (pre & post & ->). induction pre as [|c pre IH].
  - cbn [String.append]. destruct (part ++ post) eqn:E; cbn [occurs];
      rewrite <- E, prefix_append; reflexivity.
  - cbn [String.append occurs]. rewrite IH. apply orb_true_r.
Qed.

Lemma not_numeral (g : string) : occurs "." g = false -> ~ numeral g.
Proof.
  intros H Hn. apply numeral_has_point, occurs_complete in Hn. congruence.
Qed.

(** C10. A report is parsed only when each of the three quantities is a
    numeral with a literal point (digits, a point, digits, either run of
    digits possibly empty), and the values are those [Decimal] reads from
    the numerals; when the numerals are not there the parser raises the
    exception that carries the text. A quantity printed as a plain integer,
    such as 104, is no numeral: the reports that print the free-space loss,
    the ITWOM loss or the field strength so are not parsed. *)
Theorem C10_quantities_need_a_point (text : string) :
  (forall d1 d2 d3,
     report_values text = Ok (d1, d2, d3) ->
     exists c g1 g2 g3,
       located c text g1 g2 g3 /\
       of_string g1 = Ok d1 /\ of_string g2 = Ok d2 /\ of_string g3 = Ok d3) /\
  ((forall c g1 g2 g3, ~ located c text g1 g2 g3) ->
   report_values text = Raise (SplatReportException text)) /\
  (forall g, numeral g -> contains g ".") /\
  (forall a b,
     Str.forallb Str.is_digit a = true -> Str.forallb Str.is_digit b = true ->
     of_string (a ++ "." ++ b)
     = match a ++ b with
       | EmptyString => Raise InvalidOperation
       | _ => Ok (Fin false (Str.int_of_digits (a ++ b))
                    (- Z.of_nat (String.length b)))
       end) /\
  ~ numeral "104" /\
  report_values report_integer_loss
  = Raise (SplatReportException report_integer_loss) /\
  report_values report_integer_itwom
  = Raise (SplatReportException report_integer_itwom) /\
  report_values report_integer_field
  = Raise (SplatReportException report_integer_field).
Proof.
  split; [intros d1 d2 d3; apply report_values_ok|].
  split; [apply report_not_located|].
  split; [apply numeral_has_point|].
  split; [apply of_string_numeral|].
  split; [apply not_numeral; reflexivity|].
  split; [vm_compute; reflexivity|].
  split; vm_compute; reflexivity.
Qed.

Lemma C10_quantities_need_a_point_witness :
  exists c g1 g2 g3,
    located c sample_report g1 g2 g3 /\
    of_string g1 = Ok (Fin false 10455 (-2)) /\
    of_string g2 = Ok (Fin false 14182 (-2)) /\
    of_string g3 = Ok (Fin false 4253 (-2)).
Proof.
  apply (proj1 (C10_quantities_need_a_point sample_report)).
  vm_compute. reflexivity.
Defined.

Lemma located_bare_point :
  located "." report_bare_point "104.55" "141.82" "42.53".
Proof.
  exists ("Free space path loss: . dB" ++ newline), newline,
    (newline ++ "Field strength at Bure: "), EmptyString.
  split; [vm_compute; reflexivity|].
  split; [|split].
  - exists "104", "55". repeat split.
  - exists "141", "82". repeat split.
  - exists "42", "53". repeat split.
Qed.

Lemma located_two_versions :
  located "." report_two_versions "104.55" "141.82" "42.53".
Proof.
  exists EmptyString, (newline ++ "ITWOM Version 3,0 path loss: 99.99 dB" ++ newline),
    (newline ++ "Field strength at Bure: "), EmptyString.
  split; [vm_compute; reflexivity|].
  split; [|split].
  - exists "104", "55". repeat split.
  - exists "141", "82". repeat split.
  - exists "42", "53". repeat split.
Qed.

(** C2 fails on the code. In [report_bare_point] the three patterns stand
    in the order of the document, with the decimals 104.55, 141.82 and
    42.53, and the parser raises InvalidOperation: the search stops at the
    loss line that holds a bare point, which the pattern takes and
    [Decimal] refuses. In [report_two_versions] they stand likewise, and
    the parser returns 99.99 for the second: the unescaped point of [3.0]
    takes the comma of [3,0]. *)
Theorem C2_located_but_not_returned :
  located "." report_bare_point "104.55" "141.82" "42.53" /\
  report_values report_bare_point = Raise InvalidOperation /\
  located "." report_two_versions "104.55" "141.82" "42.53" /\
  report_values report_two_versions
  = Ok (Fin false 10455 (-2), Fin false 9999 (-2), Fin false 4253 (-2)).
Proof.
  split; [exact located_bare_point|].
  split; [vm_compute; reflexivity|].
  split; [exact located_two_versions|].
  vm_compute. reflexivity.
Qed.

(** C3 fails on the code. [report_other_version] does not hold the text
    [ITWOM Version 3.0 path loss: ] at all, so the second pattern cannot be
    located, and the parser returns three values instead of raising. *)
Theorem C3_not_located_but_returned :
  ~ contains report_other_version "ITWOM Version 3.0 path loss: " /\
  report_values report_other_version
  = Ok (Fin false 10455 (-2), Fin false 14182 (-2), Fin false 4253 (-2)).
Proof.
  split; [|vm_compute; reflexivity].
  intros H. apply occurs_complete in H. vm_compute in H. discriminate H.
Qed.

(** What does hold of the error path: when the search fails the exception
    carries the text, as for the report without its third quantity. *)
Lemma report_without_field_raises :
  report_values report_without_field
  = Raise (SplatReportException report_without_field).
Proof. vm_compute. reflexivity. Qed.

End ReportParser.

(** ** C4: a float through its string *)

Section FloatStrings.

Import Dec PySplat Validation Repr Examples.

(** *** Digits of a number, written and read *)

Lemma digits_onto_acc (fuel : nat) :
  forall n acc, Str.digits_onto fuel n acc
                = Str.digits_onto fuel n EmptyString ++ acc.
Proof.
  induction fuel as [|fuel IH]; intros n acc; cbn [Str.digits_onto].
  - reflexivity.
  - destruct (n <? 10)%N; [reflexivity|].
    rewrite (IH _ (String _ acc)), (IH _ (String _ EmptyString)).
    rewrite append_assoc. reflexivity.
Qed.

Lemma digits_onto_fuel (f1 : nat) :
  forall f2 n acc,
    (n < 2 ^ N.of_nat (S f1))%N -> (n < 2 ^ N.of_nat (S f2))%N ->
    Str.digits_onto f1 n acc = Str.digits_onto f2 n acc.
Proof.
  induction f1 as [|f1 IH]; intros [|f2] n acc H1 H2; cbn [Str.digits_onto].
  - reflexivity.
  - change (2 ^ N.of_nat 1)%N with 2%N in H1.
    destruct (N.ltb_spec n 10); [reflexivity|lia].
  - change (2 ^ N.of_nat 1)%N with 2%N in H2.
    destruct (N.ltb_spec n 10); [reflexivity|lia].
  - destruct (N.ltb_spec n 10); [reflexivity|].
    apply IH.
    + rewrite Nat2N.inj_succ, N.pow_succ_r' in H1. rewrite Nat2N.inj_succ in *. lia.
    + rewrite Nat2N.inj_succ, N.pow_succ_r' in H2. rewrite Nat2N.inj_succ in *. lia.
Qed.

Lemma log2_fuel (n : N) : (n < 2 ^ N.of_nat (S (N.to_nat (N.log2 n))))%N.
Proof.
  rewrite Nat2N.inj_succ, N2Nat.id.
  destruct n as [|p]; [reflexivity|].
  apply N.log2_spec. reflexivity.
Qed.

Lemma of_N_digit (d : N) :
  (d < 10)%N -> Str.of_N d = String (Str.digit_chr d) EmptyString.
Proof.
  intros H. unfold Str.of_N.
  destruct (N.to_nat (N.log2 d)); cbn [Str.digits_onto].
  - rewrite N.mod_small by exact H. reflexivity.
  - destruct (N.ltb_spec d 10); [|lia].
    rewrite N.mod_small by exact H. reflexivity.
Qed.

Lemma of_N_snoc (n d : N) :
  (1 <= n)%N -> (d < 10)%N ->
  Str.of_N (10 * n + d) = Str.of_N n ++ String (Str.digit_chr d) EmptyString.
Proof.
  intros Hn Hd. unfold Str.of_N.
  set (l := N.to_nat (N.log2 n)).
  assert (Hl : (n < 2 * 2 ^ N.of_nat l)%N).
  { pose proof (log2_fuel n) as H. fold l in H.
    rewrite Nat2N.inj_succ, N.pow_succ_r' in H. exact H. }
  assert (Hpos : (0 < 2 ^ N.of_nat l)%N) by (apply N.neq_0_lt_0, N.pow_nonzero; discriminate).
  rewrite (digits_onto_fuel _ (S (S (S (S l)))) _ _ (log2_fuel _)).
  - remember (S (S (S l))) as f eqn:Ef. cbn [Str.digits_onto]. subst f.
    destruct (N.ltb_spec (10 * n + d) 10); [lia|].
    replace ((10 * n + d) / 10)%N with n by lia.
    replace ((10 * n + d) mod 10)%N with d by lia.
    rewrite digits_onto_acc. f_equal.
    apply digits_onto_fuel.
    + rewrite !Nat2N.inj_succ, !N.pow_succ_r'. lia.
    + rewrite Nat2N.inj_succ, N.pow_succ_r'. exact Hl.
  - rewrite !Nat2N.inj_succ, !N.pow_succ_r'. lia.
Qed.

Lemma digit_chr_val (c : ascii) :
  Str.is_digit c = true -> Str.digit_chr (Str.digit_val c) = c.
Proof.
  intros H. unfold Str.is_digit in H. cbv zeta in H.
  apply andb_true_iff in H as [H1 H2].
  apply N.leb_le in H1, H2.
  unfold Str.digit_chr, Str.digit_val.
  replace (48 + (N_of_ascii c - 48))%N with (N_of_ascii c) by lia.
  apply ascii_N_embedding.
Qed.

Lemma digit_val_lt (c : ascii) : Str.is_digit c = true -> (Str.digit_val c < 10)%N.
Proof.
  intros H. unfold Str.is_digit in H. cbv zeta in H.
  apply andb_true_iff in H as [H1 H2].
  apply N.leb_le in H1, H2. unfold Str.digit_val. lia.
Qed.

Lemma of_N_int_onto (s : string) :
  Str.forallb Str.is_digit s = true ->
  forall n, (1 <= n)%N -> Str.of_N (Str.int_onto s n) = Str.of_N n ++ s.
Proof.
  induction s as [|c s IH]; intros Hs n Hn.
  - cbn [Str.int_onto]. rewrite append_nil_r. reflexivity.
  - cbn [Str.forallb] in Hs. apply andb_true_iff in Hs as [Hc Hs].
    cbn [Str.int_onto]. rewrite (IH Hs) by lia.
    rewrite of_N_snoc by (try exact Hn; apply digit_val_lt; exact Hc).
    rewrite (digit_chr_val c Hc), append_assoc. reflexivity.
Qed.

(** Digits that do not start with a zero are read and written back as they
    stand. *)
Lemma of_N_int_of_digits (c : ascii) (s : string) :
  Str.forallb Str.is_digit (String c s) = true -> c <> "0"%char ->
  Str.of_N (Str.int_of_digits (String c s)) = String c s.
Proof.
  intros H Hc. cbn [Str.forallb] in H. apply andb_true_iff in H as [Hd Hs].
  change (Str.int_of_digits (String c s)) with (Str.int_onto s (10 * 0 + Str.digit_val c)).
  assert (H1 : (1 <= Str.digit_val c)%N).
  { unfold Str.digit_val.
    assert (N_of_ascii c <> 48%N).
    { intros E. apply Hc. rewrite <- (ascii_N_embedding c), E. reflexivity. }
    unfold Str.is_digit in Hd. cbv zeta in Hd.
    apply andb_true_iff in Hd as [Hd1 Hd2]. apply N.leb_le in Hd1. lia. }
  rewrite N.mul_0_r, N.add_0_l, (of_N_int_onto s Hs) by exact H1.
  rewrite of_N_digit by (apply digit_val_lt; exact Hd).
  rewrite (digit_chr_val c Hd). reflexivity.
Qed.

Lemma zeros_split (s : string) :
  s = Str.repeat "0" (leading_zeros s) ++ Str.drop (leading_zeros s) s.
Proof.
  induction s as [|c s IH]; [reflexivity|].
  cbn [leading_zeros].
  destruct (Ascii.eqb_spec c "0") as [->|Hc].
  - cbn [Str.repeat Str.drop String.append]. rewrite <- IH. reflexivity.
  - assert (E : (match c with "0"%char => S (leading_zeros s) | _ => O end) = O).
    { destruct c as [[] [] [] [] [] [] [] []]; try reflexivity. congruence. }
    change (leading_zeros (String c s)) with
      (match c with "0"%char => S (leading_zeros s) | _ => O end).
    rewrite E. reflexivity.
Qed.

Lemma drop_leading_zeros (s : string) :
  match Str.drop (leading_zeros s) s with
  | String c _ => c <> "0"%char
  | EmptyString => True
  end.
Proof.
  induction s as [|c s IH]; [exact I|].
  destruct (Ascii.eqb_spec c "0") as [->|Hc].
  - exact IH.
  - assert (E : leading_zeros (String c s) = O).
    { cbn [leading_zeros].
      destruct c as [[] [] [] [] [] [] [] []]; try reflexivity. congruence. }
    rewrite E. exact Hc.
Qed.

Lemma int_onto_zeros (k : nat) (s : string) :
  Str.int_onto (Str.repeat "0" k ++ s) 0 = Str.int_onto s 0.
Proof. induction k as [|k IH]; [reflexivity|exact IH]. Qed.

Lemma length_repeat (c : ascii) (k : nat) : String.length (Str.repeat c k) = k.
Proof. induction k as [|k IH]; cbn; [reflexivity|]. rewrite IH. reflexivity. Qed.

Lemma repeat_snoc (c : ascii) (k : nat) :
  Str.repeat c k ++ String c EmptyString = Str.repeat c (S k).
Proof. induction k as [|k IH]; cbn in *; [reflexivity|]. rewrite IH. reflexivity. Qed.

Lemma take_app (a b : string) : Str.take (String.length a) (a ++ b) = a.
Proof.
  induction a as [|x a IH]; cbn.
  - destruct b; reflexivity.
  - rewrite IH. reflexivity.
Qed.

Lemma drop_app (a b : string) : Str.drop (String.length a) (a ++ b) = b.
Proof.
  induction a as [|x a IH]; cbn.
  - destruct b; reflexivity.
  - exact IH.
Qed.

(** *** The string of a decimal written without an exponent *)

Lemma to_string_below_one (sign : bool) (c : N) (k : nat) :
  (Z.of_nat k < 6)%Z ->
  to_string (Fin sign c (- (Z.of_nat k + len_int c)))
  = sign_str sign ++ "0." ++ Str.repeat "0" k ++ Str.of_N c.
Proof.
  intros Hk. pose proof (len_int_pos c) as Hl.
  unfold to_string.
  replace (- (Z.of_nat k + len_int c) + len_int c) with (- Z.of_nat k) by lia.
  destruct (Z.leb_spec (- (Z.of_nat k + len_int c)) 0); [|lia].
  destruct (Z.ltb_spec (-6) (- Z.of_nat k)); [|lia].
  cbn [andb].
  destruct (Z.leb_spec (- Z.of_nat k) 0); [|lia].
  rewrite Z.eqb_refl, Z.opp_involutive, Nat2Z.id, append_nil_r.
  reflexivity.
Qed.

Lemma to_string_above_one (sign : bool) (a b : string) (c : N) :
  Str.of_N c = a ++ b -> a <> EmptyString -> b <> EmptyString ->
  to_string (Fin sign c (- Z.of_nat (String.length b)))
  = sign_str sign ++ a ++ "." ++ b.
Proof.
  intros Hc Ha Hb.
  assert (Hl : len_int c = Z.of_nat (String.length a) + Z.of_nat (String.length b)).
  { unfold len_int. rewrite Hc, append_length. lia. }
  assert (Hla : 0 < Z.of_nat (String.length a)).
  { destruct a; [congruence|cbn; lia]. }
  assert (Hlb : 0 < Z.of_nat (String.length b)).
  { destruct b; [congruence|cbn; lia]. }
  unfold to_string. rewrite Hl, Hc.
  replace (- Z.of_nat (String.length b)
           + (Z.of_nat (String.length a) + Z.of_nat (String.length b)))
    with (Z.of_nat (String.length a)) by lia.
  destruct (Z.leb_spec (- Z.of_nat (String.length b)) 0); [|lia].
  destruct (Z.ltb_spec (-6) (Z.of_nat (String.length a))); [|lia].
  cbn [andb].
  destruct (Z.leb_spec (Z.of_nat (String.length a)) 0); [lia|].
  destruct (Z.leb_spec (Z.of_nat (String.length a) + Z.of_nat (String.length b))
              (Z.of_nat (String.length a))); [lia|].
  rewrite Z.eqb_refl, Nat2Z.id, take_app, drop_app, append_nil_r.
  reflexivity.
Qed.

(** *** Reading what was written *)

Lemma of_string_spell (sign : bool) (a b : string) :
  Str.forallb Str.is_digit a = true -> Str.forallb Str.is_digit b = true ->
  a <> EmptyString ->
  of_string (spell sign a b)
  = Ok (Fin sign (Str.int_of_digits (a ++ b)) (- Z.of_nat (String.length b))).
Proof.
  intros Ha Hb Hne. unfold spell.
  destruct sign.
  - change (sign_str true ++ a ++ "." ++ b) with (String "-" (a ++ "." ++ b)).
    assert (Hnb : Str.forallb Str.not_blank (String "-" (a ++ "." ++ b)) = true).
    { cbn [Str.forallb].
      rewrite !forallb_app, (digits_not_blank a Ha), (digits_not_blank b Hb).
      reflexivity. }
    unfold of_string. rewrite (strip_id _ Hnb), (drop_underscores_id _ Hnb).
    cbv beta iota zeta.
    destruct a as [|x a]; [congruence|].
    cbn [Str.forallb] in Ha. apply andb_true_iff in Ha as [Hx Ha].
    assert (Hst : starts_number (String x a ++ "." ++ b) = true).
    { cbn [String.append starts_number]. rewrite Hx.
      destruct (a ++ String "." b); reflexivity. }
    rewrite Hst. unfold parse_number.
    rewrite (span_digits_app (String x a) ("." ++ b)).
    + change ("." ++ b) with (String "." b). cbv beta iota.
      rewrite <- (append_nil_r b) at 1.
      rewrite (span_digits_app b EmptyString Hb I).
      cbn [parse_exp]. reflexivity.
    + cbn [Str.forallb]. rewrite Hx, Ha. reflexivity.
    + reflexivity.
  - change (sign_str false ++ a ++ "." ++ b) with (a ++ "." ++ b).
    rewrite (of_string_numeral a b Ha Hb).
    destruct a as [|x a]; [congruence|]. reflexivity.
Qed.

Lemma whole_cases (ip : string) :
  whole ip = true ->
  ip = "0" \/
  exists c s, ip = String c s /\ c <> "0"%char /\
              Str.forallb Str.is_digit ip = true.
Proof.
  unfold whole. intros H. apply andb_true_iff in H as [Hd H].
  destruct ip as [|c s]; [discriminate|].
  destruct (Ascii.eqb_spec c "0") as [->|Hc].
  - destruct s; [left; reflexivity|discriminate].
  - right. exists c, s. repeat split; assumption.
Qed.

(** A float written without an exponent is stored as the decimal that
    its string spells, and the decimal is written back as that string. *)
Lemma to_string_of_string (sign : bool) (ip fp : string) :
  positional ip fp = true ->
  exists d, of_string (spell sign ip fp) = Ok d /\
            to_string d = spell sign ip fp.
Proof.
  unfold positional. intros H.
  apply andb_true_iff in H as [H Hz].
  apply andb_true_iff in H as [H Hne].
  apply andb_true_iff in H as [Hw Hfp].
  assert (Hfpne : fp <> EmptyString).
  { intros ->. discriminate Hne. }
  destruct (whole_cases ip Hw) as [->|(c & s & -> & Hc & Hip)].
  - rewrite of_string_spell by (reflexivity || exact Hfp || discriminate).
    eexists. split; [reflexivity|].
    cbn [orb negb String.eqb Ascii.eqb Bool.eqb] in Hz.
    apply Nat.leb_le in Hz.
    change (Str.int_of_digits ("0" ++ fp)) with (Str.int_onto fp 0).
    pose proof (zeros_split fp) as Hsplit.
    pose proof (drop_leading_zeros fp) as Hrest.
    set (k := leading_zeros fp) in *.
    assert (Hdr : Str.forallb Str.is_digit (Str.drop k fp) = true)
      by (apply forallb_drop; exact Hfp).
    destruct (Str.drop k fp) as [|y rest] eqn:Er.
    + (* nothing but zeros *)
      rewrite append_nil_r in Hsplit. clearbody k. clear Er Hrest Hdr.
      assert (Hk : (1 <= k)%nat).
      { destruct k; [|lia]. cbn in Hsplit. congruence. }
      subst fp.
      rewrite <- (append_nil_r (Str.repeat "0" k)) at 1.
      rewrite int_onto_zeros, length_repeat. cbn [Str.int_onto].
      replace (- Z.of_nat k) with (- (Z.of_nat (k - 1) + len_int 0))
        by (rewrite len_int_zero; lia).
      rewrite to_string_below_one by lia.
      unfold spell.
      change (Str.of_N 0) with (String "0" EmptyString).
      rewrite repeat_snoc. replace (S (k - 1)) with k by lia.
      reflexivity.
    + clearbody k. clear Er. subst fp. rewrite int_onto_zeros.
      change (Str.int_onto (String y rest) 0) with (Str.int_of_digits (String y rest)).
      assert (Hlen : Z.of_nat (String.length (Str.repeat "0" k ++ String y rest))
                     = Z.of_nat k
                       + len_int (Str.int_of_digits (String y rest))).
      { unfold len_int. rewrite (of_N_int_of_digits y rest Hdr Hrest).
        rewrite append_length, length_repeat. lia. }
      rewrite Hlen, to_string_below_one by lia.
      rewrite (of_N_int_of_digits y rest Hdr Hrest).
      reflexivity.
  - rewrite of_string_spell by (exact Hip || exact Hfp || discriminate).
    eexists. split; [reflexivity|].
    apply to_string_above_one; [|discriminate|exact Hfpne].
    change (String c s ++ fp) with (String c (s ++ fp)).
    apply of_N_int_of_digits; [|exact Hc].
    change (String c (s ++ fp)) with (String c s ++ fp).
    rewrite forallb_app, Hip, Hfp. reflexivity.
Qed.



Lemma span_digits_all (a : string) :
  Str.forallb Str.is_digit a = true -> Str.span_digits a = (a, EmptyString).
Proof.
  intros Ha. rewrite <- (append_nil_r a) at 1.
  apply span_digits_app; [exact Ha|exact I].
Qed.

Lemma parse_exp_signed (eneg : bool) (ex : string) :
  digits1 ex = true ->
  parse_exp ("e" ++ (if eneg then "-" else "+") ++ ex)
  = Some (exponent eneg ex).
Proof.
  unfold digits1. intros H. apply andb_true_iff in H as [Hd Hne].
  destruct ex as [|x ex]; [discriminate|]. clear Hne.
  destruct eneg; cbn [String.append parse_exp Str.lower Ascii.eqb Bool.eqb];
    cbv beta iota zeta; rewrite (span_digits_all _ Hd); reflexivity.
Qed.

Lemma of_string_spell_exp (sign : bool) (ip fp : string) (eneg : bool) (ex : string) :
  digits1 ip = true -> Str.forallb Str.is_digit fp = true -> digits1 ex = true ->
  of_string (spell_exp sign ip fp eneg ex)
  = Ok (Fin sign (Str.int_of_digits (ip ++ fp))
          (exponent eneg ex - Z.of_nat (String.length fp))).
Proof.
  intros Hip Hfp Hex.
  pose proof (parse_exp_signed eneg ex Hex) as Hpe.
  unfold digits1 in Hip, Hex.
  apply andb_true_iff in Hip as [Hip Hipne].
  apply andb_true_iff in Hex as [Hex Hexne].
  destruct ip as [|x ip]; [discriminate|]. clear Hipne.
  pose proof Hip as Hip'.
  cbn [Str.forallb] in Hip. apply andb_true_iff in Hip as [Hx Hip].
  set (tail := "e" ++ (if eneg then "-" else "+") ++ ex) in *.
  assert (Htail : Str.forallb Str.not_blank tail = true).
  { subst tail. rewrite !forallb_app, (digits_not_blank ex Hex).
    destruct eneg; reflexivity. }
  assert (Hbody : Str.forallb Str.not_blank (mantissa (String x ip) fp ++ tail) = true).
  { unfold mantissa. destruct fp as [|y fp].
    - rewrite forallb_app, (digits_not_blank _ Hip'), Htail. reflexivity.
    - rewrite !forallb_app, (digits_not_blank _ Hip'), (digits_not_blank _ Hfp), Htail.
      reflexivity. }
  assert (Hparse : (if starts_number (mantissa (String x ip) fp ++ tail)
                    then parse_number sign (mantissa (String x ip) fp ++ tail)
                    else parse_special sign (mantissa (String x ip) fp ++ tail))
                   = Some (Fin sign (Str.int_of_digits (String x ip ++ fp))
                             (exponent eneg ex - Z.of_nat (String.length fp)))).
  { assert (Hst : starts_number (mantissa (String x ip) fp ++ tail) = true).
    { unfold mantissa. destruct fp; cbn [String.append starts_number]; rewrite Hx;
        match goal with |- match ?s with _ => _ end = _ => destruct s; reflexivity end. }
    rewrite Hst. unfold parse_number, mantissa.
    destruct fp as [|y fp].
    - rewrite (span_digits_app (String x ip) tail Hip') by reflexivity.
      subst tail. cbn [String.append] in *. rewrite Hpe.
      rewrite append_nil_r. reflexivity.
    - rewrite append_assoc.
      rewrite (span_digits_app (String x ip) (("." ++ String y fp) ++ tail) Hip')
        by reflexivity.
      change (("." ++ String y fp) ++ tail) with (String "." (String y fp ++ tail)).
      cbv beta iota.
      rewrite (span_digits_app (String y fp) tail Hfp) by reflexivity.
      rewrite Hpe. reflexivity. }
  unfold spell_exp. fold tail.
  unfold of_string.
  destruct sign.
  - change (sign_str true ++ mantissa (String x ip) fp ++ tail)
      with (String "-" (mantissa (String x ip) fp ++ tail)).
    assert (Hnb : Str.forallb Str.not_blank
                    (String "-" (mantissa (String x ip) fp ++ tail)) = true).
    { cbn [Str.forallb]. rewrite Hbody. reflexivity. }
    rewrite (strip_id _ Hnb), (drop_underscores_id _ Hnb).
    cbv beta iota zeta. rewrite Hparse. reflexivity.
  - change (sign_str false ++ mantissa (String x ip) fp ++ tail)
      with (mantissa (String x ip) fp ++ tail).
    rewrite (strip_id _ Hbody), (drop_underscores_id _ Hbody).
    assert (Hhead : exists r, mantissa (String x ip) fp ++ tail = String x r).
    { unfold mantissa. destruct fp; cbn [String.append]; eexists; reflexivity. }
    destruct Hhead as (r & Hr). rewrite Hr in *.
    assert (Hsign : forall T (k1 k2 : string -> T) (k3 : T),
              match String x r with
              | String "-" r => k1 r
              | String "+" r => k2 r
              | _ => k3
              end = k3).
    { intros T k1 k2 k3.
      assert (Hm : x <> "-"%char) by (intros ->; discriminate Hx).
      assert (Hp : x <> "+"%char) by (intros ->; discriminate Hx).
      destruct x as [[] [] [] [] [] [] [] []]; try reflexivity; congruence. }
    rewrite Hsign. cbv beta iota zeta. rewrite Hparse. reflexivity.
Qed.

(** *** What construction stores for a float *)

Lemma convert_spells (s : string) (d : Decimal) :
  spells s d -> of_string s = Ok d.
Proof.
  intros H. destruct H as [sign ip fp Hp|sign ip fp eneg ex Hip Hfp Hex _|sign|].
  - unfold positional in Hp.
    apply andb_true_iff in Hp as [Hp _].
    apply andb_true_iff in Hp as [Hp _].
    apply andb_true_iff in Hp as [Hw Hfp].
    apply of_string_spell; [|exact Hfp|].
    + unfold whole in Hw. apply andb_true_iff in Hw as [Hw _]. exact Hw.
    + intros ->. discriminate Hw.
  - apply of_string_spell_exp; assumption.
  - destruct sign; vm_compute; reflexivity.
  - vm_compute. reflexivity.
Qed.

Lemma stored_at (vals : list pyobj) (ds : list Decimal) (i : nat)
    (val : pyobj) (d : Decimal) :
  List.map _convert_to_decimal vals = List.map Ok ds ->
  nth_error vals i = Some val -> _convert_to_decimal val = Ok d ->
  nth_error ds i = Some d.
Proof.
  intros Hmap Hval Hd.
  apply (map_nth_error _convert_to_decimal) in Hval.
  rewrite Hmap, Hd in Hval.
  rewrite nth_error_map in Hval.
  destruct (nth_error ds i) as [d'|]; [|discriminate].
  cbn in Hval. congruence.
Qed.

(** A scalar supplied is coerced, to a decimal that keeps it. *)
Lemma supplied_kept (val : pyobj) :
  supplied val -> exists d, _convert_to_decimal val = Ok d /\ kept val d.
Proof.
  assert (Hstr : forall s, (exists d, spells s d) ->
            exists d, of_string s = Ok d /\
              (spells s d /\
               forall sign ip fp,
                 s = spell sign ip fp -> positional ip fp = true ->
                 to_string d = s)).
  { intros s [d Hs]. exists d. pose proof (convert_spells s d Hs) as Hd.
    split; [exact Hd|]. split; [exact Hs|].
    intros sign ip fp -> Hp.
    destruct (to_string_of_string sign ip fp Hp) as (d' & Hd' & Hstr).
    rewrite Hd in Hd'. injection Hd' as <-. exact Hstr. }
  destruct val as [d|s|z|s|]; cbn [supplied kept _convert_to_decimal]; intros H.
  - exists d. split; reflexivity.
  - exact (Hstr s H).
  - eexists. split; reflexivity.
  - exact (Hstr s H).
  - contradiction.
Qed.

Lemma all_supplied_kept (vals : list pyobj) :
  Forall supplied vals ->
  exists ds, List.map _convert_to_decimal vals = List.map Ok ds /\
             Forall2 kept vals ds.
Proof.
  induction 1 as [|v vals Hv _ (ds & Hmap & Hkept)].
  - exists []. split; [reflexivity|constructor].
  - destruct (supplied_kept v Hv) as (d & Hd & Hk).
    exists (d :: ds). cbn [List.map]. rewrite Hd, Hmap.
    split; [reflexivity|]. constructor; assumption.
Qed.

(** C4. A float supplied for a decimal-typed field is coerced through its
    string form [str(val)] and through nothing else. When every
    decimal-typed field is supplied as a float, or as a string written as
    [str] writes a float (a Decimal or an int may stand beside them), the
    Transmitter and the Receiver are constructed, and each such field holds
    the decimal with the digits and the exponent which the string shows;
    where the string is written without an exponent, the decimal read back
    is written as that string again, digit for digit. The transmitter of
    [test1] described by the floats 47.78194, 4.90917, 80.0 and 0.1 and the
    string 41.0 reads back as 47.78194, 4.90917, 41.0, 80.0 and 0.1. *)
Theorem C4_float_through_its_string
    (targs : TransmitterArgs.TransmitterArgs)
    (rargs : ReceiverArgs.ReceiverArgs) :
  Forall supplied (transmitter_scalars targs) ->
  Forall supplied (receiver_scalars rargs) ->
  (exists t,
     Transmitter_new targs = Ok t /\
     Forall2 kept (transmitter_scalars targs) (transmitter_decimals t)) /\
  (exists r,
     Receiver_new rargs = Ok r /\
     Forall2 kept (receiver_scalars rargs) (receiver_decimals r)) /\
  (exists t,
     Transmitter_new transmitter_args_floats = Ok t /\
     List.map to_string (transmitter_decimals t)
     = ["47.78194"; "4.90917"; "41.0"; "80.0"; "0.1"]).
Proof.
  intros Ht Hr. split; [|split].
  - destruct (all_supplied_kept _ Ht) as (ds & Hmap & Hkept).
    unfold transmitter_scalars in Hmap, Hkept.
    destruct ds as [|d1 [|d2 [|d3 [|d4 [|d5 [|d6 ds]]]]]]; try discriminate Hmap.
    cbn [List.map] in Hmap. injection Hmap as H1 H2 H3 H4 H5.
    eexists. split.
    + unfold Transmitter_new. rewrite H1, H2, H3, H4, H5. reflexivity.
    + exact Hkept.
  - destruct (all_supplied_kept _ Hr) as (ds & Hmap & Hkept).
    unfold receiver_scalars in Hmap, Hkept.
    destruct ds as [|d1 [|d2 [|d3 [|d4 ds]]]]; try discriminate Hmap.
    cbn [List.map] in Hmap. injection Hmap as H1 H2 H3.
    eexists. split.
    + unfold Receiver_new. rewrite H1, H2, H3. reflexivity.
    + exact Hkept.
  - eexists. split; [vm_compute; reflexivity|]. vm_compute. reflexivity.
Qed.

Lemma floats_are_supplied :
  Forall supplied (transmitter_scalars transmitter_args_floats) /\
  Forall supplied (receiver_scalars receiver_args_floats).
Proof.
  split; repeat constructor; eexists;
    first [ apply (spells_positional false "47" "78194"); reflexivity
          | apply (spells_positional false "4" "90917"); reflexivity
          | apply (spells_positional false "41" "0"); reflexivity
          | apply (spells_positional false "80" "0"); reflexivity
          | apply (spells_positional false "0" "1"); reflexivity
          | apply (spells_positional false "47" "738787"); reflexivity
          | apply (spells_positional false "4" "8892801"); reflexivity
          | apply (spells_exponent false "1" EmptyString true "05");
            reflexivity ].
Qed.

Lemma C4_float_through_its_string_witness :
  (exists t,
     Transmitter_new transmitter_args_floats = Ok t /\
     Forall2 kept (transmitter_scalars transmitter_args_floats)
       (transmitter_decimals t)) /\
  (exists r,
     Receiver_new receiver_args_floats = Ok r /\
     Forall2 kept (receiver_scalars receiver_args_floats)
       (receiver_decimals r)).
Proof.
  destruct (C4_float_through_its_string transmitter_args_floats
              receiver_args_floats (proj1 floats_are_supplied)
              (proj2 floats_are_supplied)) as (Ht & Hr & _).
  split; [exact Ht|exact Hr].
Defined.

(** Floats written with an exponent, and those that are no numbers. *)
Lemma floats_with_exponent :
  spells "1e-07" (Fin false 1 (-7)) /\
  spells "1.7976931348623157e+308" (Fin false 17976931348623157 292) /\
  spells "-inf" (Inf true) /\ spells "nan" (NaN false false 0) /\
  spells "-0.0" (Fin true 0 (-1)).
Proof.
  split; [exact (spells_exponent false "1" EmptyString true "07"
                   eq_refl eq_refl eq_refl eq_refl)|].
  split; [exact (spells_exponent false "1" "7976931348623157" false "308"
                   eq_refl eq_refl eq_refl eq_refl)|].
  split; [exact (spells_inf true)|].
  split; [exact spells_nan|].
  exact (spells_positional true "0" "0" eq_refl).
Qed.

End FloatStrings.

(* ================================================================== *)
(** * Further properties *)

(** ** The report parser: when it rejects, what it returns *)

Section ParserFurther.

Import Dec PySplat Report Examples Parser ParserExamples.

Section Completeness.

Lemma match_at_complete (prog : list Re.instr) (w : string) (st st' : Re.mstate) :
  Re.run prog w st st' ->
  forall rest, exists r, Re.match_at prog (w ++ rest) st = Some r.
Proof.
  induction 1 as [st|p w st st' _ IH|p w st st' _ IH|cs c p w st st' Hc _ IH
                 |cs p w st st' _ IH|cs c p w st st' Hc _ IH
                 |cs p w st st' _ IH|cs c p w st st' Hc _ IH]; intros rest.
  - exists st. reflexivity.
  - exact (IH rest).
  - exact (IH rest).
  - cbn [String.append Re.match_at]. rewrite Hc. exact (IH rest).
  - destruct (IH rest) as (r & Hr). rewrite match_at_star.
    destruct (w ++ rest) as [|c s]; [exists r; exact Hr|].
    destruct (Re.cmatch cs c); [|exists r; exact Hr].
    destruct (Re.match_at (Re.Star cs :: p) s (Re.push c st)) as [r'|];
      [exists r'; reflexivity|exists r; exact Hr].
  - destruct (IH rest) as (r & Hr).
    cbn [String.append]. rewrite match_at_star, Hc, Hr. exists r. reflexivity.
  - destruct (IH rest) as (r & Hr). rewrite match_at_lazy.
    destruct (w ++ rest) as [|c s]; rewrite Hr; exists r; reflexivity.
  - destruct (IH rest) as (r & Hr).
    cbn [String.append]. rewrite match_at_lazy.
    destruct (Re.match_at p (String c (w ++ rest)) st) as [r'|];
      [exists r'; reflexivity|].
    rewrite Hc, Hr. exists r. reflexivity.
Qed.

Lemma search_complete (prog : list Re.instr) (pre w rest : string)
    (st' : Re.mstate) :
  Re.run prog w Re.init st' ->
  exists gs, Re.search prog (pre ++ w ++ rest) = Some gs.
Proof.
  intros Hrun. induction pre as [|c pre IH].
  - cbn [String.append].
    destruct (match_at_complete _ _ _ _ Hrun rest) as (r & Hr).
    destruct (w ++ rest); cbn [Re.search]; rewrite Hr; eexists; reflexivity.
  - cbn [String.append Re.search].
    destruct (Re.match_at prog (String c (pre ++ w ++ rest)) Re.init);
      [eexists; reflexivity|exact IH].
Qed.

End Completeness.

Section Accepting.

Lemma accepts_nil : accepts [] EmptyString.
Proof. intros st. exists st. constructor. Qed.

Lemma accepts_chr (cs : Re.cset) (c : ascii) (p : list Re.instr) (w : string) :
  Re.cmatch cs c = true -> accepts p w -> accepts (Re.Chr cs :: p) (String c w).
Proof.
  intros Hc Hp st. destruct (Hp (Re.push c st)) as (st' & H).
  exists st'. constructor; assumption.
Qed.

Lemma accepts_lits (l : string) (p : list Re.instr) (w : string) :
  accepts p w -> accepts (Re.lits l ++ p) (l ++ w).
Proof.
  intros Hp. induction l as [|c l IH]; [exact Hp|].
  cbn [Re.lits app String.append]. apply accepts_chr; [|exact IH].
  apply Ascii.eqb_refl.
Qed.

Lemma accepts_star (cs : Re.cset) (a : string) (p : list Re.instr) (w : string) :
  Str.forallb (Re.cmatch cs) a = true -> accepts p w ->
  accepts (Re.Star cs :: p) (a ++ w).
Proof.
  intros Ha Hp. induction a as [|c a IH].
  - intros st. destruct (Hp st) as (st' & H). exists st'.
    apply Re.run_star_done. exact H.
  - cbn [Str.forallb] in Ha. apply andb_true_iff in Ha as [Hc Ha].
    intros st. destruct (IH Ha (Re.push c st)) as (st' & H). exists st'.
    cbn [String.append]. apply Re.run_star_more; assumption.
Qed.

Lemma accepts_lazy (a : string) (p : list Re.instr) (w : string) :
  accepts p w -> accepts (Re.LazyStar Re.CAny :: p) (a ++ w).
Proof.
  intros Hp. induction a as [|c a IH].
  - intros st. destruct (Hp st) as (st' & H). exists st'.
    apply Re.run_lazy_done. exact H.
  - intros st. destruct (IH (Re.push c st)) as (st' & H). exists st'.
    cbn [String.append]. apply Re.run_lazy_more; [reflexivity|exact H].
Qed.

Lemma accepts_group (g : string) (p : list Re.instr) (w : string) :
  numeral g -> accepts p w -> accepts (number_group ++ p) (g ++ w).
Proof.
  intros (a & b & -> & Ha & Hb) Hp. unfold number_group. cbn [app].
  intros st. 
  assert (H : accepts (Re.Star Re.CDigit :: Re.Chr (Re.CLit ".")
                        :: Re.Star Re.CDigit :: Re.Close :: p)
                ((a ++ "." ++ b) ++ w)).
  { rewrite !append_assoc. apply accepts_star; [exact Ha|].
    cbn [String.append]. apply accepts_chr; [reflexivity|].
    apply accepts_star; [exact Hb|].
    intros st1. destruct (Hp (Re.close_group st1)) as (st' & H).
    exists st'. constructor. exact H. }
  destruct (H (Re.open_group st)) as (st' & H').
  exists st'. constructor. exact H'.
Qed.

Lemma located_accepts (c : ascii) (text g1 g2 g3 : string) :
  located c text g1 g2 g3 ->
  exists pre w post, text = pre ++ w ++ post /\ accepts report_code w.
Proof.
  intros (pre & mid1 & mid2 & post & -> & Hg1 & Hg2 & Hg3).
  exists pre,
    ("Free space path loss: " ++ g1 ++ " dB" ++ mid1
     ++ "ITWOM Version 3" ++ String c ("0 path loss: " ++ g2 ++ " dB"
     ++ mid2 ++ g3 ++ " dBuV/meter")), post.
  split.
  - repeat (progress (rewrite ?append_assoc; cbn [String.append])). reflexivity.
  - unfold report_code.
    apply accepts_lits, accepts_group; [exact Hg1|].
    apply accepts_lits. cbn [app]. apply accepts_lazy.
    apply accepts_lits. cbn [app]. apply accepts_chr; [reflexivity|].
    apply accepts_lits, accepts_group; [exact Hg2|].
    apply accepts_lits. cbn [app]. apply accepts_lazy.
    apply accepts_group; [exact Hg3|].
    rewrite <- (app_nil_r (Re.lits " dBuV/meter")).
    rewrite <- (append_nil_r " dBuV/meter").
    apply accepts_lits, accepts_nil.
Qed.

Lemma located_found (c : ascii) (text g1 g2 g3 : string) :
  located c text g1 g2 g3 ->
  exists gs, Re.search report_code text = Some gs.
Proof.
  intros H. destruct (located_accepts _ _ _ _ _ H) as (pre & w & post & -> & Hw).
  destruct (Hw Re.init) as (st' & Hrun).
  exact (search_complete _ pre w post st' Hrun).
Qed.

End Accepting.


Section ParserMore.

Lemma numeral_value (g : string) (d : Decimal) :
  numeral g -> of_string g = Ok d -> plain_quantity d.
Proof.
  intros (a & b & -> & Ha & Hb) H.
  rewrite (of_string_numeral a b Ha Hb) in H.
  destruct (a ++ b); [discriminate|]. injection H as <-.
  cbn [plain_quantity]. lia.
Qed.

Lemma numeral_refused (g : string) (e : exn) :
  numeral g -> of_string g = Raise e -> g = ".".
Proof.
  intros (a & b & -> & Ha & Hb) H.
  rewrite (of_string_numeral a b Ha Hb) in H.
  destruct a as [|x a]; [|discriminate].
  destruct b as [|y b]; [reflexivity|].
  cbn [String.append] in H. discriminate H.
Qed.

(** X1. The parser raises SplatReportException exactly on the texts in which
    the three patterns do not stand. *)
Theorem report_rejected_iff (text : string) :
  report_values text = Raise (SplatReportException text) <-> ~ readable text.
Proof.
  split.
  - intros H (c & g1 & g2 & g3 & Hloc).
    destruct (located_found _ _ _ _ _ Hloc) as (gs & Hs).
    rewrite report_values_unfold, Hs in H.
    destruct (search_located _ _ Hs) as (c' & h1 & h2 & h3 & -> & _).
    destruct (of_string h1) as [x1|e1] eqn:E1;
      [|cbn [bind] in H; apply of_string_raises in E1; congruence].
    destruct (of_string h2) as [x2|e2] eqn:E2;
      [|cbn [bind] in H; apply of_string_raises in E2; congruence].
    destruct (of_string h3) as [x3|e3] eqn:E3;
      [|cbn [bind] in H; apply of_string_raises in E3; congruence].
    discriminate H.
  - intros Hno. apply report_not_located.
    intros c g1 g2 g3 Hloc. apply Hno. exists c, g1, g2, g3. exact Hloc.
Qed.

(** X2. Whatever the parser returns is finite and not negative, with no
    positive exponent: a sign before a quantity is not read. *)
Theorem report_values_plain (text : string) (d1 d2 d3 : Decimal) :
  report_values text = Ok (d1, d2, d3) ->
  plain_quantity d1 /\ plain_quantity d2 /\ plain_quantity d3.
Proof.
  intros H.
  destruct (report_values_ok _ _ _ _ H)
    as (c & g1 & g2 & g3 & (pre & m1 & m2 & post & _ & N1 & N2 & N3) & E1 & E2 & E3).
  split; [exact (numeral_value g1 d1 N1 E1)|].
  split; [exact (numeral_value g2 d2 N2 E2)|exact (numeral_value g3 d3 N3 E3)].
Qed.

Lemma report_values_plain_witness :
  report_values report_negative_field
  = Ok (Fin false 10455 (-2), Fin false 14182 (-2), Fin false 525 (-2)) /\
  plain_quantity (Fin false 525 (-2)).
Proof.
  assert (H : report_values report_negative_field
              = Ok (Fin false 10455 (-2), Fin false 14182 (-2), Fin false 525 (-2)))
    by (vm_compute; reflexivity).
  split; [exact H|].
  exact (proj2 (proj2 (report_values_plain _ _ _ _ H))).
Defined.

(** X3. InvalidOperation comes out of the parser only when a quantity that the
    pattern takes is a bare point. *)
Theorem report_invalid_operation (text : string) :
  report_values text = Raise InvalidOperation ->
  exists c g1 g2 g3,
    located c text g1 g2 g3 /\ (g1 = "." \/ g2 = "." \/ g3 = ".").
Proof.
  rewrite report_values_unfold. intros H.
  destruct (Re.search report_code text) as [gs|] eqn:Hs; [|discriminate].
  destruct (search_located _ _ Hs) as (c & g1 & g2 & g3 & -> & Hloc).
  exists c, g1, g2, g3. split; [exact Hloc|].
  destruct Hloc as (pre & m1 & m2 & post & _ & N1 & N2 & N3).
  destruct (of_string g1) as [x1|e1] eqn:E1;
    [|left; exact (numeral_refused _ _ N1 E1)].
  destruct (of_string g2) as [x2|e2] eqn:E2;
    [|right; left; exact (numeral_refused _ _ N2 E2)].
  destruct (of_string g3) as [x3|e3] eqn:E3;
    [|right; right; exact (numeral_refused _ _ N3 E3)].
  discriminate H.
Qed.

Lemma report_invalid_operation_witness :
  exists c g1 g2 g3,
    located c report_bare_point g1 g2 g3 /\ (g1 = "." \/ g2 = "." \/ g3 = ".").
Proof.
  apply (report_invalid_operation report_bare_point).
  vm_compute. reflexivity.
Defined.

End ParserMore.

End ParserFurther.

(** ** The invocation: what the tool is given and how its end is read *)

Section PipelineFurther.

Import Dec PySplat Workspace Examples Staging PipelineExamples.

(** X4. When the inputs can be staged and the tool exits with 0 leaving a
    report file, the invocation returns what the parser makes of the text of
    that file, its bytes read as iso_8859_1 with the line ends translated:
    the three values, or the parser's exception. *)
Theorem invocation_returns_report (splat : OS.program) (tmp_names : list string)
    (terrain_folder cities_filepath : string)
    (t : Transmitter.Transmitter) (r : Receiver.Receiver)
    (timeout : option Z) (fs fs' : OS.filesystem) (dir : string)
    (texts : string * string * string) (content : string) :
  ready tmp_names fs dir t r ->
  plain_paths terrain_folder cities_filepath ->
  input_texts t r = Ok texts ->
  splat (splat_args cities_filepath terrain_folder dir t r) dir
    (effective_timeout timeout) (staged dir t r texts fs)
  = (OS.Exited 0, fs') ->
  OS.too_long (report_path dir t r) = false ->
  fs' (report_path dir t r) = Some (OS.File content) ->
  fst (splat_report_values splat tmp_names terrain_folder cities_filepath t r
         timeout fs)
  = report_values (OS.universal_newlines content).
Proof.
  intros Hready Hplain Htexts Hrun Hlen Hfile.
  rewrite (pipeline_run _ _ _ _ _ _ _ _ dir texts Hready Hplain Htexts), Hrun.
  destruct Hready as (_ & _ & Hnt & Hnr & Hroom).
  cbn [fst outcome]. unfold OS.read.
  rewrite (report_path_plain dir t r (proj1 Hroom) Hnt Hnr), Hlen, Hfile.
  reflexivity.
Qed.

Lemma tmp_only_fresh : removed "/tmp/tmpk3x9q2ab" tmp_only.
Proof.
  intros p Hp. unfold tmp_only.
  destruct (String.eqb_spec p "/tmp") as [->|_]; [discriminate Hp|reflexivity].
Qed.

Lemma test1_ready : ready drawn_names tmp_only "/tmp/tmpk3x9q2ab" menesble bure.
Proof.
  split; [reflexivity|]. split; [exact tmp_only_fresh|].
  split; [reflexivity|]. split; [reflexivity|].
  split; vm_compute; reflexivity.
Qed.

Lemma invocation_returns_report_witness :
  fst (splat_report_values (splat_writes crlf_report) drawn_names
         "/srv/terrain" "/srv/cities.dat" menesble bure None tmp_only)
  = report_values (OS.universal_newlines crlf_report).
Proof.
  eapply (invocation_returns_report (splat_writes crlf_report) drawn_names
            "/srv/terrain" "/srv/cities.dat" menesble bure None tmp_only _
            "/tmp/tmpk3x9q2ab").
  - exact test1_ready.
  - split; reflexivity.
  - vm_compute. reflexivity.
  - reflexivity.
  - vm_compute. reflexivity.
  - vm_compute. reflexivity.
Defined.

(** X5. When the tool exits with a status other than 0, the invocation
    raises CalledProcessError with that status, whatever report the tool
    left. *)
Theorem invocation_tool_failure (splat : OS.program) (tmp_names : list string)
    (terrain_folder cities_filepath : string)
    (t : Transmitter.Transmitter) (r : Receiver.Receiver)
    (timeout : option Z) (fs fs' : OS.filesystem) (dir : string)
    (texts : string * string * string) (rc : Z) :
  ready tmp_names fs dir t r ->
  plain_paths terrain_folder cities_filepath ->
  input_texts t r = Ok texts ->
  splat (splat_args cities_filepath terrain_folder dir t r) dir
    (effective_timeout timeout) (staged dir t r texts fs)
  = (OS.Exited rc, fs') ->
  rc <> 0 ->
  fst (splat_report_values splat tmp_names terrain_folder cities_filepath t r
         timeout fs)
  = Raise (CalledProcessError rc).
Proof.
  intros Hready Hplain Htexts Hrun Hrc.
  rewrite (pipeline_run _ _ _ _ _ _ _ _ dir texts Hready Hplain Htexts), Hrun.
  cbn [fst outcome]. destruct rc; [contradiction|reflexivity|reflexivity].
Qed.

Lemma invocation_tool_failure_witness :
  fst (splat_report_values (splat_writes_and_fails sample_report) drawn_names
         "/srv/terrain" "/srv/cities.dat" menesble bure None tmp_only)
  = Raise (CalledProcessError 1).
Proof.
  eapply (invocation_tool_failure (splat_writes_and_fails sample_report)
            drawn_names "/srv/terrain" "/srv/cities.dat" menesble bure None
            tmp_only _ "/tmp/tmpk3x9q2ab").
  - exact test1_ready.
  - split; reflexivity.
  - vm_compute. reflexivity.
  - reflexivity.
  - discriminate.
Defined.

(** X6. When the tool exits with 0 and no report file is where it is looked
    for, the invocation raises OSError for that path, not
    SplatReportException. *)
Theorem invocation_report_missing (splat : OS.program) (tmp_names : list string)
    (terrain_folder cities_filepath : string)
    (t : Transmitter.Transmitter) (r : Receiver.Receiver)
    (timeout : option Z) (fs fs' : OS.filesystem) (dir : string)
    (texts : string * string * string) :
  ready tmp_names fs dir t r ->
  plain_paths terrain_folder cities_filepath ->
  input_texts t r = Ok texts ->
  splat (splat_args cities_filepath terrain_folder dir t r) dir
    (effective_timeout timeout) (staged dir t r texts fs)
  = (OS.Exited 0, fs') ->
  fs' (report_path dir t r) = None ->
  fst (splat_report_values splat tmp_names terrain_folder cities_filepath t r
         timeout fs)
  = Raise (OSError (report_path dir t r)).
Proof.
  intros Hready Hplain Htexts Hrun Hfile.
  rewrite (pipeline_run _ _ _ _ _ _ _ _ dir texts Hready Hplain Htexts), Hrun.
  destruct Hready as (_ & _ & Hnt & Hnr & Hroom).
  cbn [fst outcome]. unfold OS.read.
  rewrite (report_path_plain dir t r (proj1 Hroom) Hnt Hnr), Hfile.
  destruct (OS.too_long (report_path dir t r)); reflexivity.
Qed.

Lemma invocation_report_missing_witness :
  fst (splat_report_values splat_silent drawn_names
         "/srv/terrain" "/srv/cities.dat" menesble bure None tmp_only)
  = Raise (OSError "/tmp/tmpk3x9q2ab/Menesble-to-Bure.txt").
Proof.
  eapply (invocation_report_missing splat_silent drawn_names "/srv/terrain"
            "/srv/cities.dat" menesble bure None tmp_only _
            "/tmp/tmpk3x9q2ab").
  - exact test1_ready.
  - split; reflexivity.
  - vm_compute. reflexivity.
  - reflexivity.
  - vm_compute. reflexivity.
Defined.

(** *** What the tool finds *)

Lemma append_inj_l (a b c : string) : a ++ b = a ++ c -> b = c.
Proof.
  induction a as [|x a IH]; cbn [String.append]; intros H; [exact H|].
  injection H as H. exact (IH H).
Qed.

Lemma joinpath_inj (dir a b : string) :
  OS.joinpath dir a = OS.joinpath dir b -> a = b.
Proof.
  unfold OS.joinpath. intros H. apply append_inj_l in H.
  injection H as H. exact H.
Qed.

Lemma update_same (fs : OS.filesystem) (p : string) (n : OS.node) :
  OS.update fs p n p = Some n.
Proof. unfold OS.update. rewrite String.eqb_refl. reflexivity. Qed.

Lemma update_other (fs : OS.filesystem) (p q : string) (n : OS.node) :
  q <> p -> OS.update fs p n q = fs q.
Proof.
  intros H. unfold OS.update.
  destruct (String.eqb_spec q p); [contradiction|reflexivity].
Qed.

Lemma input_paths_distinct (dir : string) (t : Transmitter.Transmitter)
    (r : Receiver.Receiver) :
  OS.joinpath dir (transmitter_qth_name t) <> OS.joinpath dir (transmitter_lrp_name t) /\
  OS.joinpath dir (transmitter_qth_name t) <> OS.joinpath dir (receiver_qth_name r) /\
  OS.joinpath dir (transmitter_lrp_name t) <> OS.joinpath dir (receiver_qth_name r).
Proof.
  unfold transmitter_qth_name, transmitter_lrp_name, receiver_qth_name.
  split; [|split]; intros H; apply joinpath_inj in H.
  - apply (append_inj_l "transmitter-") in H. apply append_inj_l in H.
    discriminate H.
  - discriminate H.
  - discriminate H.
Qed.

(** X7. When the inputs can be staged, the tool is started once, in the
    workspace, on the command line [splat -metric -s cities -d terrain -t
    transmitter.qth -r receiver.qth], with the timeout of the caller; it
    finds the three input files there, each holding the bytes (UTF-8) of the
    text rendered from the transmitter or the receiver, and every other path
    as it was before; and the result of the invocation is read off the end
    of that one run. *)
Theorem tool_finds_staged_inputs (tmp_names : list string)
    (terrain_folder cities_filepath : string)
    (t : Transmitter.Transmitter) (r : Receiver.Receiver)
    (timeout : option Z) (fs : OS.filesystem) (dir : string)
    (text1 text2 text3 : string) :
  ready tmp_names fs dir t r ->
  plain_paths terrain_folder cities_filepath ->
  input_texts t r = Ok (text1, text2, text3) ->
  let found := staged dir t r (text1, text2, text3) fs in
  found dir = Some OS.Dir /\
  found (OS.joinpath dir (transmitter_qth_name t))
  = Some (OS.File (OS.encode text1)) /\
  found (OS.joinpath dir (transmitter_lrp_name t))
  = Some (OS.File (OS.encode text2)) /\
  found (OS.joinpath dir (receiver_qth_name r))
  = Some (OS.File (OS.encode text3)) /\
  (forall p,
     p <> dir ->
     p <> OS.joinpath dir (transmitter_qth_name t) ->
     p <> OS.joinpath dir (transmitter_lrp_name t) ->
     p <> OS.joinpath dir (receiver_qth_name r) ->
     found p = fs p) /\
  (forall splat,
     let run := splat (splat_args cities_filepath terrain_folder dir t r) dir
                  (effective_timeout timeout) found in
     fst (splat_report_values splat tmp_names terrain_folder cities_filepath
            t r timeout fs)
     = outcome (report_path dir t r) (fst run) (snd run)).
Proof.
  intros Hready Hplain Htexts found.
  destruct (input_paths_distinct dir t r) as (H12 & H13 & H23).
  pose proof (joinpath_ne dir (transmitter_qth_name t)) as H1.
  pose proof (joinpath_ne dir (transmitter_lrp_name t)) as H2.
  pose proof (joinpath_ne dir (receiver_qth_name r)) as H3.
  subst found. unfold staged.
  split; [|split; [|split; [|split; [|split]]]].
  - rewrite !update_other by congruence. apply update_same.
  - rewrite !(update_other _ _ (OS.joinpath dir (transmitter_qth_name t)))
      by congruence.
    apply update_same.
  - rewrite (update_other _ _ (OS.joinpath dir (transmitter_lrp_name t)))
      by congruence.
    apply update_same.
  - apply update_same.
  - intros p Hd Hp1 Hp2 Hp3. rewrite !update_other by assumption. reflexivity.
  - intros splat. cbv zeta.
    rewrite (pipeline_run splat _ _ _ _ _ timeout _ dir _ Hready Hplain Htexts).
    unfold staged.
    match goal with
    | |- context [splat ?a ?c ?tm ?f] => destruct (splat a c tm f) as [c' fs']
    end.
    reflexivity.
Qed.

Lemma tool_finds_staged_inputs_witness :
  let found :=
    staged "/tmp/tmpk3x9q2ab" menesble bure
      (Str.join newline ["Menesble"; "47.78194"; "355.09083"; "41.0 meters"],
       Str.join newline
         ["15.000" ++ TAB ++ "; Earth Dielectric Constant (Relative permittivity)";
          "0.005; Earth Conductivity (Siemens per meter)";
          "301.000" ++ TAB ++ "; Atmospheric Bending Constant (N-Units)";
          "800.00" ++ TAB ++ "; Frequency in MHz (20 MHz to 20 GHz)";
          "5" ++ TAB ++ "; Radio Climate";
          "1" ++ TAB ++ "; Polarization (0 = Horizontal, 1 = Vertical)";
          "0.50" ++ TAB ++ "; Fraction of Situations";
          "0.50" ++ TAB ++ "; Fraction of Time";
          "48.78048780487804878048780488 ; ERP"],
       Str.join newline ["Bure"; "47.738787"; "355.1107199"; "2.0 meters"])
      tmp_only in
  found "/tmp/tmpk3x9q2ab/transmitter-Menesble.qth"
  = Some (OS.File
            (OS.encode
               (Str.join newline
                  ["Menesble"; "47.78194"; "355.09083"; "41.0 meters"]))).
Proof.
  intros found.
  refine (proj1 (proj2 (tool_finds_staged_inputs drawn_names "/srv/terrain"
                           "/srv/cities.dat" menesble bure None tmp_only
                           "/tmp/tmpk3x9q2ab" _ _ _ _ _ _))).
  - exact test1_ready.
  - split; reflexivity.
  - vm_compute. reflexivity.
Defined.

(** A name with an accent: the file that the tool finds holds two bytes
    for the one character. *)
Lemma accent_is_two_bytes :
  OS.encode ("M" ++ String (ascii_of_N 233) "nesble")
  = "M" ++ String (ascii_of_N 195) (String (ascii_of_N 169) "nesble").
Proof. reflexivity. Qed.

(** *** Nothing is touched outside the workspace *)

Lemma frames_lift {A : Type} (dir : string) (r : result A) :
  frames dir (OS.lift r).
Proof. intros fs p _. reflexivity. Qed.

Lemma frames_bind {A B : Type} (dir : string) (c : OS.M A) (k : A -> OS.M B)
    (P : A -> Prop) :
  frames dir c ->
  (forall fs a fs', c fs = (Ok a, fs') -> P a) ->
  (forall a, P a -> frames dir (k a)) ->
  frames dir (OS.bindM c k).
Proof.
  intros Hc HP Hk fs p Hp. unfold OS.bindM.
  specialize (Hc fs p Hp).
  destruct (c fs) as [[a|e] fs'] eqn:E; cbn [snd] in Hc.
  - rewrite (Hk a (HP _ _ _ E) fs' p Hp). exact Hc.
  - exact Hc.
Qed.

Lemma under_ne (dir p q : string) :
  OS.under dir p = false -> OS.under dir q = true -> p <> q.
Proof. intros Hp Hq ->. congruence. Qed.

Lemma frames_open_w (dir name : string) : frames dir (OS.open_w dir name).
Proof.
  intros fs p Hp. unfold OS.open_w.
  pose proof (under_ne _ _ _ Hp (joinpath_under dir name)) as Hne.
  destruct (OS.has_nul (OS.joinpath dir name)); [reflexivity|].
  destruct (OS.too_long (OS.joinpath dir name)); [reflexivity|].
  destruct (fs dir) as [[|c]|]; try reflexivity.
  destruct (fs (OS.joinpath dir name)) as [[|c]|]; try reflexivity;
    destruct (Str.existsb _ name); try reflexivity;
    cbn [snd]; apply update_other; exact Hne.
Qed.

Lemma open_w_returns (dir name : string) (fs fs' : OS.filesystem) (a : string) :
  OS.open_w dir name fs = (Ok a, fs') -> OS.under dir a = true.
Proof.
  unfold OS.open_w. intros H.
  destruct (OS.has_nul (OS.joinpath dir name)); [discriminate|].
  destruct (OS.too_long (OS.joinpath dir name)); [discriminate|].
  destruct (fs dir) as [[|c]|]; try discriminate.
  destruct (fs (OS.joinpath dir name)) as [[|c]|]; try discriminate;
    destruct (Str.existsb _ name); try discriminate;
    injection H as <- _; apply joinpath_under.
Qed.

Lemma frames_write (dir path text : string) :
  OS.under dir path = true -> frames dir (OS.write path text).
Proof.
  intros Hpath fs p Hp. unfold OS.write. cbn [snd].
  apply update_other. exact (under_ne _ _ _ Hp Hpath).
Qed.

Lemma frames_read (dir path : string) : frames dir (OS.read path).
Proof.
  intros fs p _. rewrite read_keeps. reflexivity.
Qed.

Lemma frames_subprocess_run (splat : OS.program) (args : list string)
    (dir : string) (timeout : Z) :
  confined splat -> frames dir (OS.subprocess_run splat args dir timeout).
Proof.
  intros Hc fs p Hp. unfold OS.subprocess_run.
  destruct (List.existsb OS.has_nul (dir :: args)); [reflexivity|].
  specialize (Hc args dir timeout fs p Hp).
  destruct (splat args dir timeout fs) as [c fs']. cbn [snd] in Hc.
  destruct c as [[|rc|rc]| | |]; exact Hc.
Qed.

Lemma frames_any {A B : Type} (dir : string) (c : OS.M A) (k : A -> OS.M B) :
  frames dir c -> (forall a, frames dir (k a)) -> frames dir (OS.bindM c k).
Proof.
  intros Hc Hk. apply (frames_bind dir c k (fun _ => True)); auto.
Qed.

Lemma TemporaryDirectory_restores {A : Type} (candidates : list string)
    (body : string -> OS.M A) (fs : OS.filesystem) (dir : string) :
  chosen candidates fs = Some dir -> removed dir fs ->
  frames dir (body dir) ->
  forall p, snd (OS.TemporaryDirectory candidates body fs) p = fs p.
Proof.
  intros Hdir Hfresh Hbody p. unfold OS.TemporaryDirectory.
  rewrite mkdtemp_chosen, Hdir.
  specialize (Hbody (OS.update fs dir OS.Dir) p).
  destruct (body dir (OS.update fs dir OS.Dir)) as [res fs2].
  cbn [snd] in *. unfold OS.rmtree.
  destruct (OS.under dir p) eqn:Hp.
  - symmetry. apply Hfresh. exact Hp.
  - rewrite (Hbody eq_refl). apply update_other.
    intros ->. unfold OS.under in Hp. rewrite String.eqb_refl in Hp.
    discriminate Hp.
Qed.

(** X8. With a tool that touches nothing outside its working directory,
    the invocation leaves the file system as it found it, however it ends:
    nothing outside the workspace is changed, and nothing of the workspace
    remains. *)
Theorem invocation_restores_files (splat : OS.program) (tmp_names : list string)
    (terrain_folder cities_filepath : string)
    (t : Transmitter.Transmitter) (r : Receiver.Receiver)
    (timeout : option Z) (fs : OS.filesystem) (dir : string) :
  chosen tmp_names fs = Some dir -> removed dir fs -> confined splat ->
  forall p,
    snd (splat_report_values splat tmp_names terrain_folder cities_filepath
           t r timeout fs) p
    = fs p.
Proof.
  intros Hdir Hfresh Hconf.
  unfold splat_report_values.
  apply (TemporaryDirectory_restores _ _ _ dir); [exact Hdir|exact Hfresh|].
  apply (frames_bind dir _ _ (fun a => OS.under dir a = true));
    [apply frames_open_w|intros ? ? ?; apply open_w_returns|intros p1 Hp1].
  apply (frames_bind dir _ _ (fun a => OS.under dir a = true));
    [apply frames_open_w|intros ? ? ?; apply open_w_returns|intros p2 Hp2].
  apply (frames_bind dir _ _ (fun a => OS.under dir a = true));
    [apply frames_open_w|intros ? ? ?; apply open_w_returns|intros p3 Hp3].
  apply frames_any; [apply frames_lift|intros text1].
  apply frames_any; [apply frames_write; exact Hp1|intros _].
  apply frames_any; [apply frames_lift|intros text2].
  apply frames_any; [apply frames_write; exact Hp2|intros _].
  apply frames_any; [apply frames_lift|intros text3].
  apply frames_any; [apply frames_write; exact Hp3|intros _].
  apply frames_any; [apply frames_subprocess_run; exact Hconf|intros _].
  apply frames_any; [apply frames_read|intros text].
  apply frames_lift.
Qed.

Lemma invocation_restores_files_witness :
  let after :=
    snd (splat_report_values (splat_writes sample_report) drawn_names
           "/srv/terrain" "/srv/cities.dat" menesble bure None tmp_only) in
  after "/tmp" = Some OS.Dir /\
  after "/tmp/tmpk3x9q2ab/Menesble-to-Bure.txt" = None.
Proof.
  assert (H : forall p,
            snd (splat_report_values (splat_writes sample_report) drawn_names
                   "/srv/terrain" "/srv/cities.dat" menesble bure None tmp_only) p
            = tmp_only p).
  { apply (invocation_restores_files (splat_writes sample_report) drawn_names
             "/srv/terrain" "/srv/cities.dat" menesble bure None tmp_only
             "/tmp/tmpk3x9q2ab").
    - reflexivity.
    - exact tmp_only_fresh.
    - intros args cwd timeout fs p Hp. unfold splat_writes. cbn [snd].
      apply update_other. exact (under_ne _ _ _ Hp (joinpath_under cwd _)). }
  split; rewrite H; reflexivity.
Defined.

(** *** Inputs that cannot be staged *)

Lemma slashed_inv (pre name suf : string) :
  slashed name -> OS.has_nul pre = false -> OS.has_nul suf = false ->
  Str.existsb (fun c => Ascii.eqb c "/") (pre ++ name ++ suf) = true /\
  OS.has_nul (pre ++ name ++ suf) = false.
Proof.
  intros (Hs & Hz & _) Hpre Hsuf. split.
  - rewrite !existsb_app, Hs. rewrite orb_true_r. reflexivity.
  - rewrite !has_nul_app, Hpre, Hsuf. unfold OS.has_nul. rewrite Hz. reflexivity.
Qed.

Lemma open_w_slashed (dir name : string) (fs : OS.filesystem) :
  fs dir = Some OS.Dir -> OS.has_nul dir = false -> OS.has_nul name = false ->
  Str.existsb (fun c => Ascii.eqb c "/") name = true ->
  OS.open_w dir name fs = (Raise (OSError (OS.joinpath dir name)), fs).
Proof.
  intros Hdir Hd Hn Hname. unfold OS.open_w.
  rewrite (joinpath_plain dir name Hd Hn), Hdir, Hname.
  destruct (OS.too_long (OS.joinpath dir name)); [reflexivity|].
  destruct (fs (OS.joinpath dir name)) as [[|c]|]; reflexivity.
Qed.

(** X9. A site name with a slash in it cannot be part of a file name: the
    invocation raises OSError for the input file it could not open, the
    transmitter's first, and the tool is not run (the result is the same
    for every tool). *)
Theorem slashed_name_is_refused (tmp_names : list string)
    (terrain_folder cities_filepath : string)
    (t : Transmitter.Transmitter) (r : Receiver.Receiver)
    (timeout : option Z) (fs : OS.filesystem) (dir : string) :
  chosen tmp_names fs = Some dir -> removed dir fs -> OS.has_nul dir = false ->
  (slashed (Transmitter.name t) ->
   forall splat,
     fst (splat_report_values splat tmp_names terrain_folder cities_filepath
            t r timeout fs)
     = Raise (OSError (OS.joinpath dir (transmitter_qth_name t)))) /\
  (file_name_part (Transmitter.name t) ->
   OS.too_long (OS.joinpath dir (transmitter_qth_name t)) = false ->
   OS.too_long (OS.joinpath dir (transmitter_lrp_name t)) = false ->
   slashed (Receiver.name r) ->
   forall splat,
     fst (splat_report_values splat tmp_names terrain_folder cities_filepath
            t r timeout fs)
     = Raise (OSError (OS.joinpath dir (receiver_qth_name r)))).
Proof.
  intros Hdir Hfresh Hnul.
  pose proof (tidy_created dir fs Hfresh) as Ht0.
  split.
  - intros Hs splat.
    destruct (slashed_inv "transmitter-" _ ".qth" Hs eq_refl eq_refl) as [H1 H2].
    unfold splat_report_values, OS.TemporaryDirectory.
    rewrite mkdtemp_chosen, Hdir.
    unfold OS.bindM at 1.
    rewrite (open_w_slashed dir _ _ (proj1 Ht0) Hnul H2 H1).
    reflexivity.
  - intros Hnt Hl1 Hl2 Hs splat.
    destruct (slashed_inv "receiver-" _ ".qth" Hs eq_refl eq_refl) as [H1 H2].
    assert (Hn1 : file_name_part ("transmitter-" ++ Transmitter.name t ++ ".qth"))
      by (apply file_name_ok; [reflexivity|exact Hnt|reflexivity]).
    assert (Hn2 : file_name_part ("transmitter-" ++ Transmitter.name t ++ ".lrp"))
      by (apply file_name_ok; [reflexivity|exact Hnt|reflexivity]).
    unfold splat_report_values, OS.TemporaryDirectory.
    rewrite mkdtemp_chosen, Hdir.
    set (fs0 := OS.update fs dir OS.Dir) in *.
    unfold OS.bindM at 1.
    rewrite (open_w_tidy dir _ fs0 Ht0 Hn1 Hnul Hl1).
    set (p1 := OS.joinpath dir ("transmitter-" ++ Transmitter.name t ++ ".qth")).
    pose proof (tidy_update_file dir p1 EmptyString fs0 Ht0 (joinpath_ne dir _)) as Ht1.
    set (fs1 := OS.update fs0 p1 (OS.File EmptyString)) in *.
    unfold OS.bindM at 1.
    rewrite (open_w_tidy dir _ fs1 Ht1 Hn2 Hnul Hl2).
    set (p2 := OS.joinpath dir ("transmitter-" ++ Transmitter.name t ++ ".lrp")).
    pose proof (tidy_update_file dir p2 EmptyString fs1 Ht1 (joinpath_ne dir _)) as Ht2.
    set (fs2 := OS.update fs1 p2 (OS.File EmptyString)) in *.
    unfold OS.bindM at 1.
    rewrite (open_w_slashed dir _ _ (proj1 Ht2) Hnul H2 H1).
    reflexivity.
Qed.

Lemma slashed_name_is_refused_witness :
  fst (splat_report_values (splat_writes sample_report) drawn_names
         "/srv/terrain" "/srv/cities.dat" transmitter_slashed bure None tmp_only)
  = Raise (OSError "/tmp/tmpk3x9q2ab/transmitter-Menesble/Nord.qth").
Proof.
  apply (proj1 (slashed_name_is_refused drawn_names "/srv/terrain"
                  "/srv/cities.dat" transmitter_slashed bure None tmp_only
                  "/tmp/tmpk3x9q2ab" eq_refl tmp_only_fresh eq_refl)).
  repeat split; reflexivity.
Defined.

(** X10. When a projection or a rendering raises (an infinite longitude, a
    signalling NaN), the invocation raises that exception, the first in the
    order the files are written, and the tool is not run. *)
Theorem projection_error_is_raised (tmp_names : list string)
    (terrain_folder cities_filepath : string)
    (t : Transmitter.Transmitter) (r : Receiver.Receiver)
    (timeout : option Z) (fs : OS.filesystem) (dir : string) (e : exn) :
  ready tmp_names fs dir t r ->
  input_texts t r = Raise e ->
  forall splat,
    fst (splat_report_values splat tmp_names terrain_folder cities_filepath
           t r timeout fs)
    = Raise e.
Proof.
  intros (Hdir & Hfresh & Hnt & Hnr & Hroom) Htexts splat.
  unfold splat_report_values, OS.TemporaryDirectory.
  rewrite mkdtemp_chosen, Hdir.
  rewrite (inputs_opened dir t r fs _ Hfresh Hnt Hnr Hroom).
  unfold OS.bindM, OS.lift, OS.write.
  unfold input_texts in Htexts.
  destruct (q <- Transmitter.to_qthfields t ;; qth_text q) as [x1|e1];
    [|cbn [bind] in Htexts; injection Htexts as ->; reflexivity].
  destruct (l <- Transmitter.to_lrpfields t ;; lrp_text l) as [x2|e2];
    [|cbn [bind] in Htexts; injection Htexts as ->; reflexivity].
  destruct (q <- Receiver.to_qthfields r ;; qth_text q) as [x3|e3];
    [|cbn [bind] in Htexts; injection Htexts as ->; reflexivity].
  discriminate Htexts.
Qed.

Lemma projection_error_is_raised_witness :
  fst (splat_report_values (splat_writes sample_report) drawn_names
         "/srv/terrain" "/srv/cities.dat" menesble receiver_nowhere None tmp_only)
  = Raise InvalidOperation.
Proof.
  apply (projection_error_is_raised drawn_names "/srv/terrain" "/srv/cities.dat"
           menesble receiver_nowhere None tmp_only "/tmp/tmpk3x9q2ab").
  - split; [reflexivity|]. split; [exact tmp_only_fresh|].
    split; [reflexivity|]. split; [reflexivity|].
    split; vm_compute; reflexivity.
  - vm_compute. reflexivity.
Defined.

End PipelineFurther.

(** ** Construction: what an int becomes *)

Section ConstructionFurther.

Import Dec PySplat Validation Examples FieldExamples.

(** The latitude that is no number is met before the height that is
    missing. *)
Lemma construction_two_errors :
  Transmitter_new transmitter_args_two_errors = Raise InvalidOperation.
Proof. vm_compute. reflexivity. Qed.

Lemma to_string_of_int (z : Z) : to_string (of_int z) = Str.of_Z z.
Proof.
  unfold of_int, to_string, Str.of_Z.
  pose proof (len_int_pos (Z.abs_N z)) as Hl.
  rewrite Z.add_0_l.
  change (0 <=? 0) with true.
  destruct (Z.ltb_spec (-6) (len_int (Z.abs_N z))); [|lia].
  cbn [andb].
  destruct (Z.leb_spec (len_int (Z.abs_N z)) 0); [lia|].
  rewrite Z.leb_refl, Z.eqb_refl, Z.sub_diag.
  cbn [Z.to_nat Str.repeat]. rewrite !append_nil_r.
  destruct (z <? 0); reflexivity.
Qed.

(** X12. An int supplied for a decimal-typed field is stored exactly: the
    coercion never fails, the Transmitter or Receiver holds the decimal of
    the int in the field, and that decimal reads back as the digits of the
    int, with no point and no exponent. *)
Theorem int_is_stored_exactly (z : Z) :
  _convert_to_decimal (PyInt z) = Ok (of_int z) /\
  to_string (of_int z) = Str.of_Z z /\
  (forall targs t i,
     Transmitter_new targs = Ok t ->
     nth_error (transmitter_scalars targs) i = Some (PyInt z) ->
     nth_error (transmitter_decimals t) i = Some (of_int z)) /\
  (forall rargs r i,
     Receiver_new rargs = Ok r ->
     nth_error (receiver_scalars rargs) i = Some (PyInt z) ->
     nth_error (receiver_decimals r) i = Some (of_int z)).
Proof.
  split; [reflexivity|]. split; [apply to_string_of_int|]. split.
  - intros targs t i Ht Hi.
    destruct (transmitter_new_converts targs t Ht) as [Hmap _].
    exact (stored_at _ _ i (PyInt z) (of_int z) Hmap Hi eq_refl).
  - intros rargs r i Hr Hi.
    destruct (receiver_new_converts rargs r Hr) as [Hmap _].
    exact (stored_at _ _ i (PyInt z) (of_int z) Hmap Hi eq_refl).
Qed.

Lemma int_is_stored_exactly_witness :
  exists t,
    Transmitter_new transmitter_args_ints = Ok t /\
    nth_error (transmitter_decimals t) 1 = Some (of_int (-5)) /\
    to_string (of_int (-5)) = "-5".
Proof.
  eexists. split; [vm_compute; reflexivity|].
  pose proof (int_is_stored_exactly (-5)) as (_ & Hstr & Ht & _).
  split; [|exact Hstr].
  apply (Ht transmitter_args_ints _ 1%nat); [vm_compute|]; reflexivity.
Defined.

End ConstructionFurther.

(** ** A decimal read back from its string *)

Section ReadBack.

Import Dec PySplat Validation Lines Repr Examples Decode.

(** *** Digits written and read *)

Lemma int_onto_app (a b : string) :
  forall n, Str.int_onto (a ++ b) n = Str.int_onto b (Str.int_onto a n).
Proof.
  induction a as [|c a IH]; intros n; cbn [String.append Str.int_onto];
    [reflexivity|apply IH].
Qed.

Lemma digit_val_chr (d : N) : (d < 10)%N -> Str.digit_val (Str.digit_chr d) = d.
Proof.
  intros H. unfold Str.digit_val, Str.digit_chr.
  rewrite N_ascii_embedding by lia. lia.
Qed.

Lemma int_of_digits_of_N (n : N) : Str.int_of_digits (Str.of_N n) = n.
Proof.
  induction n as [n IH] using (well_founded_induction N.lt_wf_0).
  destruct (N.ltb_spec n 10) as [Hlt|Hge].
  - rewrite of_N_digit by exact Hlt. unfold Str.int_of_digits. cbn [Str.int_onto].
    rewrite digit_val_chr by exact Hlt. lia.
  - replace n with (10 * (n / 10) + n mod 10)%N at 1 by lia.
    rewrite of_N_snoc by lia.
    unfold Str.int_of_digits. rewrite int_onto_app. cbn [Str.int_onto].
    fold (Str.int_of_digits (Str.of_N (n / 10))).
    rewrite IH by lia. rewrite digit_val_chr by lia. lia.
Qed.

Lemma of_N_not_empty (n : N) : Str.of_N n <> EmptyString.
Proof.
  intros H. pose proof (len_int_pos n) as Hl. unfold len_int in Hl.
  rewrite H in Hl. cbn in Hl. lia.
Qed.

Lemma length_take (n : nat) :
  forall s, (n <= String.length s)%nat -> String.length (Str.take n s) = n.
Proof.
  induction n as [|n IH]; intros [|c s] H; cbn in *; try lia.
  rewrite IH by lia. reflexivity.
Qed.

Lemma length_drop (n : nat) :
  forall s, String.length (Str.drop n s) = (String.length s - n)%nat.
Proof.
  induction n as [|n IH]; intros [|c s]; cbn; try lia. apply IH.
Qed.

Lemma take_drop (n : nat) : forall s, Str.take n s ++ Str.drop n s = s.
Proof.
  induction n as [|n IH]; intros [|c s]; cbn; try reflexivity.
  rewrite IH. reflexivity.
Qed.

(** *** The parser on what [str] writes *)

Lemma decimal_not_blank (c : ascii) :
  decimal_char c = true -> Str.not_blank c = true.
Proof.
  unfold decimal_char. intros H. apply orb_true_iff in H as [H|H].
  - apply digit_not_blank. exact H.
  - cbn [Str.existsb] in H.
    repeat (apply orb_true_iff in H as [H|H];
            [apply Ascii.eqb_eq in H; subst c; reflexivity|]).
    discriminate H.
Qed.

Lemma forallb_impl (p q : ascii -> bool) (s : string) :
  (forall c, p c = true -> q c = true) ->
  Str.forallb p s = true -> Str.forallb q s = true.
Proof.
  intros Hpq. induction s as [|c s IH]; cbn; [reflexivity|].
  intros H. apply andb_true_iff in H as [Hc Hs].
  rewrite (Hpq c Hc), (IH Hs). reflexivity.
Qed.

Lemma of_string_signed (sign : bool) (body : string) :
  Str.forallb Str.not_blank body = true ->
  match body with
  | String c _ => c <> "-"%char /\ c <> "+"%char
  | EmptyString => True
  end ->
  of_string (sign_str sign ++ body)
  = match (if starts_number body then parse_number sign body
           else parse_special sign body) with
    | Some d => Ok d
    | None => Raise InvalidOperation
    end.
Proof.
  intros Hnb Hhead. unfold of_string. destruct sign.
  - change (sign_str true ++ body) with (String "-" body).
    assert (H : Str.forallb Str.not_blank (String "-" body) = true).
    { cbn [Str.forallb]. rewrite Hnb. reflexivity. }
    rewrite (strip_id _ H), (drop_underscores_id _ H). reflexivity.
  - change (sign_str false ++ body) with body.
    rewrite (strip_id _ Hnb), (drop_underscores_id _ Hnb).
    destruct body as [|c r]; [reflexivity|].
    destruct Hhead as [Hm Hp].
    assert (Hsign : forall T (k1 k2 : string -> T) (k3 : T),
              match String c r with
              | String "-" r => k1 r
              | String "+" r => k2 r
              | _ => k3
              end = k3).
    { intros T k1 k2 k3.
      destruct c as [[] [] [] [] [] [] [] []]; try reflexivity; congruence. }
    rewrite Hsign. reflexivity.
Qed.

Lemma parse_exp_written (z : Z) :
  parse_exp ("E" ++ Str.of_Z_signed z) = Some z.
Proof.
  assert (Hd : Str.forallb Str.is_digit (Str.of_N (Z.abs_N z)) = true)
    by (apply forallb_of_N; auto).
  pose proof (of_N_not_empty (Z.abs_N z)) as Hne.
  pose proof (int_of_digits_of_N (Z.abs_N z)) as Hint.
  pose proof (span_digits_all _ Hd) as Hspan.
  unfold Str.of_Z_signed.
  destruct (Str.of_N (Z.abs_N z)) as [|x ds] eqn:E; [congruence|].
  destruct (Z.ltb_spec z 0);
    cbn [String.append parse_exp Str.lower Ascii.eqb Bool.eqb N_of_ascii];
    cbv beta iota zeta; rewrite Hspan, Hint, N2Z.inj_abs_N;
    change (Ascii.eqb (Str.lower "E") "e") with true; cbv iota;
    f_equal; lia.
Qed.

Lemma parse_number_written (sign : bool) (ip fp tail : string) (z : Z) :
  digits1 ip = true -> Str.forallb Str.is_digit fp = true ->
  tail = EmptyString \/ (exists r, tail = String "E" r) ->
  parse_exp tail = Some z ->
  starts_number (mantissa ip fp ++ tail) = true /\
  parse_number sign (mantissa ip fp ++ tail)
  = Some (Fin sign (Str.int_of_digits (ip ++ fp))
            (z - Z.of_nat (String.length fp))).
Proof.
  intros Hip Hfp Htail Hexp.
  unfold digits1 in Hip. apply andb_true_iff in Hip as [Hip Hne].
  destruct ip as [|x ip]; [discriminate|]. clear Hne.
  pose proof Hip as Hip'.
  cbn [Str.forallb] in Hip. apply andb_true_iff in Hip as [Hx Hip].
  assert (Hnd : match tail with
                | String c _ => Str.is_digit c = false
                | EmptyString => True
                end).
  { destruct Htail as [->|(r & ->)]; [exact I|reflexivity]. }
  split.
  - unfold mantissa. destruct fp; cbn [String.append starts_number]; rewrite Hx;
      match goal with |- match ?s with _ => _ end = _ => destruct s; reflexivity end.
  - unfold parse_number, mantissa. destruct fp as [|y fp].
    + rewrite (span_digits_app (String x ip) tail Hip' Hnd).
      destruct Htail as [->|(r & ->)]; cbv beta iota; rewrite Hexp;
        cbn [String.length]; rewrite ?append_nil_r; reflexivity.
    + rewrite append_assoc.
      rewrite (span_digits_app (String x ip) (("." ++ String y fp) ++ tail) Hip')
        by reflexivity.
      change (("." ++ String y fp) ++ tail) with (String "." (String y fp ++ tail)).
      cbv beta iota.
      rewrite (span_digits_app (String y fp) tail Hfp Hnd).
      rewrite Hexp. reflexivity.
Qed.

(** *** What [str] writes for a finite decimal *)

Lemma digits1_of_N (n : N) : digits1 (Str.of_N n) = true.
Proof.
  unfold digits1. rewrite forallb_of_N by auto.
  destruct (Str.of_N n) eqn:E; [|reflexivity].
  destruct (of_N_not_empty n E).
Qed.

Lemma to_string_shape (s : bool) (c : N) (e : Z) :
  exists ip fp tail z,
    to_string (Fin s c e) = sign_str s ++ mantissa ip fp ++ tail /\
    digits1 ip = true /\ Str.forallb Str.is_digit fp = true /\
    (tail = EmptyString \/ exists r, tail = String "E" r) /\
    parse_exp tail = Some z /\
    Str.int_of_digits (ip ++ fp) = c /\
    z - Z.of_nat (String.length fp) = e.
Proof.
  pose proof (len_int_pos c) as Hl.
  pose proof (int_of_digits_of_N c) as Hint.
  assert (Hd : Str.forallb Str.is_digit (Str.of_N c) = true)
    by (apply forallb_of_N; auto).
  assert (Hlen : Z.of_nat (String.length (Str.of_N c)) = len_int c) by reflexivity.
  unfold to_string. cbv zeta.
  set (ld := e + len_int c).
  destruct ((e <=? 0) && (-6 <? ld)) eqn:Hpos.
  - (* written without an exponent *)
    apply andb_true_iff in Hpos as [He Hld].
    apply Z.leb_le in He. apply Z.ltb_lt in Hld.
    rewrite Z.eqb_refl.
    destruct (Z.leb_spec ld 0) as [Hld0|Hld0].
    + exists "0", (Str.repeat "0" (Z.to_nat (- ld)) ++ Str.of_N c), EmptyString, 0.
      split.
      { unfold mantissa.
        destruct (Str.repeat "0" (Z.to_nat (- ld)) ++ Str.of_N c) eqn:E.
        - exfalso. apply (f_equal String.length) in E.
          rewrite append_length in E. cbn [String.length] in E. lia.
        - rewrite <- E. rewrite !append_nil_r. reflexivity. }
      split; [reflexivity|]. split.
      { rewrite forallb_app, forallb_repeat, Hd by reflexivity. reflexivity. }
      split; [left; reflexivity|]. split; [reflexivity|]. split.
      { change (Str.int_of_digits ("0" ++ Str.repeat "0" (Z.to_nat (- ld)) ++ Str.of_N c))
          with (Str.int_onto (Str.repeat "0" (Z.to_nat (- ld)) ++ Str.of_N c) 0).
        rewrite int_onto_zeros. exact Hint. }
      rewrite append_length, length_repeat. lia.
    + destruct (Z.leb_spec (len_int c) ld) as [Hfull|Hpart].
      * assert (e = 0) by lia. subst e.
        exists (Str.of_N c), EmptyString, EmptyString, 0.
        replace (ld - len_int c) with 0 by lia.
        cbn [Z.to_nat Str.repeat]. unfold mantissa.
        rewrite !append_nil_r.
        split; [reflexivity|]. split; [apply digits1_of_N|].
        split; [reflexivity|]. split; [left; reflexivity|].
        split; [reflexivity|]. split; [exact Hint|reflexivity].
      * exists (Str.take (Z.to_nat ld) (Str.of_N c)),
          (Str.drop (Z.to_nat ld) (Str.of_N c)), EmptyString, 0.
        assert (Hdl : String.length (Str.drop (Z.to_nat ld) (Str.of_N c))
                      = Z.to_nat (- e)).
        { rewrite length_drop. lia. }
        split.
        { unfold mantissa.
          destruct (Str.drop (Z.to_nat ld) (Str.of_N c)) eqn:E.
          - cbn [String.length] in Hdl. lia.
          - rewrite !append_nil_r. reflexivity. }
        split.
        { unfold digits1. rewrite forallb_take by exact Hd.
          destruct (Str.take (Z.to_nat ld) (Str.of_N c)) eqn:E; [|reflexivity].
          apply (f_equal String.length) in E.
          rewrite length_take in E by lia. cbn in E. lia. }
        split; [apply forallb_drop; exact Hd|].
        split; [left; reflexivity|]. split; [reflexivity|].
        split; [rewrite take_drop; exact Hint|].
        rewrite Hdl. lia.
  - (* written with an exponent *)
    assert (Hcase : 0 < e \/ ld <= -6).
    { apply andb_false_iff in Hpos as [H|H].
      - left. apply Z.leb_gt in H. exact H.
      - right. apply Z.ltb_ge in H. exact H. }
    destruct (Z.leb_spec 1 0); [lia|].
    assert (Hne : ld <> 1) by lia.
    destruct (Z.eqb_spec ld 1) as [|_]; [contradiction|].
    destruct (Z.leb_spec (len_int c) 1) as [Hone|Hmany].
    + exists (Str.of_N c), EmptyString, ("E" ++ Str.of_Z_signed (ld - 1)), (ld - 1).
      replace (1 - len_int c) with 0 by lia.
      cbn [Z.to_nat Str.repeat]. unfold mantissa.
      rewrite !append_nil_r.
      split; [reflexivity|]. split; [apply digits1_of_N|].
      split; [reflexivity|]. split; [right; eexists; reflexivity|].
      split; [apply parse_exp_written|]. split; [exact Hint|].
      cbn [String.length]. lia.
    + exists (Str.take 1 (Str.of_N c)), (Str.drop 1 (Str.of_N c)),
        ("E" ++ Str.of_Z_signed (ld - 1)), (ld - 1).
      assert (Hdl : String.length (Str.drop 1 (Str.of_N c))
                    = Z.to_nat (len_int c - 1)).
      { rewrite length_drop. lia. }
      change (Z.to_nat 1) with 1%nat.
      split.
      { unfold mantissa.
        destruct (Str.drop 1 (Str.of_N c)) eqn:E.
        - cbn [String.length] in Hdl. lia.
        - rewrite !append_assoc. reflexivity. }
      split.
      { unfold digits1. rewrite forallb_take by exact Hd.
        destruct (Str.take 1 (Str.of_N c)) eqn:E; [|reflexivity].
        apply (f_equal String.length) in E.
        rewrite length_take in E by lia. cbn in E. lia. }
      split; [apply forallb_drop; exact Hd|].
      split; [right; eexists; reflexivity|].
      split; [apply parse_exp_written|].
      split; [rewrite take_drop; exact Hint|].
      rewrite Hdl. lia.
Qed.

(** *** The round trip *)

Lemma map_lower_digits (s : string) :
  Str.forallb Str.is_digit s = true -> Str.map Str.lower s = s.
Proof.
  induction s as [|c s IH]; cbn [Str.map Str.forallb]; [reflexivity|].
  intros H. apply andb_true_iff in H as [Hc Hs]. rewrite (IH Hs). f_equal.
  unfold Str.is_digit in Hc. cbv zeta in Hc.
  apply andb_true_iff in Hc as [H1 H2]. apply N.leb_le in H1, H2.
  unfold Str.lower.
  destruct (N.leb_spec 65 (N_of_ascii c)); [lia|]. reflexivity.
Qed.

Lemma map_app (f : ascii -> ascii) (a b : string) :
  Str.map f (a ++ b) = Str.map f a ++ Str.map f b.
Proof. induction a as [|c a IH]; cbn; [reflexivity|]. rewrite IH. reflexivity. Qed.

Lemma payload_written (payload : N) :
  let diag := if (payload =? 0)%N then EmptyString else Str.of_N payload in
  Str.forallb Str.is_digit diag = true /\ Str.int_of_digits diag = payload.
Proof.
  cbv zeta. destruct (N.eqb_spec payload 0) as [->|_].
  - split; reflexivity.
  - split; [apply forallb_of_N; auto|apply int_of_digits_of_N].
Qed.

(** [Decimal(str(d))] is [d]: the sign, the digits and the exponent of a
    decimal are all in its string. *)
Lemma of_string_to_string (d : Decimal) : of_string (to_string d) = Ok d.
Proof.
  pose proof (to_string_chars d) as Hchars.
  destruct d as [s c e|s|s signaling payload].
  - destruct (to_string_shape s c e)
      as (ip & fp & tail & z & Hstr & Hip & Hfp & Htail & Hexp & Hc & He).
    rewrite Hstr in *.
    rewrite forallb_app in Hchars. apply andb_true_iff in Hchars as [_ Hbody].
    destruct (parse_number_written s ip fp tail z Hip Hfp Htail Hexp) as [Hst Hpn].
    rewrite of_string_signed.
    + rewrite Hst, Hpn, Hc, He. reflexivity.
    + exact (forallb_impl _ _ _ decimal_not_blank Hbody).
    + unfold digits1 in Hip. apply andb_true_iff in Hip as [Hd Hne].
      unfold mantissa. destruct ip as [|x ip]; [discriminate Hne|].
      cbn [Str.forallb] in Hd. apply andb_true_iff in Hd as [Hx _].
      assert (x <> "-"%char /\ x <> "+"%char).
      { split; intros ->; discriminate Hx. }
      destruct fp; cbn [String.append]; assumption.
  - unfold to_string in *.
    rewrite forallb_app in Hchars. apply andb_true_iff in Hchars as [_ Hbody].
    rewrite of_string_signed; [reflexivity|exact (forallb_impl _ _ _ decimal_not_blank Hbody)|].
    split; discriminate.
  - unfold to_string in *.
    destruct (payload_written payload) as [Hd Hint].
    set (diag := if (payload =? 0)%N then EmptyString else Str.of_N payload) in *.
    rewrite forallb_app in Hchars. apply andb_true_iff in Hchars as [_ Hbody].
    rewrite of_string_signed.
    + assert (Hst : starts_number ((if signaling then "sNaN" else "NaN") ++ diag)
                    = false).
      { destruct signaling; cbn [String.append starts_number];
          destruct diag; reflexivity. }
      rewrite Hst. unfold parse_special.
      rewrite map_app, (map_lower_digits diag Hd).
      destruct signaling; cbn [Str.map Str.lower String.append]; cbv beta iota zeta.
      * change (Str.lower "s") with "s"%char. change (Str.lower "N") with "n"%char.
        change (Str.lower "a") with "a"%char.
        cbn [String.eqb Ascii.eqb Bool.eqb orb].
        rewrite Hd, Hint. reflexivity.
      * change (Str.lower "N") with "n"%char. change (Str.lower "a") with "a"%char.
        cbn [String.eqb Ascii.eqb Bool.eqb orb].
        rewrite Hd, Hint. reflexivity.
    + exact (forallb_impl _ _ _ decimal_not_blank Hbody).
    + destruct signaling; split; discriminate.
Qed.

(** X13. A Transmitter or a Receiver constructed again from the strings of
    its decimal fields is the same object: no field loses a digit, its sign,
    its exponent or, for a NaN, its payload, and construction does not
    fail. *)
Theorem rebuilt_from_strings (t : Transmitter.Transmitter) (r : Receiver.Receiver) :
  Transmitter_new (transmitter_printed t) = Ok t /\
  Receiver_new (receiver_printed r) = Ok r.
Proof.
  split.
  - destruct t as [n lat lon h eirp f pol rc].
    unfold Transmitter_new, transmitter_printed.
    cbn [TransmitterArgs.name TransmitterArgs.latitude TransmitterArgs.longitude_WtoE
         TransmitterArgs.height_m TransmitterArgs.eirp_W TransmitterArgs.frequency_MHz
         TransmitterArgs.polarization TransmitterArgs.radio_climate
         Transmitter.name Transmitter.latitude Transmitter.longitude_WtoE
         Transmitter.height_m Transmitter.eirp_W Transmitter.frequency_MHz
         Transmitter.polarization Transmitter.radio_climate _convert_to_decimal].
    rewrite !of_string_to_string. reflexivity.
  - destruct r as [n lat lon h].
    unfold Receiver_new, receiver_printed.
    cbn [ReceiverArgs.name ReceiverArgs.latitude ReceiverArgs.longitude_WtoE
         ReceiverArgs.height_m Receiver.name Receiver.latitude
         Receiver.longitude_WtoE Receiver.height_m _convert_to_decimal].
    rewrite !of_string_to_string. reflexivity.
Qed.

Lemma of_string_of_Z (z : Z) : of_string (Str.of_Z z) = Ok (of_int z).
Proof. rewrite <- to_string_of_int. apply of_string_to_string. Qed.

(** X14. The input files lose nothing: the [.qth] text is the name and
    three numbers, the [.lrp] text is nine numbers with their comments, and
    every one of these numbers reads back, by [Decimal], as the field it was
    rendered from. *)
Theorem input_files_read_back (q : QTH.QTHFields) (l : LRP.LRPFields) :
  (exists l2 l3 l4,
     qth_text q
     = Ok (Str.join newline [QTH.name q; l2; l3; l4 ++ " meters"]) /\
     List.map of_string [l2; l3; l4] = List.map Ok (qth_numbers q)) /\
  (exists vals,
     lrp_text l = Ok (Str.join newline (zip_append vals lrp_comments)) /\
     List.map of_string vals = List.map Ok (lrp_numbers l)).
Proof.
  split.
  - exists (to_string (QTH.latitude q)), (to_string (QTH.longitude_EtoW q)),
      (to_string (QTH.height_m q)).
    split; [apply qth_text_eq|].
    unfold qth_numbers. cbn [List.map]. rewrite !of_string_to_string. reflexivity.
  - exists (lrp_values l). split; [apply lrp_text_eq|].
    unfold lrp_values, lrp_numbers. cbn [List.map].
    rewrite !of_string_to_string, !of_string_of_Z. reflexivity.
Qed.

End ReadBack.

(** ** The east-to-west longitude beyond the circle, and of what is no
    number *)

Section LongitudeFurther.

Import Dec PySplat Examples Beyond BeyondExamples.

Lemma rem360_signed (s : bool) (D m : Z) :
  0 <= D < 10 ^ 28 -> -1000026 <= m <= 0 ->
  rem DefaultContext (Fin s (Z.to_N D) m) (of_int 360)
  = Ok (Fin s (Z.to_N (D mod (360 * 10 ^ (- m)))) m).
Proof.
  intros HD Hm.
  assert (HT : 360 <= 360 * 10 ^ (- m)).
  { assert (0 < 10 ^ (- m)) by (apply Z.pow_pos_nonneg; lia). lia. }
  pose proof (Z.mod_pos_bound D (360 * 10 ^ (- m)) ltac:(lia)) as Hmod.
  pose proof (Z.mod_le D (360 * 10 ^ (- m)) ltac:(lia) ltac:(lia)) as Hmodle.
  change (of_int 360) with (Fin false 360 0).
  unfold rem. cbn [_check_nans]. unfold bind, _divide_rem.
  replace (Z.min m 0) with m by lia.
  destruct (N.eqb_spec (Z.to_N D) 0) as [Hz|Hnz].
  - cbn [orb]. rewrite Hz. cbn [_rescale].
    replace D with 0 by lia. rewrite Z.mod_0_l by lia.
    apply fix_zero. rewrite Etiny_default. lia.
  - cbn [orb].
    assert (Hpos : (0 < Z.to_N D)%N) by lia.
    destruct (len_int_bounds _ Hpos) as (Hl1 & Hlo & Hhi).
    rewrite Z2N.id in Hlo, Hhi by lia.
    pose proof (len_int_le (Z.to_N D) 28 ltac:(lia) ltac:(lia)) as Hl28.
    unfold adjusted. rewrite len_360.
    destruct (Z.leb_spec (m + len_int (Z.to_N D) - 1 - (0 + 3 - 1)) (-2)) as [Hsmall|Hbig].
    + rewrite rescale_same by assumption.
      assert (HDT : D < 360 * 10 ^ (- m)).
      { assert (H10 : 10 ^ len_int (Z.to_N D) <= 10 ^ (1 + - m)).
        { apply Z.pow_le_mono_r; lia. }
        rewrite pow_split in H10 by lia. change (10 ^ 1) with 10 in H10.
        lia. }
      rewrite Z.mod_small by lia.
      apply fix_exact_Z; [lia|rewrite Etiny_default; lia].
    + cbn [prec DefaultContext].
      destruct (Z.leb_spec (m + len_int (Z.to_N D) - 1 - (0 + 3 - 1)) 28); [|lia].
      pose proof (pow10_Z (0 - m)) as Hp.
      replace (0 - m) with (- m) in * by lia.
      assert (Hp28 : Z.of_N (pow10 28) = 10 ^ 28) by apply pow10_Z.
      destruct (Z.leb_spec 0 m) as [Hm0|Hmneg].
      * assert (m = 0) by lia. subst m.
        change (pow10 (0 - 0)) with 1%N. rewrite N.mul_1_r.
        change (- 0) with 0 in *. change (10 ^ 0) with 1 in *.
        rewrite Z.mul_1_r in *.
        destruct (N.ltb_spec (Z.to_N D / 360) (pow10 28)) as [_|Hq].
        2:{ exfalso. assert (Z.of_N (Z.to_N D / 360) <= D).
            { rewrite N2Z.inj_div, Z2N.id by lia. change (Z.of_N 360) with 360.
              apply Z.div_le_upper_bound; lia. }
            lia. }
        assert (Heq : (Z.to_N D mod 360)%N = Z.to_N (D mod 360)).
        { apply N2Z.inj. rewrite N2Z.inj_mod, !Z2N.id by lia. reflexivity. }
        rewrite Heq. apply fix_exact_Z; [lia|rewrite Etiny_default; lia].
      * destruct (N.ltb_spec (Z.to_N D / (360 * pow10 (- m))) (pow10 28)) as [_|Hq].
        2:{ exfalso.
            assert (Z.of_N (Z.to_N D / (360 * pow10 (- m))) <= D).
            { rewrite N2Z.inj_div, N2Z.inj_mul, Z2N.id, Hp by lia.
              change (Z.of_N 360) with 360.
              apply Z.div_le_upper_bound; [lia|]. nia. }
            lia. }
        assert (Heq : (Z.to_N D mod (360 * pow10 (- m)))%N
                      = Z.to_N (D mod (360 * 10 ^ (- m)))).
        { apply N2Z.inj. rewrite N2Z.inj_mod, N2Z.inj_mul, !Z2N.id, Hp by lia.
          reflexivity. }
        rewrite Heq. apply fix_exact_Z; [lia|rewrite Etiny_default; lia].
Qed.

Lemma sub360_above (s : bool) (c : N) (e : Z) :
  - 10 ^ 28 < Num.diff360 s c e < 0 -> Etiny DefaultContext <= e ->
  sub DefaultContext (Fin false 360 0) (Fin s c e)
  = Ok (Fin true (Z.to_N (- Num.diff360 s c e)) (Z.min 0 e)).
Proof.
  intros HD He. unfold Num.diff360 in *. rewrite Etiny_default in *.
  assert (Hm : -1000026 <= Z.min 0 e <= 0) by lia.
  assert (Hpm : 0 < 10 ^ (- Z.min 0 e)) by (apply Z.pow_pos_nonneg; lia).
  assert (Hpe : 0 < 10 ^ (e - Z.min 0 e)) by (apply Z.pow_pos_nonneg; lia).
  assert (Hs : s = false).
  { destruct s; [|reflexivity]. unfold Num.signed in HD. exfalso.
    assert (0 <= Z.of_N c * 10 ^ (e - Z.min 0 e))
      by (apply Z.mul_nonneg_nonneg; lia).
    lia. }
  subst s. cbn [Num.signed] in HD.
  assert (Hc : c <> 0%N).
  { intros ->. change (Z.of_N 0) with 0 in HD. lia. }
  unfold sub. cbn [_check_nans copy_negate negb].
  unfold add. cbn [_check_nans].
  change (360 =? 0)%N with false. cbn [andb].
  destruct (N.eqb_spec c 0) as [|_]; [contradiction|].
  cbn [prec DefaultContext].
  assert (Hcpos : (0 < c)%N) by lia.
  destruct (len_int_bounds c Hcpos) as (Hl1 & Hlo & Hhi).
  destruct (Z_le_gt_dec e 0) as [Hneg|Hpos].
  - replace (Z.min 0 e) with e in * by lia.
    replace (e - e) with 0 in * by lia.
    replace (10 ^ 0) with 1 in * by reflexivity. rewrite Z.mul_1_r in *.
    assert (Hmag : -26 <= len_int c + e).
    { destruct (Z_le_gt_dec (-26) (len_int c + e)); [assumption|exfalso].
      assert (Hc' : Z.of_N c < 10 ^ (- e)).
      { eapply Z.lt_le_trans; [exact Hhi|]. apply Z.pow_le_mono_r; lia. }
      lia. }
    rewrite normalize_360_neg by assumption.
    replace (0 - e) with (- e) by lia.
    pose proof (pow10_Z (- e)) as Hp.
    cbn [Bool.eqb negb].
    destruct (N.eqb_spec (360 * pow10 (- e)) c) as [Heq|Hne]; [lia|].
    destruct (N.ltb_spec (360 * pow10 (- e)) c) as [Hlt|Hge]; [|lia].
    rewrite fix_exact_Z_eq with (z := - (360 * 10 ^ (- e) - Z.of_N c)); try lia.
    reflexivity.
  - replace (Z.min 0 e) with 0 in * by lia.
    replace (- 0) with 0 in * by lia. rewrite Z.sub_0_r in *.
    replace (10 ^ 0) with 1 in * by reflexivity. rewrite Z.mul_1_r in *.
    assert (Hpe10 : 10 <= 10 ^ e).
    { change 10 with (10 ^ 1) at 1. apply Z.pow_le_mono_r; lia. }
    assert (Hmag : e + Z.min (-1) (len_int c - 30) <= 2).
    { destruct (Z_le_gt_dec (e + Z.min (-1) (len_int c - 30)) 2);
        [assumption|exfalso].
      assert (H32 : 10 ^ 32 <= 10 ^ (len_int c - 1) * 10 ^ e).
      { rewrite <- pow_split by lia. apply Z.pow_le_mono_r; lia. }
      assert (10 ^ (len_int c - 1) * 10 ^ e <= Z.of_N c * 10 ^ e).
      { apply Z.mul_le_mono_nonneg_r; lia. }
      change (10 ^ 32) with 100000000000000000000000000000000 in *.
      change (10 ^ 28) with 10000000000000000000000000000 in *.
      lia. }
    rewrite normalize_360_pos by (assumption || lia).
    rewrite Z.sub_0_r.
    pose proof (pow10_Z e) as Hp.
    cbn [Bool.eqb negb].
    destruct (N.eqb_spec 360 (c * pow10 e)) as [Heq|Hne]; [lia|].
    destruct (N.ltb_spec 360 (c * pow10 e)) as [Hlt|Hge]; [|lia].
    rewrite fix_exact_Z_eq with (z := - (360 - Z.of_N c * 10 ^ e)); try lia.
    reflexivity.
Qed.

Lemma east_to_west_above (s : bool) (c : N) (e : Z) :
  above_360 (Fin s c e) ->
  east_to_west (Fin s c e)
  = Ok (Fin true
          (Z.to_N ((- Num.diff360 s c e) mod (360 * 10 ^ (- Z.min 0 e))))
          (Z.min 0 e)).
Proof.
  intros [HD He]. pose proof He as He'. rewrite Etiny_default in He'.
  unfold east_to_west.
  change (of_string "360") with (Ok (Fin false 360 0)).
  cbn [bind]. unfold getcontext.
  rewrite (sub360_above s c e HD He). cbn [bind].
  apply rem360_signed; lia.
Qed.

Lemma above_value (s : bool) (c : N) (e : Z) (q : QTH.QTHFields) :
  above_360 (Fin s c e) ->
  QTH.longitude_EtoW q
  = Fin true (Z.to_N ((- Num.diff360 s c e) mod (360 * 10 ^ (- Z.min 0 e))))
      (Z.min 0 e) ->
  forall out, out = Ok q -> remainder_below_zero (Fin s c e) out.
Proof.
  intros [HD He] Hq out ->. rewrite Etiny_default in He.
  set (m := Z.min 0 e) in *. set (D := Num.diff360 s c e) in *.
  set (T := 360 * 10 ^ (- m)) in *.
  assert (HT : 0 < T).
  { subst T. assert (0 < 10 ^ (- m)) by (apply Z.pow_pos_nonneg; lia). lia. }
  pose proof (Z.mod_pos_bound (- D) T HT) as Hmod.
  exists q, (inject_Z (Num.signed s c) * 10 ^ e)%Q,
    (inject_Z (- ((- D) mod T)) * 10 ^ m)%Q.
  assert (Hvr : (inject_Z (- ((- D) mod T)) * 10 ^ m
                 == - (inject_Z ((- D) mod T) * 10 ^ m))%Q).
  { rewrite inject_Z_opp. ring. }
  assert (Hab : (10 ^ (- m) * 10 ^ m == 1)%Q).
  { rewrite <- Qpow10_add. replace (- m + m) with 0 by lia. reflexivity. }
  assert (H360 : (360 == inject_Z T * 10 ^ m)%Q).
  { subst T. rewrite inject_Z_mult, Qpow10_inject by lia.
    rewrite <- Qmult_assoc, Hab. reflexivity. }
  assert (Hdiff : (inject_Z (Num.signed s c) * 10 ^ e - 360
                   == inject_Z (- D) * 10 ^ m)%Q).
  { subst D. unfold Num.diff360. fold m.
    rewrite inject_Z_opp, inject_Z_minus, !inject_Z_mult, !Qpow10_inject by lia.
    replace e with ((e - m) + m) at 1 by lia. rewrite Qpow10_add.
    change (inject_Z 360) with 360%Q.
    transitivity (inject_Z (Num.signed s c) * 10 ^ (e - m) * 10 ^ m
                  - 360 * (10 ^ (- m) * 10 ^ m))%Q.
    - rewrite Hab. ring.
    - ring. }
  split; [reflexivity|]. split; [reflexivity|]. split; [|split; [|split]].
  - rewrite Hq. unfold Num.value, Num.signed. rewrite Z2N.id by lia.
    reflexivity.
  - rewrite Hvr, (qmod_comp _ _ _ _ Hdiff H360).
    rewrite qmod_scaled by (exact HT || apply Qpow10_pos). reflexivity.
  - rewrite Hvr, H360. apply Qopp_lt_compat. apply Qmult_lt_compat_r.
    + apply Qpow10_pos.
    + rewrite <- Zlt_Qlt. lia.
  - rewrite Hvr. apply (Qopp_le_compat 0). apply Qmult_le_0_compat.
    + change 0%Q with (inject_Z 0). rewrite <- Zle_Qle. lia.
    + apply Qlt_le_weak, Qpow10_pos.
Qed.

(** X15. Beyond the circle the remainder keeps the sign of the dividend:
    for every Transmitter and Receiver whose longitude_WtoE is above 360,
    with 360 - longitude_WtoE exact in the 28 digits of the context,
    to_qthfields returns, and longitude_EtoW is minus
    ((longitude_WtoE - 360) mod 360), in (-360, 0] and never in (0, 360). *)
Theorem longitude_above_360 (t : Transmitter.Transmitter) (r : Receiver.Receiver) :
  above_360 (Transmitter.longitude_WtoE t) ->
  above_360 (Receiver.longitude_WtoE r) ->
  remainder_below_zero (Transmitter.longitude_WtoE t)
    (Transmitter.to_qthfields t) /\
  remainder_below_zero (Receiver.longitude_WtoE r)
    (Receiver.to_qthfields r).
Proof.
  intros Ht Hr. split.
  - destruct t as [n lat lon h eirp f pol rc]. cbn [Transmitter.longitude_WtoE] in *.
    destruct lon as [s c e| |]; try contradiction.
    eapply above_value; [exact Ht| |].
    2:{ unfold Transmitter.to_qthfields. cbn [Transmitter.longitude_WtoE].
        rewrite (east_to_west_above s c e Ht). cbn [bind]. reflexivity. }
    reflexivity.
  - destruct r as [n lat lon h]. cbn [Receiver.longitude_WtoE] in *.
    destruct lon as [s c e| |]; try contradiction.
    eapply above_value; [exact Hr| |].
    2:{ unfold Receiver.to_qthfields. cbn [Receiver.longitude_WtoE].
        rewrite (east_to_west_above s c e Hr). cbn [bind]. reflexivity. }
    reflexivity.
Qed.

Lemma longitude_above_360_witness :
  remainder_below_zero (Transmitter.longitude_WtoE transmitter_at_370)
    (Transmitter.to_qthfields transmitter_at_370) /\
  remainder_below_zero (Receiver.longitude_WtoE receiver_once_around)
    (Receiver.to_qthfields receiver_once_around).
Proof.
  apply (longitude_above_360 transmitter_at_370 receiver_once_around).
  - vm_compute. repeat split; discriminate.
  - vm_compute. repeat split; discriminate.
Defined.

(** Twice around, the longitude written to the file is a negative zero. *)
Lemma longitude_at_720 :
  exists q,
    Transmitter.to_qthfields transmitter_at_720 = Ok q /\
    to_string (QTH.longitude_EtoW q) = "-0".
Proof. eexists. split; [vm_compute; reflexivity|]. vm_compute. reflexivity. Qed.

(** X16. What is no number goes through or is refused: to_qthfields raises
    InvalidOperation for an infinite longitude and for a signalling NaN,
    and for a quiet NaN it returns, with that NaN (its sign, and its
    payload of up to 28 digits) as longitude_EtoW. *)
Theorem longitude_not_a_number (sign : bool) (payload : N) :
  east_to_west (Inf sign) = Raise InvalidOperation /\
  east_to_west (NaN sign true payload) = Raise InvalidOperation /\
  (len_int payload <= 28 ->
   east_to_west (NaN sign false payload) = Ok (NaN sign false payload)) /\
  (forall t,
     Transmitter.longitude_WtoE t = Inf sign
     \/ Transmitter.longitude_WtoE t = NaN sign true payload ->
     Transmitter.to_qthfields t = Raise InvalidOperation) /\
  (forall r,
     Receiver.longitude_WtoE r = Inf sign
     \/ Receiver.longitude_WtoE r = NaN sign true payload ->
     Receiver.to_qthfields r = Raise InvalidOperation).
Proof.
  assert (Hinf : east_to_west (Inf sign) = Raise InvalidOperation).
  { destruct sign; reflexivity. }
  assert (Hsnan : east_to_west (NaN sign true payload) = Raise InvalidOperation).
  { reflexivity. }
  split; [exact Hinf|]. split; [exact Hsnan|]. split; [|split].
  - intros Hlen. unfold east_to_west.
    change (of_string "360") with (Ok (Fin false 360 0)).
    cbn [bind]. unfold sub, getcontext. cbn [_check_nans bind].
    assert (Hfix : _fix_nan DefaultContext (NaN sign false payload)
                   = NaN sign false payload).
    { unfold _fix_nan. destruct (payload =? 0)%N; [reflexivity|].
      cbn [prec DefaultContext].
      destruct (Z.ltb_spec 28 (len_int payload)); [lia|reflexivity]. }
    rewrite Hfix. unfold rem. cbn [_check_nans of_int]. rewrite Hfix. reflexivity.
  - intros t [H|H]; unfold Transmitter.to_qthfields; rewrite H;
      [rewrite Hinf|rewrite Hsnan]; reflexivity.
  - intros r [H|H]; unfold Receiver.to_qthfields; rewrite H;
      [rewrite Hinf|rewrite Hsnan]; reflexivity.
Qed.

Lemma longitude_not_a_number_witness :
  east_to_west (NaN false false 0) = Ok (NaN false false 0).
Proof.
  apply (proj1 (proj2 (proj2 (longitude_not_a_number false 0)))).
  vm_compute. discriminate.
Defined.

End LongitudeFurther.

(** ** The link parameters: when the projection raises *)

Section LinkFurther.

Import Dec PySplat Examples LinkExamples.

Lemma fix_raises_overflow (s : bool) (c : N) (e : Z) (err : exn) :
  _fix DefaultContext (Fin s c e) = Raise err ->
  err = Overflow /\ 1000000 <= len_int c + e.
Proof.
  unfold _fix. destruct c as [|p]; [discriminate|].
  unfold Etop. rewrite Etiny_default. cbn [prec Emax DefaultContext].
  set (L := len_int (N.pos p)).
  destruct (Z.ltb_spec (999999 - 28 + 1) (L + e - 28)) as [Hbig|Hfit].
  - intros Hr. injection Hr as <-. split; [reflexivity|lia].
  - set (em := if L + e - 28 <? -1000026 then -1000026 else L + e - 28).
    assert (Hem : em <= 999972 /\ (em = 999972 -> L + e = 1000000)).
    { subst em. destruct (Z.ltb_spec (L + e - 28) (-1000026)) as [Hl|Hl]; lia. }
    destruct (Z.ltb_spec e em) as [Hround|_]; [|discriminate].
    destruct (round_to (N.pos p) (L + e - em)) as [coeff changed].
    destruct (0 <? changed).
    + destruct (28 <? len_int (coeff + 1)).
      * destruct (Z.ltb_spec (999999 - 28 + 1) (em + 1)) as [Hl|Hl]; [|discriminate].
        intros Hr. injection Hr as <-. split; [reflexivity|].
        destruct Hem as [Hle Heq]. rewrite Heq by lia. lia.
      * destruct (Z.ltb_spec (999999 - 28 + 1) em) as [Hl|Hl]; [lia|discriminate].
    + destruct (Z.ltb_spec (999999 - 28 + 1) em) as [Hl|Hl]; [lia|discriminate].
Qed.

Lemma div_tail_size (coeff0 r : N) (ex ideal : Z) (fuel : nat) :
  6 * 10 ^ 28 <= Z.of_N coeff0 < 7 * 10 ^ 29 ->
  forall coeff exp,
    (if (r =? 0)%N then strip_exact fuel coeff0 ex ideal
     else ((if (coeff0 mod 5 =? 0)%N then coeff0 + 1 else coeff0)%N, ex))
    = (coeff, exp) ->
    len_int coeff + exp <= 30 + ex.
Proof.
  intros Hsize coeff exp H.
  change (10 ^ 28) with 10000000000000000000000000000 in Hsize.
  change (10 ^ 29) with 100000000000000000000000000000 in Hsize.
  assert (H30 : forall x, Z.of_N x < 1000000000000000000000000000000 ->
                          len_int x <= 30).
  { intros x Hx. apply len_int_le; [lia|].
    change (10 ^ 30) with 1000000000000000000000000000000. exact Hx. }
  destruct (r =? 0)%N.
  - destruct (strip_exact_spec fuel coeff0 ex ideal) as (j & Hj & He & Hc & _).
    rewrite H in He, Hc. cbn [fst snd] in He, Hc. subst exp.
    assert (Hpos : (0 < coeff)%N).
    { destruct (N.eq_dec coeff 0) as [->|]; [|lia].
      change (Z.of_N 0) with 0 in Hc. lia. }
    pose proof (len_int_shift coeff0 coeff j Hpos Hj Hc) as Hshift.
    pose proof (H30 coeff0 ltac:(lia)). lia.
  - injection H as <- <-.
    destruct (coeff0 mod 5 =? 0)%N;
      [pose proof (H30 (coeff0 + 1)%N ltac:(lia))|pose proof (H30 coeff0 ltac:(lia))];
      lia.
Qed.

(** The quotient by 1.64 before it is rounded: its digits end no higher
    than those of the dividend. *)
Lemma div_164_size (s : bool) (c : N) (e : Z) :
  (0 < c)%N ->
  exists coeff exp,
    div DefaultContext (Fin s c e) (Fin false 164 (-2))
    = _fix DefaultContext (Fin s coeff exp) /\
    len_int coeff + exp <= e + len_int c.
Proof.
  intros Hc.
  destruct (len_int_bounds c Hc) as (HL1 & Hlo & Hhi).
  unfold div. cbn [_check_nans]. rewrite xorb_false_r.
  change (164 =? 0)%N with false. cbv iota.
  destruct (N.eqb_spec c 0) as [|_]; [lia|].
  rewrite len_164. cbn [prec DefaultContext].
  replace (3 - len_int c + 28 + 1) with (32 - len_int c) by lia.
  replace (e - -2 - (32 - len_int c)) with (e + len_int c - 30) by lia.
  set (L := len_int c) in *. set (ex := e + L - 30).
  destruct (Z.leb_spec 0 (32 - L)) as [Hsh|Hsh].
  - rewrite N_div_eucl_eq.
    pose proof (pow10_Z (32 - L)) as Hp.
    assert (Hpp : 0 < 10 ^ (32 - L)) by (apply Z.pow_pos_nonneg; lia).
    assert (HNlo : 10 ^ 31 <= Z.of_N c * 10 ^ (32 - L)).
    { replace 31 with ((L - 1) + (32 - L)) by lia. rewrite Z.pow_add_r by lia. nia. }
    assert (HNhi : Z.of_N c * 10 ^ (32 - L) < 10 ^ 32).
    { replace 32 with (L + (32 - L)) at 2 by lia. rewrite Z.pow_add_r by lia. nia. }
    change (10 ^ 31) with 10000000000000000000000000000000 in HNlo.
    change (10 ^ 32) with 100000000000000000000000000000000 in HNhi.
    assert (Hsize : 6 * 10 ^ 28 <= Z.of_N (c * pow10 (32 - L) / 164) < 7 * 10 ^ 29).
    { rewrite N2Z.inj_div, N2Z.inj_mul, Hp. change (Z.of_N 164) with 164.
      change (10 ^ 28) with 10000000000000000000000000000.
      change (10 ^ 29) with 100000000000000000000000000000.
      lia. }
    match goal with
    | |- context [let '(coeff, exp) := ?pair in _] =>
        destruct pair as [coeff exp] eqn:Epair
    end.
    exists coeff, exp. split; [reflexivity|].
    pose proof (div_tail_size _ _ _ _ _ Hsize _ _ Epair). unfold ex in *. lia.
  - rewrite N_div_eucl_eq.
    replace (- (32 - L)) with (L - 32) by lia.
    pose proof (pow10_Z (L - 32)) as Hp.
    assert (Hpp : 0 < 10 ^ (L - 32)) by (apply Z.pow_pos_nonneg; lia).
    assert (HNlo : 10 ^ 31 * 10 ^ (L - 32) <= Z.of_N c).
    { rewrite <- Z.pow_add_r by lia. replace (31 + (L - 32)) with (L - 1) by lia. lia. }
    assert (HNhi : Z.of_N c < 10 ^ 32 * 10 ^ (L - 32)).
    { rewrite <- Z.pow_add_r by lia. replace (32 + (L - 32)) with L by lia. lia. }
    change (10 ^ 31) with 10000000000000000000000000000000 in HNlo.
    change (10 ^ 32) with 100000000000000000000000000000000 in HNhi.
    assert (Hsize : 6 * 10 ^ 28 <= Z.of_N (c / (164 * pow10 (L - 32)))
                    < 7 * 10 ^ 29).
    { rewrite N2Z.inj_div, N2Z.inj_mul, Hp. change (Z.of_N 164) with 164.
      change (10 ^ 28) with 10000000000000000000000000000.
      change (10 ^ 29) with 100000000000000000000000000000.
      split.
      - apply Z.div_le_lower_bound; lia.
      - apply Z.div_lt_upper_bound; lia. }
    match goal with
    | |- context [let '(coeff, exp) := ?pair in _] =>
        destruct pair as [coeff exp] eqn:Epair
    end.
    exists coeff, exp. split; [reflexivity|].
    pose proof (div_tail_size _ _ _ _ _ Hsize _ _ Epair). unfold ex in *. lia.
Qed.

(** X17. The projection to the link parameters raises for two kinds of
    power only: InvalidOperation for a signalling NaN, Overflow for a finite
    power that is not zero and whose adjusted exponent is above 999998. It
    never raises DivisionByZero, and it returns for every zero, every
    infinity, every quiet NaN and every power however small. *)
Theorem to_lrpfields_raises (t : Transmitter.Transmitter) (err : exn) :
  Transmitter.to_lrpfields t = Raise err ->
  (err = InvalidOperation /\
   exists sign payload, Transmitter.eirp_W t = NaN sign true payload) \/
  (err = Overflow /\
   exists sign c e,
     Transmitter.eirp_W t = Fin sign c e /\ (0 < c)%N /\
     999998 < e + len_int c - 1).
Proof.
  unfold Transmitter.to_lrpfields.
  change (of_string "1.64") with (Ok (Fin false 164 (-2))).
  cbn [bind]. unfold getcontext.
  destruct (Transmitter.eirp_W t) as [s c e|s|s signaling payload] eqn:E.
  - destruct (N.eq_dec c 0) as [->|Hc].
    + unfold div. cbn [_check_nans]. change (164 =? 0)%N with false.
      cbn [N.eqb _fix bind]. discriminate.
    + destruct (div_164_size s c e ltac:(lia)) as (coeff & exp & Hdiv & Hsize).
      rewrite Hdiv.
      destruct (_fix DefaultContext (Fin s coeff exp)) as [d|err'] eqn:Hfix;
        [discriminate|].
      cbn [bind]. intros H. injection H as <-.
      destruct (fix_raises_overflow _ _ _ _ Hfix) as [-> Hbig].
      right. split; [reflexivity|]. exists s, c, e.
      split; [reflexivity|]. split; lia.
  - cbn. discriminate.
  - destruct signaling.
    + cbn. intros H. injection H as <-. left. split; [reflexivity|].
      exists s, payload. reflexivity.
    + unfold div. cbn [_check_nans bind]. discriminate.
Qed.

Lemma to_lrpfields_raises_witness :
  exists sign payload,
    Transmitter.eirp_W transmitter_unset_power = NaN sign true payload.
Proof.
  destruct (to_lrpfields_raises transmitter_unset_power InvalidOperation eq_refl)
    as [[_ H]|[H _]]; [exact H|discriminate H].
Defined.

End LinkFurther.
